(** * Installation plan executor (scripts/executor.py)

    A shallow embedding of [skills/install-script-generator/scripts/executor.py]:
    the built-in YAML reader ([simple_yaml_load], [parse_value], [yaml_load]),
    the command runner ([run_command]), the execution engine ([execute_plan])
    and the part of [main] that loads a plan and runs it.

    Conventions of the embedding.
    - Python values are the inductive type [value]; a [dict] is an
      association list in insertion order, with string keys.
    - Python [str] is [string]: sequences of characters with code points
      below 256.
    - The operating system is a world [W] with two oracles: [spawn] stands
      for [subprocess.run(..., shell=True, capture_output=True, text=True)]
      and [now] for [datetime.now().isoformat()].  Interrupts that are not
      [Exception]s (Ctrl-C) are outside the model.
    - Code that can raise lives in the monad [M]: state passing over
      [state W] with a [result].  The state carries the world and two ghost
      logs: the arguments of every [run_command] call and every command
      handed to the shell.
    - Console output ([print]) is not modelled.
    - Integers are [Z].  The conversions between [int] and [str] are those
      of an interpreter with the digit limit lifted ([PyNum.py_int],
      [PyStr.of_Z]); what is proved of arbitrary integers is stated for
      those within the default limit of 4300 digits ([printable]).
    - The plan file is a text file ([TextFile]): writing stores
      [os.linesep] for a line feed, reading gives a line feed for every
      kind of line end. *)

From Stdlib Require Import ZArith NArith List String Ascii Bool Lia.
From Stdlib Require DecimalString.
From Stdlib Require DecimalPos.
Import ListNotations.

Local Open Scope string_scope.
Local Open Scope Z_scope.
Local Open Scope list_scope.

Set Implicit Arguments.
Set Warnings "-register-all".

(* ===================================================================== *)
(** ** Python strings *)
(* ===================================================================== *)

Module PyStr.

Definition code (c : ascii) : N := N_of_ascii c.

(** [str.isspace] on one character: the characters that [strip],
    [lstrip], [int] and [float] skip. *)
Definition is_space (c : ascii) : bool :=
  let n := code c in
  (((9 <=? n) && (n <=? 13)) || ((28 <=? n) && (n <=? 32))
   || (n =? 133) || (n =? 160))%N.

Definition is_digit (c : ascii) : bool :=
  let n := code c in ((48 <=? n) && (n <=? 57))%N.

Definition digit_val (c : ascii) : N := (code c - 48)%N.

(** [c.lower()] *)
Definition lower_char (c : ascii) : ascii :=
  let n := code c in
  if (((65 <=? n) && (n <=? 90))
      || ((192 <=? n) && (n <=? 222) && negb (n =? 215)))%N
  then ascii_of_N (n + 32) else c.

Fixpoint lower (s : string) : string :=
  match s with
  | EmptyString => EmptyString
  | String c s' => String (lower_char c) (lower s')
  end.

Fixpoint lstrip (s : string) : string :=
  match s with
  | EmptyString => EmptyString
  | String c s' => if is_space c then lstrip s' else s
  end.

Fixpoint rstrip (s : string) : string :=
  match s with
  | EmptyString => EmptyString
  | String c s' =>
      match rstrip s' with
      | EmptyString => if is_space c then EmptyString else String c EmptyString
      | r => String c r
      end
  end.

Definition strip (s : string) : string := lstrip (rstrip s).

(** [s.startswith(p)] *)
Fixpoint startswith (p s : string) : bool :=
  match p, s with
  | EmptyString, _ => true
  | String a p', String b s' => Ascii.eqb a b && startswith p' s'
  | String _ _, EmptyString => false
  end.

(** [s[n:]] for [n >= 0] *)
Fixpoint drop (n : nat) (s : string) : string :=
  match n, s with
  | O, _ => s
  | S n', String _ s' => drop n' s'
  | S _, EmptyString => EmptyString
  end.

(** [s.endswith(p)] *)
Definition endswith (p s : string) : bool :=
  (String.length p <=? String.length s)%nat
  && String.eqb (drop (String.length s - String.length p) s) p.

(** [s[:-1]] *)
Fixpoint drop_last (s : string) : string :=
  match s with
  | EmptyString => EmptyString
  | String c EmptyString => EmptyString
  | String c s' => String c (drop_last s')
  end.

(** [s[1:-1]] *)
Definition slice_1_m1 (s : string) : string := drop_last (drop 1 s).

(** [c in s] for a one-character [c] *)
Fixpoint contains (c : ascii) (s : string) : bool :=
  match s with
  | EmptyString => false
  | String a s' => Ascii.eqb a c || contains c s'
  end.

(** [s.partition(c)] for a one-character separator: the text before the
    first [c], whether [c] was found, the text after it. *)
Fixpoint partition (c : ascii) (s : string) : string * bool * string :=
  match s with
  | EmptyString => (EmptyString, false, EmptyString)
  | String a s' =>
      if Ascii.eqb a c then (EmptyString, true, s')
      else let '(h, f, t) := partition c s' in (String a h, f, t)
  end.

(** [s.split(c)] for a one-character separator *)
Fixpoint split (c : ascii) (s : string) : list string :=
  match s with
  | EmptyString => [EmptyString]
  | String a s' =>
      if Ascii.eqb a c then EmptyString :: split c s'
      else match split c s' with
           | h :: t => String a h :: t
           | [] => [String a EmptyString]
           end
  end.

(** The one-character string holding a double quote. *)
Definition dquote : string := String (ascii_of_N 34) EmptyString.

(** [str(z)] for an [int], the digit limit lifted (see [PyNum.py_int]). *)
Definition of_Z (z : Z) : string :=
  DecimalString.NilZero.string_of_int (Z.to_int z).

End PyStr.

(* ===================================================================== *)
(** ** Python values *)
(* ===================================================================== *)

(** A [float] is kept as the decimal it was read from: [FDec neg m e] is the
    double nearest to [(-1)^neg * m * 10^e]. *)
Inductive pyfloat : Type :=
| FInf (neg : bool)
| FNan
| FDec (neg : bool) (mant : N) (exp10 : Z).

Inductive value : Type :=
| VNone
| VBool (b : bool)
| VInt (z : Z)
| VFloat (f : pyfloat)
| VStr (s : string)
| VList (l : list value)
| VDict (d : list (string * value)).

Definition pydict : Type := list (string * value).

(** [f == 0.0]: the decimal is zero or rounds to zero, that is, it is at
    most half of the least positive double, [2^-1075]. *)
Definition float_is_zero (f : pyfloat) : bool :=
  match f with
  | FInf _ | FNan => false
  | FDec _ m e =>
      (m =? 0)%N
      || ((e <? 0) && (Z.of_N m * 2 ^ 1075 <=? 10 ^ (- e)))
  end.

(** [bool(v)] *)
Definition truthy (v : value) : bool :=
  match v with
  | VNone => false
  | VBool b => b
  | VInt z => negb (z =? 0)
  | VFloat f => negb (float_is_zero f)
  | VStr s => negb (String.eqb s EmptyString)
  | VList l => match l with [] => false | _ => true end
  | VDict d => match d with [] => false | _ => true end
  end.

(** [d.get(k)] on the association list: [None] when the key is absent. *)
Fixpoint dict_find (A : Type) (k : string) (d : list (string * A)) : option A :=
  match d with
  | [] => None
  | (k', v) :: d' => if String.eqb k' k then Some v else dict_find k d'
  end.

(** [d.get(k, default)] *)
Definition dict_get (d : pydict) (k : string) (default : value) : value :=
  match dict_find k d with
  | Some v => v
  | None => default
  end.

(** [d[k] = v]: an existing key keeps its place, a new key goes last. *)
Fixpoint dict_set (A : Type) (k : string) (v : A) (d : list (string * A))
  : list (string * A) :=
  match d with
  | [] => [(k, v)]
  | (k', v') :: d' =>
      if String.eqb k' k then (k', v) :: d' else (k', v') :: dict_set k v d'
  end.

(* ===================================================================== *)
(** ** The built-in YAML reader *)
(* ===================================================================== *)

Module PyNum.
Import PyStr.

(** One or more digits, single underscores allowed between digits: the
    [digitpart] of Python's numeric literals.  Returns the number read
    and how many digits it had. *)
Fixpoint digitpart (acc : N) (count : nat) (after_digit : bool) (s : string)
  : option (N * nat) :=
  match s with
  | EmptyString => if after_digit then Some (acc, count) else None
  | String c s' =>
      if is_digit c then
        digitpart (10 * acc + digit_val c)%N (S count) true s'
      else if Ascii.eqb c "_" then
        if after_digit then digitpart acc count false s' else None
      else None
  end.

(** An optional sign: whether it was a minus, and the rest. *)
Definition sign (s : string) : bool * string :=
  match s with
  | String "-" s' => (true, s')
  | String "+" s' => (false, s')
  | _ => (false, s)
  end.

(** The blanks that [int] and [float] skip before and after a number: the
    characters of [str.isspace] but for the separators with the codes 28
    to 31, which they refuse. *)
Definition is_blank (c : ascii) : bool :=
  let n := code c in
  (((9 <=? n) && (n <=? 13)) || (n =? 32) || (n =? 133) || (n =? 160))%N.

Fixpoint lblank (s : string) : string :=
  match s with
  | EmptyString => EmptyString
  | String c s' => if is_blank c then lblank s' else s
  end.

Fixpoint rblank (s : string) : string :=
  match s with
  | EmptyString => EmptyString
  | String c s' =>
      match rblank s' with
      | EmptyString => if is_blank c then EmptyString else String c EmptyString
      | r => String c r
      end
  end.

Definition unblank (s : string) : string := lblank (rblank s).

(** [int(s)] for a string: [None] stands for [ValueError].  An interpreter
    with [sys.int_max_str_digits] set (4300 since Python 3.11, unless it is
    lifted) also refuses a text of more digits; [py_int] is [int] with the
    limit lifted, and so is [of_Z] for [str].  What is proved of arbitrary
    integers is stated for the integers within the limit ([printable]
    below), on which the two settings agree. *)
Definition py_int (s : string) : option Z :=
  let '(neg, body) := sign (unblank s) in
  match digitpart 0 0 false body with
  | Some (n, _) => Some (if neg then - Z.of_N n else Z.of_N n)
  | None => None
  end.

(** The text before the first [e] or [E], and the text after it when
    there is one. *)
Fixpoint split_exponent (s : string) : string * option string :=
  match s with
  | EmptyString => (EmptyString, None)
  | String c s' =>
      if Ascii.eqb c "e" || Ascii.eqb c "E" then (EmptyString, Some s')
      else let '(h, t) := split_exponent s' in (String c h, t)
  end.

(** [digitpart "." digitpart], [digitpart "."], ["." digitpart] or
    [digitpart]: the digits read as one number, and how many of them
    stood after the point. *)
Definition pointfloat (s : string) : option (N * nat) :=
  let '(ip, found, fp) := partition "." s in
  if found then
    match ip, fp with
    | EmptyString, _ =>
        match digitpart 0 0 false fp with
        | Some (m, k) => Some (m, k)
        | None => None
        end
    | _, EmptyString =>
        match digitpart 0 0 false ip with
        | Some (m, _) => Some (m, O)
        | None => None
        end
    | _, _ =>
        match digitpart 0 0 false ip with
        | Some (m, _) =>
            match digitpart m 0 false fp with
            | Some (m', k) => Some (m', k)
            | None => None
            end
        | None => None
        end
    end
  else
    match digitpart 0 0 false ip with
    | Some (m, _) => Some (m, O)
    | None => None
    end.

Definition exponent (s : string) : option Z :=
  let '(neg, body) := sign s in
  match digitpart 0 0 false body with
  | Some (n, _) => Some (if neg then - Z.of_N n else Z.of_N n)
  | None => None
  end.

(** [float(s)] for a string: [None] stands for [ValueError]. *)
Definition py_float (s : string) : option pyfloat :=
  let '(neg, body) := sign (unblank s) in
  let low := lower body in
  if String.eqb low "inf" || String.eqb low "infinity" then Some (FInf neg)
  else if String.eqb low "nan" then Some FNan
  else
    let '(mant, ex) := split_exponent body in
    match pointfloat mant with
    | None => None
    | Some (m, k) =>
        match ex with
        | None => Some (FDec neg m (- Z.of_nat k))
        | Some e =>
            match exponent e with
            | Some x => Some (FDec neg m (x - Z.of_nat k))
            | None => None
            end
        end
    end.

End PyNum.

(** [parse_value(value)]: "Parse a YAML value string."  The argument is
    called [text] here, [value] being the type. *)
Definition parse_value (text : string) : value :=
  if String.eqb (PyStr.lower text) "null"
     || String.eqb (PyStr.lower text) "none"
     || String.eqb text "~" then VNone
  else if String.eqb (PyStr.lower text) "true" then VBool true
  else if String.eqb (PyStr.lower text) "false" then VBool false
  else if PyStr.startswith PyStr.dquote text && PyStr.endswith PyStr.dquote text
       then VStr (PyStr.slice_1_m1 text)
  else if PyStr.startswith "'" text && PyStr.endswith "'" text
       then VStr (PyStr.slice_1_m1 text)
  else match PyNum.py_int text with
       | Some z => VInt z
       | None =>
           match PyNum.py_float text with
           | Some f => VFloat f
           | None => VStr text
           end
       end.

Module Loader.

(** The reader builds its result by mutation through three aliases:
    [current_list] is the list stored under a top-level key, [current_item]
    is the mapping last appended to such a list, and both stay alive when
    the key is assigned again.  The lists therefore live in a store
    ([lists], addressed by creation order); [result] refers to them. *)
Inductive slot : Type :=
| Scalar (v : value)
| ListRef (id : nat).

Record loader : Type := mkLoader {
  result : list (string * slot);
  lists : list (list value);
  current_list : option nat;
  current_list_key : option string;
  current_item : option (nat * nat)
}.

(** [xs[i] = f(xs[i])] *)
Fixpoint list_update (A : Type) (i : nat) (f : A -> A) (xs : list A) : list A :=
  match i, xs with
  | _, [] => []
  | O, x :: xs' => f x :: xs'
  | S i', x :: xs' => x :: list_update i' f xs'
  end.

(** [current_list.append(v)] *)
Definition list_append (id : nat) (v : value) (st : loader) : loader :=
  mkLoader (result st) (list_update id (fun l => l ++ [v]) (lists st))
           (current_list st) (current_list_key st) (current_item st).

(** [current_item[k] = v] for the mapping at place [idx] of list [id] *)
Definition item_set (id idx : nat) (k : string) (v : value) (st : loader)
  : loader :=
  let set_item (x : value) :=
    match x with
    | VDict d => VDict (dict_set k v d)
    | other => other
    end in
  mkLoader (result st)
           (list_update id (fun l => list_update idx set_item l) (lists st))
           (current_list st) (current_list_key st) (current_item st).

(** [result[k] = v] *)
Definition result_set (k : string) (v : slot) (st : loader) : loader :=
  mkLoader (dict_set k v (result st)) (lists st)
           (current_list st) (current_list_key st) (current_item st).

Definition nonempty (s : string) : bool := negb (String.eqb s EmptyString).

(** [parse_value(value) if value else None] *)
Definition parse_or_none (text : string) : value :=
  if nonempty text then parse_value text else VNone.

(** One turn of the [while] loop of [simple_yaml_load] on [line];
    [next] is [lines[i + 1]] when [i + 1 < len(lines)]. *)
Definition load_line (line : string) (next : option string) (st : loader)
  : loader :=
  let stripped := PyStr.strip line in
  if negb (nonempty stripped) || PyStr.startswith "#" stripped then st
  else
    let indent := (String.length line - String.length (PyStr.lstrip line))%nat in
    if PyStr.startswith "- " stripped then
      match current_list_key st, current_list st with
      | Some lk, Some id =>
          if nonempty lk then
            let item_content := PyStr.drop 2 stripped in
            if PyStr.contains ":" item_content then
              let '(key, _, text) := PyStr.partition ":" item_content in
              let text := PyStr.strip text in
              let item := VDict [(PyStr.strip key, parse_or_none text)] in
              let idx := List.length (nth id (lists st) []) in
              let st' := list_append id item st in
              mkLoader (result st') (lists st') (current_list st')
                       (current_list_key st') (Some (id, idx))
            else list_append id (parse_value item_content) st
          else st
      | _, _ => st
      end
    else if PyStr.contains ":" stripped then
      let '(key, _, text) := PyStr.partition ":" stripped in
      let key := PyStr.strip key in
      let text := PyStr.strip text in
      if (indent =? 0)%nat then
        if nonempty text then result_set key (Scalar (parse_value text)) st
        else
          let starts_list :=
            match next with
            | Some l => PyStr.startswith "-" (PyStr.strip l)
            | None => false
            end in
          if starts_list then
            let id := List.length (lists st) in
            mkLoader (dict_set key (ListRef id) (result st))
                     (lists st ++ [[]]) (Some id) (Some key) (current_item st)
          else result_set key (Scalar (VDict [])) st
      else
        match current_item st with
        | Some (id, idx) => item_set id idx key (parse_or_none text) st
        | None => st
        end
    else st.

(** The loop over [lines], from the current line on. *)
Fixpoint load_lines (lines : list string) (st : loader) : loader :=
  match lines with
  | [] => st
  | line :: rest => load_lines rest (load_line line (hd_error rest) st)
  end.

(** [return result]: the mapping with its lists read from the store. *)
Definition resolve (st : loader) : pydict :=
  map (fun kv : string * slot =>
         match snd kv with
         | Scalar v => (fst kv, v)
         | ListRef id => (fst kv, VList (nth id (lists st) []))
         end) (result st).

End Loader.

(** [simple_yaml_load(content)]:
    "Simple YAML parser for when PyYAML is not available." *)
Definition simple_yaml_load (content : string) : value :=
  let lines := PyStr.split "010" content in
  VDict (Loader.resolve
           (Loader.load_lines lines (Loader.mkLoader [] [] None None None))).

(* ===================================================================== *)
(** ** Reports *)
(* ===================================================================== *)

(** The mapping returned by [run_command]. *)
Module CommandResult.
Record t : Type := mk {
  success : bool;
  output : option string;
  error : option string;
  returncode : Z
}.
End CommandResult.

(** [step_report] *)
Module StepReport.
Record t : Type := mk {
  step : value;
  name : value;
  status : string;
  command_result : option CommandResult.t;
  verify_result : option CommandResult.t
}.

Definition set_status (s : string) (r : t) : t :=
  mk (step r) (name r) s (command_result r) (verify_result r).
Definition set_command_result (c : CommandResult.t) (r : t) : t :=
  mk (step r) (name r) (status r) (Some c) (verify_result r).
Definition set_verify_result (c : CommandResult.t) (r : t) : t :=
  mk (step r) (name r) (status r) (command_result r) (Some c).
End StepReport.

(** [report]; [completed_at] is absent until the loop has ended. *)
Module Report.
Record t : Type := mk {
  target : value;
  platform : value;
  started_at : string;
  dry_run : bool;
  steps : list StepReport.t;
  success : bool;
  failed_step : value;
  completed_at : option string
}.

(** [report["steps"].append(step_report)] *)
Definition append_step (s : StepReport.t) (r : t) : t :=
  mk (target r) (platform r) (started_at r) (dry_run r) (steps r ++ [s])
     (success r) (failed_step r) (completed_at r).

(** [report["success"] = False; report["failed_step"] = step_num] *)
Definition fail_at (step_num : value) (r : t) : t :=
  mk (target r) (platform r) (started_at r) (dry_run r) (steps r)
     false step_num (completed_at r).

(** [report["completed_at"] = stamp] *)
Definition complete (stamp : string) (r : t) : t :=
  mk (target r) (platform r) (started_at r) (dry_run r) (steps r)
     (success r) (failed_step r) (Some stamp).
End Report.

(* ===================================================================== *)
(** ** Exceptions, the world and the monad *)
(* ===================================================================== *)

Inductive exn : Type :=
| AttributeError (attribute : string)
| TypeError (message : string)
| YAMLError (message : string).

Inductive result (A : Type) : Type :=
| Ok (a : A)
| Raise (e : exn).
Arguments Raise {A} e.

(** What [subprocess.run] does with a command: it completes with an exit
    status and the captured streams, or raises [TimeoutExpired], or raises
    another [Exception] whose [str(e)] is [message]. *)
Inductive outcome : Type :=
| Completed (returncode : Z) (stdout stderr : string)
| TimeoutExpired
| Raised (message : string).

Section Executor.

(** The operating system. *)
Variable W : Type.
Variable spawn : string -> Z -> W -> outcome * W.
Variable now : W -> string * W.

(** Whether [import yaml] succeeded, and [yaml.safe_load] if it did. *)
Variable HAS_YAML : bool.
Variable safe_load : string -> result value.

Record state : Type := mkState {
  world : W;
  calls : list value;            (* arguments of run_command, oldest first *)
  spawned : list (string * Z)    (* commands given to the shell *)
}.

Definition M (A : Type) : Type := state -> result A * state.

Definition ret {A : Type} (a : A) : M A := fun s => (Ok a, s).
Definition raise {A : Type} (e : exn) : M A := fun s => (Raise e, s).
Definition bind {A B : Type} (m : M A) (k : A -> M B) : M B :=
  fun s =>
    match m s with
    | (Ok a, s') => k a s'
    | (Raise e, s') => (Raise e, s')
    end.

Notation "x <- m ;; k" := (bind m (fun x => k))
  (at level 61, m at next level, right associativity).
Notation "m ;;; k" := (bind m (fun _ => k))
  (at level 61, right associativity).

(** [obj.get(k, default)] *)
Definition py_get (obj : value) (k : string) (default : value) : M value :=
  match obj with
  | VDict d => ret (dict_get d k default)
  | _ => raise (AttributeError "get")
  end.

(** [for x in v]: the elements the loop will see. *)
Definition py_iter (v : value) : M (list value) :=
  match v with
  | VList l => ret l
  | VDict d => ret (map (fun kv => VStr (fst kv)) d)
  | VStr s =>
      ret (map (fun c => VStr (String c EmptyString)) (list_ascii_of_string s))
  | _ => raise (TypeError "object is not iterable")
  end.

(** [yaml_load(content)]: "Load YAML content." *)
Definition yaml_load (content : string) : M value :=
  if HAS_YAML then
    match safe_load content with
    | Ok v => ret v
    | Raise e => raise e
    end
  else ret (simple_yaml_load content).

(* =================================================================== *)
(** ** The command runner *)
(* =================================================================== *)

Definition log_call (command : value) : M unit :=
  fun s => (Ok tt, mkState (world s) (calls s ++ [command]) (spawned s)).

(** [subprocess.run(command, shell=True, capture_output=True, text=True,
    timeout=timeout)] *)
Definition subprocess_run (command : string) (timeout : Z) : M outcome :=
  fun s =>
    let '(o, w') := spawn command timeout (world s) in
    (Ok o, mkState w' (calls s) (spawned s ++ [(command, timeout)])).

Definition skipped : CommandResult.t :=
  CommandResult.mk true (Some "Skipped (no command or placeholder)") None 0.

Definition timed_out (timeout : Z) : CommandResult.t :=
  CommandResult.mk false None
    (Some ("Command timed out after " ++ PyStr.of_Z timeout ++ " seconds")%string)
    (-1).

Definition faulted (message : string) : CommandResult.t :=
  CommandResult.mk false None (Some message) (-1).

(** [run_command(command, timeout=300)]: "Run a command and return result." *)
Definition run_command (command : value) (timeout : Z) : M CommandResult.t :=
  log_call command ;;;
  if negb (truthy command) then ret skipped
  else
    match command with
    | VStr c =>
        if PyStr.startswith "#" c then ret skipped
        else
          o <- subprocess_run c timeout ;;
          ret match o with
              | Completed rc out err =>
                  CommandResult.mk (rc =? 0) (Some out) (Some err) rc
              | TimeoutExpired => timed_out timeout
              | Raised message => faulted message
              end
    | _ => raise (AttributeError "startswith")
    end.

(* =================================================================== *)
(** ** The execution engine *)
(* =================================================================== *)

(** How one turn of the [for] loop ends: it goes on to the next step
    ([continue] or the end of the body) or leaves the loop ([break]). *)
Inductive control : Type := Next | Break.

(** The variables the loop updates: [report] and [executed_steps]. *)
Record loop_state : Type := mkLoop {
  report : Report.t;
  executed_steps : list value
}.

(** [for prev_step in reversed(executed_steps)]: run the rollback command
    of each step that has one. *)
Fixpoint rollback_each (prev_steps : list value) : M unit :=
  match prev_steps with
  | [] => ret tt
  | prev_step :: rest =>
      rb_cmd <- py_get prev_step "rollback" VNone ;;
      (if truthy rb_cmd then run_command rb_cmd 300 ;;; ret tt else ret tt) ;;;
      rollback_each rest
  end.

Definition rollback_executed (executed : list value) : M unit :=
  rollback_each (rev executed).

(** The end of the loop body (lines 258-260): the step is a success. *)
Definition mark_success (step : value) (step_report : StepReport.t)
           (ls : loop_state) : M (control * loop_state) :=
  let step_report := StepReport.set_status "success" step_report in
  ret (Next, mkLoop (Report.append_step step_report (report ls))
                    (executed_steps ls ++ [step])).

(** The body of the [for] loop of [execute_plan] for one [step]. *)
Definition loop_body (dry_run : bool) (step : value) (ls : loop_state)
  : M (control * loop_state) :=
  step_num <- py_get step "step" (VStr "?") ;;
  step_name <- py_get step "name" (VStr "Unnamed step") ;;
  command <- py_get step "command" (VStr EmptyString) ;;
  verify <- py_get step "verify" (VStr EmptyString) ;;
  rollback <- py_get step "rollback" VNone ;;
  critical <- py_get step "critical" (VBool true) ;;
  let step_report := StepReport.mk step_num step_name "pending" None None in
  if dry_run then
    let step_report := StepReport.set_status "skipped" step_report in
    ret (Next, mkLoop (Report.append_step step_report (report ls))
                      (executed_steps ls))
  else
    result <- run_command command 300 ;;
    let step_report := StepReport.set_command_result result step_report in
    if negb (CommandResult.success result) then
      let step_report := StepReport.set_status "failed" step_report in
      let ls := mkLoop (Report.append_step step_report (report ls))
                       (executed_steps ls) in
      if truthy critical then
        let ls := mkLoop (Report.fail_at step_num (report ls))
                         (executed_steps ls) in
        rollback_executed (executed_steps ls) ;;;
        ret (Break, ls)
      else ret (Next, ls)
    else if truthy verify then
      verify_result <- run_command verify 300 ;;
      let step_report := StepReport.set_verify_result verify_result step_report in
      if negb (CommandResult.success verify_result) then
        let step_report := StepReport.set_status "verify_failed" step_report in
        if truthy critical then
          let ls := mkLoop (Report.fail_at step_num (report ls))
                           (executed_steps ls) in
          (if truthy rollback then run_command rollback 300 ;;; ret tt
           else ret tt) ;;;
          rollback_executed (executed_steps ls) ;;;
          ret (Break, mkLoop (Report.append_step step_report (report ls))
                             (executed_steps ls))
        else mark_success step step_report ls
      else mark_success step step_report ls
    else mark_success step step_report ls.

(** The [for] loop over the steps. *)
Fixpoint run_steps (dry_run : bool) (steps : list value) (ls : loop_state)
  : M (control * loop_state) :=
  match steps with
  | [] => ret (Next, ls)
  | step :: rest =>
      r <- loop_body dry_run step ls ;;
      match r with
      | (Next, ls') => run_steps dry_run rest ls'
      | (Break, ls') => ret (Break, ls')
      end
  end.

Definition get_now : M string :=
  fun s => let '(t, w') := now (world s) in
           (Ok t, mkState w' (calls s) (spawned s)).

(** [execute_plan(plan, dry_run=False)]: "Execute the installation plan." *)
Definition execute_plan (plan : value) (dry_run : bool) : M Report.t :=
  target <- py_get plan "target" (VStr "unknown") ;;
  platform <- py_get plan "platform" (VStr "unknown") ;;
  started_at <- get_now ;;
  let ls :=
    mkLoop (Report.mk target platform started_at dry_run [] true VNone None)
           [] in
  steps_value <- py_get plan "steps" (VList []) ;;
  steps <- py_iter steps_value ;;
  r <- run_steps dry_run steps ls ;;
  completed_at <- get_now ;;
  ret (Report.complete completed_at (report (snd r))).

(** [main()], up to the exit status: [plan_file] is the text of the plan
    file, [None] when the file does not exist.  Writing the report file
    (lines 354-364) comes after the run and is left out. *)
Definition main (plan_file : option string) (dry_run : bool) : M Z :=
  match plan_file with
  | None => ret 1
  | Some content =>
      plan <- yaml_load content ;;
      report <- execute_plan plan dry_run ;;
      ret (if Report.success report then 0 else 1)
  end.

End Executor.

Arguments Ok {A} a.

(* ===================================================================== *)
(** ** A sample world *)
(* ===================================================================== *)

(** A small operating system to run plans on: the world is a clock; a
    command that starts with [exit 1] exits with status 1, one that starts
    with [sleep] runs into the timeout, one that starts with [crash] cannot
    be launched, and every other command exits with status 0. *)
Module Sample.

Definition W : Type := nat.

Definition spawn (command : string) (timeout : Z) (w : W) : outcome * W :=
  if PyStr.startswith "exit 1" command then
    (Completed 1 EmptyString "failed", S w)
  else if PyStr.startswith "sleep" command then (TimeoutExpired, S w)
  else if PyStr.startswith "crash" command then
    (Raised "[Errno 13] Permission denied", S w)
  else (Completed 0 "ok" EmptyString, S w).

Definition now (w : W) : string * W :=
  (("T" ++ PyStr.of_Z (Z.of_nat w))%string, S w).

Definition safe_load (content : string) : result value :=
  Raise (YAMLError "PyYAML is not installed").

Definition start : state W := mkState 0%nat [] [].

Definition run_command := run_command spawn.
Definition execute_plan := execute_plan spawn now.
Definition main := main spawn now false safe_load.

(** A step mapping with all six keys. *)
Definition mkstep (n : Z) (name command verify : string) (rollback : value)
           (critical : bool) : value :=
  VDict [("step", VInt n); ("name", VStr name); ("command", VStr command);
         ("verify", VStr verify); ("rollback", rollback);
         ("critical", VBool critical)].

Definition mkplan (steps : list value) : value :=
  VDict [("target", VStr "demo"); ("platform", VStr "linux");
         ("steps", VList steps)].

Definition nl : string := String "010" EmptyString.

(** Three critical steps, the second of which fails (Scenario A). *)
Definition prepare : value := mkstep 1 "prepare" "echo prepare" EmptyString (VStr "undo 1") true.
Definition install_fails : pydict :=
  [("step", VInt 2); ("name", VStr "install"); ("command", VStr "exit 1");
   ("verify", VStr EmptyString); ("rollback", VStr "undo 2");
   ("critical", VBool true)].
Definition finish : value := mkstep 3 "finish" "echo finish" EmptyString VNone true.
Definition scenario_a : value :=
  mkplan [prepare; VDict install_fails; finish].

(** The second step installs but does not pass its verification. *)
Definition install_unverified : pydict :=
  [("step", VInt 2); ("name", VStr "install"); ("command", VStr "echo install");
   ("verify", VStr "exit 1"); ("rollback", VStr "undo 2");
   ("critical", VBool true)].
Definition unverified_plan : value :=
  mkplan [prepare; VDict install_unverified; finish].

(** A last step that is not critical: its verification fails
    (Scenario D), or its command does. *)
Definition refresh_unverified : pydict :=
  [("step", VInt 2); ("name", VStr "refresh"); ("command", VStr "echo refresh");
   ("verify", VStr "exit 1"); ("rollback", VNone);
   ("critical", VBool false)].
Definition scenario_d : value := mkplan [prepare; VDict refresh_unverified].

Definition refresh_fails : pydict :=
  [("step", VInt 2); ("name", VStr "refresh"); ("command", VStr "exit 1");
   ("verify", VStr EmptyString); ("rollback", VNone);
   ("critical", VBool false)].
Definition optional_plan : value := mkplan [prepare; VDict refresh_fails].





End Sample.

(* ===================================================================== *)
(** ** Vocabulary of the properties *)
(* ===================================================================== *)

(** The elements a [for] loop sees in [v]; [None] when [v] is not iterable. *)
Definition elements (v : value) : option (list value) :=
  match v with
  | VList l => Some l
  | VDict d => Some (map (fun kv => VStr (fst kv)) d)
  | VStr s =>
      Some (map (fun c => VStr (String c EmptyString)) (list_ascii_of_string s))
  | _ => None
  end.

(** The steps [execute_plan] loops over: [plan.get("steps", [])]. *)
Definition plan_steps (plan : value) : list value :=
  match plan with
  | VDict d =>
      match elements (dict_get d "steps" (VList [])) with
      | Some l => l
      | None => []
      end
  | _ => []
  end.

Definition is_dict (v : value) : bool :=
  match v with VDict _ => true | _ => false end.

(** A plan document: a mapping whose [steps], when present, can be looped
    over and holds mappings only. *)
Definition is_plan (plan : value) : bool :=
  match plan with
  | VDict d =>
      match elements (dict_get d "steps" (VList [])) with
      | Some l => forallb is_dict l
      | None => false
      end
  | _ => false
  end.

(** [step.get(k, default)] for a step that is a mapping. *)
Definition field (step : value) (k : string) (default : value) : value :=
  match step with
  | VDict d => dict_get d k default
  | _ => default
  end.

(** The no-op commands: the empty string and the strings that begin with
    the comment marker. *)
Definition sentinel (c : string) : bool :=
  String.eqb c EmptyString || PyStr.startswith "#" c.

(** A value [run_command] accepts: a string, or a value that counts as
    false ([None], the empty string, ...). *)
Definition runnable (v : value) : bool :=
  match v with
  | VStr _ => true
  | other => negb (truthy other)
  end.

Definition rollback_ok (step : value) : bool :=
  is_dict step && runnable (field step "rollback" VNone).

(** The rollback commands of [steps], in the order of [steps]: one for each
    step whose [rollback] is neither absent nor empty. *)
Definition rollback_commands (steps : list value) : list value :=
  filter truthy (map (fun s => field s "rollback" VNone) steps).

(** The steps whose report has status [success], in plan order; [reports]
    are the reports of [steps], one each. *)
Definition succeeded (steps : list value) (reports : list StepReport.t)
  : list value :=
  map fst (filter (fun p => String.eqb (StepReport.status (snd p)) "success")
                  (combine steps reports)).

(** The report of a step in a dry run. *)
Definition skipped_report (step : value) : StepReport.t :=
  StepReport.mk (field step "step" (VStr "?"))
                (field step "name" (VStr "Unnamed step")) "skipped" None None.

(** The report of [step] with the given status and results. *)
Definition report_of (step : value) (status : string)
           (command_result verify_result : option CommandResult.t)
  : StepReport.t :=
  StepReport.mk (field step "step" (VStr "?"))
                (field step "name" (VStr "Unnamed step"))
                status command_result verify_result.

(** The loop variables when the loop starts: the fresh [report] and the
    empty [executed_steps]. *)
Definition initial (plan : value) (started_at : string) (dry_run : bool)
  : loop_state :=
  mkLoop (Report.mk (field plan "target" (VStr "unknown"))
                    (field plan "platform" (VStr "unknown"))
                    started_at dry_run [] true VNone None)
         [].

(** What one turn of the loop does to the loop variables: it appends the
    report [r], appends [step] to [executed_steps] when [r] is a success,
    and records the failure when the turn leaves the loop. *)
Definition after_turn (c : control) (step : value) (r : StepReport.t)
           (ls : loop_state) : loop_state :=
  let rep := Report.append_step r (report ls) in
  mkLoop match c with
         | Next => rep
         | Break => Report.fail_at (StepReport.step r) rep
         end
         (executed_steps ls
          ++ (if String.eqb (StepReport.status r) "success" then [step] else [])).

(** What a turn of a dry run does to the loop variables. *)
Definition dry_turn (ls : loop_state) (step : value) : loop_state :=
  mkLoop (Report.append_step (skipped_report step) (report ls))
         (executed_steps ls).

(** [execute_plan] up to the end of the turns for [pre], the first steps
    of the plan: how the last of these turns ended, the loop variables and
    the state at that point. *)
Definition run_prefix (W : Type) (spawn : string -> Z -> W -> outcome * W)
           (now : W -> string * W) (plan : value) (dry_run : bool)
           (pre : list value) (s : state W)
  : result (control * loop_state) * state W :=
  run_steps spawn dry_run pre
            (initial plan (fst (now (world s))) dry_run)
            (mkState (snd (now (world s))) (calls s) (spawned s)).

Definition result_map (A B : Type) (f : A -> B) (r : result A) : result B :=
  match r with
  | Ok a => Ok (f a)
  | Raise e => Raise e
  end.

(* ===================================================================== *)
(** ** Vocabulary of the further properties *)
(* ===================================================================== *)

Definition failed_result (c : option CommandResult.t) : bool :=
  match c with
  | Some r => negb (CommandResult.success r)
  | None => false
  end.

Definition passed_result (c : option CommandResult.t) : bool :=
  match c with
  | Some r => CommandResult.success r
  | None => false
  end.

Definition no_result (c : option CommandResult.t) : bool :=
  match c with
  | Some _ => false
  | None => true
  end.

(** A step report whose status agrees with the results it records:
    [skipped] has none and occurs in dry runs only, [failed] has a failed
    command and no verification, [verify_failed] has a command that passed
    and a verification that failed, [success] has a command that passed.
    No other status is allowed; in particular not [pending]. *)
Definition report_consistent (dry_run : bool) (r : StepReport.t) : bool :=
  let status := StepReport.status r in
  let c := StepReport.command_result r in
  let v := StepReport.verify_result r in
  if String.eqb status "skipped" then dry_run && no_result c && no_result v
  else if String.eqb status "failed" then
    negb dry_run && failed_result c && no_result v
  else if String.eqb status "verify_failed" then
    negb dry_run && passed_result c && failed_result v
  else if String.eqb status "success" then negb dry_run && passed_result c
  else false.

(** The number and the name a report gives to [step]. *)
Definition label (step : value) : value * value :=
  (field step "step" (VStr "?"), field step "name" (VStr "Unnamed step")).

Definition report_label (r : StepReport.t) : value * value :=
  (StepReport.step r, StepReport.name r).

(** The calls of [run_command] that a report accounts for: the step's
    command if a command result is recorded, then its verification if a
    verification result is recorded. *)
Definition turn_calls (step : value) (r : StepReport.t) : list value :=
  match StepReport.command_result r with
  | None => []
  | Some _ =>
      field step "command" (VStr EmptyString)
      :: match StepReport.verify_result r with
         | None => []
         | Some _ => [field step "verify" (VStr EmptyString)]
         end
  end.

(** A step the engine can carry out: a mapping whose command, verification
    and rollback are strings or count as false. *)
Definition step_ok (step : value) : bool :=
  is_dict step
  && runnable (field step "command" (VStr EmptyString))
  && runnable (field step "verify" (VStr EmptyString))
  && runnable (field step "rollback" VNone).

Definition well_formed (plan : value) : bool :=
  is_plan plan && forallb step_ok (plan_steps plan).

Definition not_verify_failed (r : StepReport.t) : bool :=
  negb (String.eqb (StepReport.status r) "verify_failed").

(** More plans for the sample world. *)
Module Cases.

(** A plan file whose command is the YAML scalar [true]: the reader makes
    it the boolean, not the name of the shell command. *)
Definition boolean_command_source : string :=
  ("steps:" ++ Sample.nl ++
   "  - step: 1" ++ Sample.nl ++
   "    command: true")%string.

End Cases.

(* ===================================================================== *)
(** ** The plan writer (scripts/plan_generator.py) *)
(* ===================================================================== *)

Module PyText.

(** [sep.join(lines)] *)
Fixpoint join (sep : string) (lines : list string) : string :=
  match lines with
  | [] => EmptyString
  | [x] => x
  | x :: rest => (x ++ sep ++ join sep rest)%string
  end.

(** [s * n] *)
Fixpoint repeat (s : string) (n : nat) : string :=
  match n with
  | O => EmptyString
  | S n' => (s ++ repeat s n')%string
  end.

Definition nl : string := String "010" EmptyString.

End PyText.

Section Writer.

(** [str(v)] for a float, a list or a mapping. *)
Variable str_rest : value -> string.

(** [str(v)], as an f-string formats a value. *)
Definition py_str (v : value) : string :=
  match v with
  | VNone => "None"
  | VBool true => "True"
  | VBool false => "False"
  | VInt z => PyStr.of_Z z
  | VStr s => s
  | other => str_rest other
  end.

(** The lines [simple_yaml_dump] appends for one entry of a mapping;
    [nested] is the dump of the value, one level deeper. *)
Definition dict_entry (prefix key : string) (v : value) (nested : string)
  : list string :=
  match v with
  | VDict _ | VList _ => [(prefix ++ key ++ ":")%string; nested]
  | VNone => [(prefix ++ key ++ ": null")%string]
  | VBool b =>
      [(prefix ++ key ++ ": " ++ (if b then "true" else "false"))%string]
  | VStr s =>
      if PyStr.contains "010" s || PyStr.contains ":" s
         || PyStr.contains (ascii_of_N 34) s
      then [(prefix ++ key ++ ": " ++ PyStr.dquote ++ s ++ PyStr.dquote)%string]
      else [(prefix ++ key ++ ": " ++ py_str v)%string]
  | other => [(prefix ++ key ++ ": " ++ py_str other)%string]
  end.

(** The lines it appends for one entry of a mapping that is an item of a
    list; [first] says whether the entry is the first of the item. *)
Definition item_entry (prefix key : string) (first : bool) (v : value)
           (nested : string) : list string :=
  let head :=
    if first then (prefix ++ "- " ++ key ++ ":")%string
    else (prefix ++ "  " ++ key ++ ":")%string in
  match v with
  | VDict _ | VList _ => [head; nested]
  | VNone => [(head ++ " null")%string]
  | VStr s =>
      if PyStr.contains "010" s || PyStr.contains ":" s
      then [(head ++ " " ++ PyStr.dquote ++ s ++ PyStr.dquote)%string]
      else [(head ++ " " ++ py_str v)%string]
  | other => [(head ++ " " ++ py_str other)%string]
  end.

(** [simple_yaml_dump(data, indent=0)]:
    "Simple YAML serializer for when PyYAML is not available." *)
Fixpoint simple_yaml_dump (data : value) (indent : nat) {struct data}
  : string :=
  let prefix := PyText.repeat "  " indent in
  match data with
  | VDict d =>
      PyText.join PyText.nl
        ((fix entries (d : list (string * value)) : list string :=
            match d with
            | [] => []
            | (key, v) :: rest =>
                dict_entry prefix key v (simple_yaml_dump v (S indent))
                ++ entries rest
            end) d)
  | VList l =>
      PyText.join PyText.nl
        ((fix items (l : list value) : list string :=
            match l with
            | [] => []
            | item :: rest =>
                match item with
                | VDict kvs =>
                    (fix keys (kvs : list (string * value)) (first : bool)
                       : list string :=
                       match kvs with
                       | [] => []
                       | (key, v) :: more =>
                           item_entry prefix key first v
                                      (simple_yaml_dump v (S (S indent)))
                           ++ keys more false
                       end) kvs true
                | other => [(prefix ++ "- " ++ py_str other)%string]
                end ++ items rest
            end) l)
  | _ => EmptyString
  end.

(** Whether [import yaml] succeeded in the plan writer, and [yaml.dump]
    with the writer's options if it did. *)
Variable HAS_YAML : bool.
Variable yaml_dump_lib : value -> string.

(** [yaml_dump(data)]: "Dump data to YAML format." *)
Definition yaml_dump (data : value) : string :=
  if HAS_YAML then yaml_dump_lib data else simple_yaml_dump data 0.

End Writer.

(* ===================================================================== *)
(** ** Vocabulary of the round trip between the writer and the reader *)
(* ===================================================================== *)

Definition first_not_space (s : string) : bool :=
  match s with
  | EmptyString => false
  | String c _ => negb (PyStr.is_space c)
  end.

Fixpoint last_not_space (s : string) : bool :=
  match s with
  | EmptyString => false
  | String c EmptyString => negb (PyStr.is_space c)
  | String _ s' => last_not_space s'
  end.

(** Not empty, and no blank character at either end. *)
Definition trimmed (s : string) : bool :=
  first_not_space s && last_not_space s.

Definition no_newline (s : string) : bool := negb (PyStr.contains "010" s).

(** A key the reader takes as it is written: trimmed, on one line, without
    a colon, and not starting like a comment or a list item. *)
Definition key_ok (k : string) : bool :=
  trimmed k && no_newline k && negb (PyStr.contains ":" k)
  && negb (PyStr.startswith "#" k) && negb (PyStr.startswith "-" k).

Fixpoint distinct (l : list string) : bool :=
  match l with
  | [] => true
  | k :: rest => negb (existsb (String.eqb k) rest) && distinct rest
  end.

Definition keys_ok (d : pydict) : bool :=
  forallb key_ok (map fst d) && distinct (map fst d).

(** A string that [parse_value] returns unchanged. *)
Definition reads_as_itself (s : string) : bool :=
  match parse_value s with
  | VStr s' => String.eqb s' s
  | _ => false
  end.

Definition plain (s : string) : bool := trimmed s && reads_as_itself s.

(** Whether the writer puts a string between double quotes: at the top
    level ([top]) and inside an item. *)
Definition quoted (top : bool) (s : string) : bool :=
  PyStr.contains "010" s || PyStr.contains ":" s
  || (top && PyStr.contains (ascii_of_N 34) s).

(** The scalars that survive the round trip: [None], booleans, integers,
    and strings on one line that are either quoted by the writer or
    plain. *)
Definition scalar_ok (top : bool) (v : value) : bool :=
  match v with
  | VNone | VBool _ | VInt _ => true
  | VStr s => no_newline s && (quoted top s || plain s)
  | _ => false
  end.

Definition item_ok (item : value) : bool :=
  match item with
  | VDict (kv :: kvs) =>
      keys_ok (kv :: kvs)
      && forallb (fun e : string * value => scalar_ok false (snd e)) (kv :: kvs)
  | _ => false
  end.

Definition entry_ok (v : value) : bool :=
  match v with
  | VList (item :: items) => forallb item_ok (item :: items)
  | other => scalar_ok true other
  end.

(** The mappings that survive the round trip: scalars and non-empty lists
    of non-empty mappings of scalars, under good keys. *)
Definition dumpable (d : pydict) : bool :=
  keys_ok d && forallb (fun e : string * value => entry_ok (snd e)) d.

(** The text the writer puts after ["key: "] for a scalar. *)
Definition scalar_text (top : bool) (v : value) : string :=
  match v with
  | VNone => "null"
  | VBool b =>
      if top then (if b then "true" else "false")
      else (if b then "True" else "False")
  | VInt z => PyStr.of_Z z
  | VStr s =>
      if quoted top s then (PyStr.dquote ++ s ++ PyStr.dquote)%string else s
  | _ => EmptyString
  end.

(** The lines of the text the writer produces for a dumpable mapping. *)
Fixpoint more_lines (kvs : pydict) : list string :=
  match kvs with
  | [] => []
  | (k, v) :: rest =>
      ("    " ++ k ++ ": " ++ scalar_text false v)%string :: more_lines rest
  end.

Definition item_lines (item : value) : list string :=
  match item with
  | VDict ((k, v) :: rest) =>
      ("  - " ++ k ++ ": " ++ scalar_text false v)%string :: more_lines rest
  | _ => []
  end.

Definition entry_lines (e : string * value) : list string :=
  match snd e with
  | VList items => (fst e ++ ":")%string :: flat_map item_lines items
  | v => [(fst e ++ ": " ++ scalar_text true v)%string]
  end.

Definition doc_lines (d : pydict) : list string := flat_map entry_lines d.

(** The number that the digits of [d] spell, read after [acc]. *)
Fixpoint uint_value (d : Decimal.uint) (acc : N) : N :=
  match d with
  | Decimal.Nil => acc
  | Decimal.D0 d' => uint_value d' (10 * acc + 0)
  | Decimal.D1 d' => uint_value d' (10 * acc + 1)
  | Decimal.D2 d' => uint_value d' (10 * acc + 2)
  | Decimal.D3 d' => uint_value d' (10 * acc + 3)
  | Decimal.D4 d' => uint_value d' (10 * acc + 4)
  | Decimal.D5 d' => uint_value d' (10 * acc + 5)
  | Decimal.D6 d' => uint_value d' (10 * acc + 6)
  | Decimal.D7 d' => uint_value d' (10 * acc + 7)
  | Decimal.D8 d' => uint_value d' (10 * acc + 8)
  | Decimal.D9 d' => uint_value d' (10 * acc + 9)
  end%N.

(** Every list that the result refers to is in the store. *)
Definition refs_ok (r : list (string * Loader.slot)) (n : nat) : bool :=
  forallb (fun kv : string * Loader.slot =>
             match snd kv with
             | Loader.Scalar _ => true
             | Loader.ListRef id => (id <? n)%nat
             end) r.

(** A line the reader passes over: blank, or a comment. *)
Definition passed_over (line : string) : bool :=
  negb (Loader.nonempty (PyStr.strip line))
  || PyStr.startswith "#" (PyStr.strip line).

(** None, a boolean or an integer. *)
Definition is_atom (v : value) : bool :=
  match v with
  | VNone | VBool _ | VInt _ => true
  | _ => false
  end.

(** Plan files for the sample world. *)
Module PlanFile.

(** [str] of the values that a plan file does not hold. *)
Definition str_rest (v : value) : string := EmptyString.

(** A plan as the generator makes it for Homebrew. *)
Definition brew_plan : pydict :=
  [("target", VStr "wget");
   ("platform", VStr "darwin");
   ("package_manager", VStr "brew");
   ("generated_at", VStr "2024-05-01T10:00:00");
   ("requires_elevation", VBool false);
   ("steps",
    VList
      [VDict [("step", VInt 1); ("name", VStr "Verify brew is available");
              ("command", VStr "brew --version");
              ("verify", VStr "brew --version");
              ("rollback", VNone); ("critical", VBool true)];
       VDict [("step", VInt 2); ("name", VStr "Install wget");
              ("command", VStr "brew install wget");
              ("verify", VStr "brew list wget");
              ("rollback", VStr "brew uninstall wget");
              ("critical", VBool true)]])].

(** The steps of a plan file, and a comment to put above them. *)
Definition two_steps : list value :=
  [VDict [("step", VInt 1); ("command", VStr "echo one")];
   VDict [("step", VInt 2); ("command", VStr "echo two")]].

Definition comment : string := "  # the steps, in order".

End PlanFile.

(* ===================================================================== *)
(** ** The plan generator (scripts/plan_generator.py) *)
(* ===================================================================== *)

(** The generator runs no command and reads no clock: its functions are
    in the exception monad alone.  [target] and the dependencies are the
    strings that [main] takes from the command line; [env_info] is what
    [json.load] returned. *)
Section Generator.

(** [str(v)] for a float, a list or a mapping. *)
Variable str_rest : value -> string.

Definition and_then (A B : Type) (m : result A) (k : A -> result B)
  : result B :=
  match m with
  | Ok a => k a
  | Raise e => Raise e
  end.

Notation "x <- m ;; k" := (and_then m (fun x => k))
  (at level 61, m at next level, right associativity).

(** [obj.get(k, default)] *)
Definition get (obj : value) (k : string) (default : value) : result value :=
  match obj with
  | VDict d => Ok (dict_get d k default)
  | _ => Raise (AttributeError "get")
  end.

(** [v.lower()] *)
Definition lower_of (v : value) : result string :=
  match v with
  | VStr s => Ok (PyStr.lower s)
  | _ => Raise (AttributeError "lower")
  end.

(** Lists and mappings cannot be keys of a mapping. *)
Definition hashable (v : value) : bool :=
  match v with
  | VList _ | VDict _ => false
  | _ => true
  end.

(** [table.get(key)] for a table whose keys are strings: a key that is not
    a string equals none of them. *)
Definition find (A : Type) (table : list (string * A)) (key : value)
  : result (option A) :=
  if hashable key then
    Ok match key with
       | VStr s => dict_find s table
       | _ => None
       end
  else Raise (TypeError "unhashable type").

(** [get_pm_version_command(pm)]:
    "Get version check command for package manager." *)
Definition get_pm_version_command (pm : value) : result string :=
  let commands :=
    [("brew", "brew --version");
     ("apt", "apt --version");
     ("apt-get", "apt-get --version");
     ("dnf", "dnf --version");
     ("yum", "yum --version");
     ("pacman", "pacman --version");
     ("winget", "winget --version");
     ("choco", "choco --version");
     ("scoop", "scoop --version")] in
  c <- find commands pm ;;
  Ok match c with
     | Some command => command
     | None => (py_str str_rest pm ++ " --version")%string
     end.

(** The table [commands] of [get_install_commands]. *)
Definition install_commands (target : string)
  : list (string * list (string * pydict)) :=
  [("darwin",
    [("brew",
      [("install", VStr ("brew install " ++ target));
       ("verify", VStr ("brew list " ++ target));
       ("rollback", VStr ("brew uninstall " ++ target))])]);
   ("linux",
    [("apt",
      [("pre", VStr "sudo apt-get update");
       ("install", VStr ("sudo apt-get install -y " ++ target));
       ("verify", VStr ("dpkg -l | grep " ++ target));
       ("rollback", VStr ("sudo apt-get remove -y " ++ target))]);
     ("dnf",
      [("install", VStr ("sudo dnf install -y " ++ target));
       ("verify", VStr ("rpm -q " ++ target));
       ("rollback", VStr ("sudo dnf remove -y " ++ target))]);
     ("yum",
      [("install", VStr ("sudo yum install -y " ++ target));
       ("verify", VStr ("rpm -q " ++ target));
       ("rollback", VStr ("sudo yum remove -y " ++ target))]);
     ("pacman",
      [("install", VStr ("sudo pacman -S --noconfirm " ++ target));
       ("verify", VStr ("pacman -Q " ++ target));
       ("rollback", VStr ("sudo pacman -R --noconfirm " ++ target))])]);
   ("windows",
    [("winget",
      [("install",
        VStr ("winget install --id " ++ target
              ++ " --accept-source-agreements --accept-package-agreements"));
       ("verify", VStr ("winget list --id " ++ target));
       ("rollback", VStr ("winget uninstall --id " ++ target))]);
     ("choco",
      [("install", VStr ("choco install " ++ target ++ " -y"));
       ("verify", VStr ("choco list --local-only | findstr " ++ target));
       ("rollback", VStr ("choco uninstall " ++ target ++ " -y"))])])]%string.

(** [get_install_commands(target, env_info)]:
    "Generate platform-specific installation commands." *)
Definition get_install_commands (target : string) (env_info : value)
  : result value :=
  os_info <- get env_info "os" (VDict []) ;;
  system_value <- get os_info "system" (VStr EmptyString) ;;
  system <- lower_of system_value ;;
  summary <- get env_info "summary" (VDict []) ;;
  pm <- get summary "primary_package_manager" VNone ;;
  match dict_find system (install_commands target) with
  | Some by_manager =>
      c <- find by_manager pm ;;
      Ok match c with
         | Some commands => VDict commands
         | None => VNone
         end
  | None => Ok VNone
  end.

(** One entry of [plan["steps"]]. *)
Definition new_step (step_num : Z) (name : string)
           (command verify rollback : value) (critical : bool) : value :=
  VDict [("step", VInt step_num); ("name", VStr name);
         ("command", command); ("verify", verify);
         ("rollback", rollback); ("critical", VBool critical)].

(** [pm in ["apt", "apt-get"]] *)
Definition is_apt (pm : value) : bool :=
  match pm with
  | VStr s => String.eqb s "apt" || String.eqb s "apt-get"
  | _ => false
  end.

(** The step that installs [name] with the commands [cmds]. *)
Definition install_step (step_num : Z) (title : string) (cmds : value)
  : result value :=
  install <- get cmds "install" VNone ;;
  verify <- get cmds "verify" VNone ;;
  rollback <- get cmds "rollback" VNone ;;
  Ok (new_step step_num title install verify rollback true).

(** [for dep in dependencies]: the loop updates [step_num] and
    [plan["steps"]]. *)
Fixpoint add_dependencies (env_info : value) (dependencies : list string)
         (step_num : Z) (steps : list value) : result (Z * list value) :=
  match dependencies with
  | [] => Ok (step_num, steps)
  | dep :: rest =>
      let step_num := step_num + 1 in
      cmds <- get_install_commands dep env_info ;;
      if truthy cmds then
        step <- install_step step_num ("Install dependency: " ++ dep) cmds ;;
        add_dependencies env_info rest step_num (steps ++ [step])
      else add_dependencies env_info rest step_num steps
  end.

(** [generate_plan(target, env_info, dependencies=None)]:
    "Generate installation plan for the target software." *)
Definition generate_plan (target : string) (env_info : value)
           (dependencies : option (list string)) : result value :=
  os_info <- get env_info "os" (VDict []) ;;
  system_value <- get os_info "system" (VStr EmptyString) ;;
  system <- lower_of system_value ;;
  summary <- get env_info "summary" (VDict []) ;;
  pm <- get summary "primary_package_manager" VNone ;;
  has_sudo <- get summary "has_sudo" (VBool false) ;;
  platform <- get summary "platform" (VStr system) ;;
  architecture <- get summary "architecture" (VStr "unknown") ;;
  generated_at <- get env_info "timestamp" (VStr "unknown") ;;
  requires_elevation <-
    (if negb (String.eqb system "darwin") then
       permissions <- get env_info "permissions" (VDict []) ;;
       is_root <- get permissions "is_root" (VBool false) ;;
       Ok (negb (truthy is_root))
     else Ok false) ;;
  let header :=
    [("target", VStr target);
     ("platform", platform);
     ("architecture", architecture);
     ("package_manager", pm);
     ("generated_at", generated_at);
     ("requires_elevation", VBool requires_elevation)] in
  let step_num := 0 in
  let steps := [] in
  (* Step: Check package manager *)
  s1 <-
    (if truthy pm then
       command <- get_pm_version_command pm ;;
       Ok (step_num + 1,
           steps ++ [new_step (step_num + 1)
                       ("Verify " ++ py_str str_rest pm ++ " is available")
                       (VStr command) (VStr command) VNone true])
     else Ok (step_num, steps)) ;;
  let '(step_num, steps) := s1 in
  (* Step: Update package index (for apt-based systems) *)
  let '(step_num, steps) :=
    if is_apt pm then
      (step_num + 1,
       steps ++ [new_step (step_num + 1) "Update package index"
                   (VStr "sudo apt-get update")
                   (VStr "echo 'Package index updated'") VNone false])
    else (step_num, steps) in
  (* Step: Install dependencies *)
  s3 <-
    match dependencies with
    | Some deps => add_dependencies env_info deps step_num steps
    | None => Ok (step_num, steps)
    end ;;
  let '(step_num, steps) := s3 in
  (* Step: Install main target *)
  let step_num := step_num + 1 in
  cmds <- get_install_commands target env_info ;;
  step <-
    (if truthy cmds then install_step step_num ("Install " ++ target) cmds
     else
       Ok (new_step step_num ("Install " ++ target)
             (VStr ("# TODO: Add installation command for " ++ target))
             (VStr ("# TODO: Add verification command for " ++ target))
             (VStr ("# TODO: Add rollback command for " ++ target)) true)) ;;
  let steps := steps ++ [step] in
  (* Step: Verify installation *)
  let step_num := step_num + 1 in
  let steps :=
    steps ++ [new_step step_num ("Verify " ++ target ++ " installation")
                (VStr ("which " ++ target ++ " || command -v " ++ target
                       ++ " || where " ++ target))
                (VStr (target ++ " --version || " ++ target ++ " -v || "
                       ++ target ++ " version"))
                VNone true] in
  Ok (VDict (header ++ [("steps", VList steps)])).

End Generator.

(* ===================================================================== *)
(** ** Vocabulary of the generator's properties *)
(* ===================================================================== *)

Definition is_str (v : value) : bool :=
  match v with VStr _ => true | _ => false end.

(** The package manager the generator reads from [env_info]. *)
Definition package_manager_of (env_info : value) : value :=
  field (field env_info "summary" (VDict [])) "primary_package_manager" VNone.

(** The system name the generator reads from [env_info]. *)
Definition system_of (env_info : value) : value :=
  field (field env_info "os" (VDict [])) "system" (VStr EmptyString).

(** An [env_info] of the shape the generator expects: a mapping whose
    [os], [summary] and [permissions], when present, are mappings, whose
    system name is a string and whose package manager can be a key. *)
Definition env_shape (env_info : value) : bool :=
  is_dict env_info
  && is_dict (field env_info "os" (VDict []))
  && is_str (system_of env_info)
  && is_dict (field env_info "summary" (VDict []))
  && hashable (package_manager_of env_info)
  && is_dict (field env_info "permissions" (VDict [])).

(** The dependencies the generator loops over. *)
Definition dependency_list (dependencies : option (list string))
  : list string :=
  match dependencies with
  | Some deps => deps
  | None => []
  end.

(** The numbers of the steps of a plan, in plan order. *)
Definition step_numbers (plan : value) : list value :=
  map (fun s => field s "step" VNone) (plan_steps plan).

(** Strictly increasing, and above [lo]. *)
Fixpoint increasing_from (lo : Z) (ns : list Z) : bool :=
  match ns with
  | [] => true
  | n :: rest => (lo <? n) && increasing_from n rest
  end.

(** The number of steps that come before the dependencies. *)
Definition steps_before (pm : value) : Z :=
  (if truthy pm then 1 else 0) + (if is_apt pm then 1 else 0).

(** A name that can stand anywhere in a command line of a plan file:
    trimmed, on one line, and not starting with a quote. *)
Definition name_ok (s : string) : bool :=
  trimmed s && no_newline s
  && negb (PyStr.startswith PyStr.dquote s)
  && negb (PyStr.startswith "'" s).

Definition manager_ok (pm : value) : bool :=
  match pm with
  | VNone => true
  | VStr s => name_ok s
  | _ => false
  end.

(** The entries of a plan other than its steps. *)
Definition header (d : pydict) : pydict :=
  filter (fun e : string * value => negb (String.eqb (fst e) "steps")) d.

(** The command tables that [get_install_commands] can return for
    [target]. *)
Definition known_commands (target : string) : list pydict :=
  flat_map (fun by_system : string * list (string * pydict) =>
              map snd (snd by_system))
           (install_commands target).

(** Environments for the sample world, as [env_explorer.py] reports
    them. *)
Module Env.

Definition brew : value :=
  VDict [("timestamp", VStr "2024-05-01T10:00:00");
         ("os", VDict [("system", VStr "Darwin")]);
         ("permissions", VDict [("is_root", VBool false)]);
         ("summary",
          VDict [("platform", VStr "darwin");
                 ("architecture", VStr "arm64");
                 ("primary_package_manager", VStr "brew");
                 ("has_sudo", VBool true)])].

(** A system for which the generator has no commands. *)
Definition bsd : value :=
  VDict [("timestamp", VStr "2024-05-01T10:00:00");
         ("os", VDict [("system", VStr "FreeBSD")]);
         ("permissions", VDict [("is_root", VBool false)]);
         ("summary",
          VDict [("platform", VStr "freebsd");
                 ("architecture", VStr "amd64");
                 ("primary_package_manager", VStr "pkg");
                 ("has_sudo", VBool true)])].

End Env.

(* ===================================================================== *)
(** ** Vocabulary of the shell log *)
(* ===================================================================== *)

(** What a call of [run_command] with the timeout of the engine hands to
    the shell: the command, unless it is a sentinel or not a string. *)
Definition shell_of (command : value) : list (string * Z) :=
  match command with
  | VStr c => if sentinel c then [] else [(c, 300)]
  | _ => []
  end.

(** From [s] to [s'] the two logs have grown together: the shell has been
    given what the new calls of [run_command] hand to it, and nothing
    else. *)
Definition logs_agree (W : Type) (s s' : state W) : Prop :=
  exists new,
    calls s' = calls s ++ new
    /\ spawned s' = spawned s ++ flat_map shell_of new.

(** A computation that keeps the logs in agreement, whatever it returns
    or raises. *)
Definition keeps_logs (W A : Type) (m : M W A) : Prop :=
  forall s, logs_agree s (snd (m s)).

(** Whether a list follows a top-level [key:] line whose next line is
    [next]: the test of line 69. *)
Definition starts_list (next : option string) : bool :=
  match next with
  | Some l => PyStr.startswith "-" (PyStr.strip l)
  | None => false
  end.

(* ===================================================================== *)
(** ** Integers within the digit limit *)
(* ===================================================================== *)

(** The integers that every interpreter converts to text and back: those
    of at most 4300 digits. *)
Definition printable (z : Z) : bool := Z.abs z <? 10 ^ 4300.

Definition int_ok (v : value) : bool :=
  match v with
  | VInt z => printable z
  | _ => true
  end.

(** A mapping whose integers, at the top and in the items of its lists,
    are all within the limit. *)
Definition ints_ok (d : pydict) : bool :=
  forallb (fun e : string * value =>
             match snd e with
             | VList items =>
                 forallb (fun item : value =>
                            match item with
                            | VDict kvs =>
                                forallb (fun kv : string * value =>
                                           int_ok (snd kv)) kvs
                             | other => int_ok other
                            end) items
             | v => int_ok v
             end) d.

(* ===================================================================== *)
(** ** The plan file between the two scripts *)
(* ===================================================================== *)

(** A file opened in text mode, as both scripts open the plan file: the
    generator with [open(output_file, "w")] and [f.write]
    (plan_generator.py, lines 265-266), the executor with [open(plan_file)]
    and [f.read] (executor.py, lines 348-349).  Writing stores
    [os.linesep] for every line feed of the text; reading gives one line
    feed for every carriage return, line feed, or carriage return followed
    by a line feed.  The encoding is the locale's and is not modelled: the
    texts are taken to be ASCII, which these encodings store alike. *)
Module TextFile.

Definition cr : ascii := "013".
Definition lf : ascii := "010".

(** [os.linesep] *)
Definition linesep (windows : bool) : string :=
  if windows then String cr (String lf EmptyString)
  else String lf EmptyString.

(** What [f.write(text)] stores. *)
Fixpoint written (windows : bool) (text : string) : string :=
  match text with
  | EmptyString => EmptyString
  | String c rest =>
      if Ascii.eqb c lf then (linesep windows ++ written windows rest)%string
      else String c (written windows rest)
  end.

(** What [f.read()] returns for what is stored. *)
Fixpoint read (stored : string) : string :=
  match stored with
  | EmptyString => EmptyString
  | String c rest =>
      if Ascii.eqb c cr then
        String lf match rest with
                  | String c' rest' =>
                      if Ascii.eqb c' lf then read rest' else read rest
                  | EmptyString => EmptyString
                  end
      else String c (read rest)
  end.

Definition no_return (text : string) : bool := negb (PyStr.contains cr text).

Definition is_ascii (text : string) : bool :=
  forallb (fun c : ascii => (PyStr.code c <? 128)%N)
          (list_ascii_of_string text).

End TextFile.

(* ===================================================================== *)
(** ** Plan files on which the run raises *)
(* ===================================================================== *)

Module Faults.

(** Three steps; the second gives the YAML scalar [true] as its rollback,
    and the command of the third fails. *)
Definition true_rollback_source : string :=
  ("steps:" ++ Sample.nl ++
   "  - step: 1" ++ Sample.nl ++
   "    command: echo one" ++ Sample.nl ++
   "    rollback: undo 1" ++ Sample.nl ++
   "  - step: 2" ++ Sample.nl ++
   "    command: echo two" ++ Sample.nl ++
   "    rollback: true" ++ Sample.nl ++
   "  - step: 3" ++ Sample.nl ++
   "    command: exit 1")%string.

(** Two steps; the second does not pass its verification and gives the
    YAML scalar [true] as its rollback. *)
Definition own_true_rollback_source : string :=
  ("steps:" ++ Sample.nl ++
   "  - step: 1" ++ Sample.nl ++
   "    command: echo one" ++ Sample.nl ++
   "    rollback: undo 1" ++ Sample.nl ++
   "  - step: 2" ++ Sample.nl ++
   "    command: echo two" ++ Sample.nl ++
   "    verify: exit 1" ++ Sample.nl ++
   "    rollback: true")%string.

(** A plan file whose [steps] cannot be looped over. *)
Definition unlooped_source : string := "steps: 5".

(** A plan file whose first step is a text, not a mapping. *)
Definition text_step_source : string :=
  ("steps:" ++ Sample.nl ++
   "  - echo hi")%string.

End Faults.

(* ===================================================================== *)
(** ** Properties of the command runner *)
(* ===================================================================== *)

Unset Implicit Arguments.

Section RunnerFacts.

Variable W : Type.
Variable spawn : string -> Z -> W -> outcome * W.

Lemma sentinel_skips (c : string) (timeout : Z) (s : state W) :
  sentinel c = true ->
  run_command spawn (VStr c) timeout s
  = (Ok skipped, mkState (world s) (calls s ++ [VStr c]) (spawned s)).
Proof.
  unfold sentinel, run_command, bind, log_call, ret. simpl.
  destruct (String.eqb_spec c EmptyString) as [-> | Hne]; simpl.
  - reflexivity.
  - intros H. rewrite H. reflexivity.
Qed.

Lemma run_command_spawns (c : string) (timeout : Z) (s : state W) :
  sentinel c = false ->
  run_command spawn (VStr c) timeout s
  = (Ok match fst (spawn c timeout (world s)) with
        | Completed rc out err =>
            CommandResult.mk (rc =? 0) (Some out) (Some err) rc
        | TimeoutExpired => timed_out timeout
        | Raised message => faulted message
        end,
     mkState (snd (spawn c timeout (world s))) (calls s ++ [VStr c])
             (spawned s ++ [(c, timeout)])).
Proof.
  unfold sentinel, run_command, bind, log_call, ret, subprocess_run. simpl.
  destruct (String.eqb c EmptyString); simpl; [discriminate |].
  intros ->. cbn. destruct (spawn c timeout (world s)) as [o w']. cbn.
  destruct o; reflexivity.
Qed.

(** A string command always yields a result, and is logged. *)
Lemma run_command_str (c : string) (timeout : Z) (s : state W) :
  exists r s',
    run_command spawn (VStr c) timeout s = (Ok r, s')
    /\ calls s' = calls s ++ [VStr c].
Proof.
  destruct (sentinel c) eqn:E.
  - rewrite (sentinel_skips _ _ _ E). eauto.
  - rewrite (run_command_spawns _ _ _ E). eauto.
Qed.

(** So does every value the runner accepts. *)
Lemma run_command_runnable (v : value) (timeout : Z) (s : state W) :
  runnable v = true ->
  exists r s',
    run_command spawn v timeout s = (Ok r, s')
    /\ calls s' = calls s ++ [v].
Proof.
  intros Hv. destruct (truthy v) eqn:T.
  - destruct v; try apply run_command_str;
      unfold runnable in Hv; rewrite T in Hv; discriminate.
  - unfold run_command, bind, log_call, ret. rewrite T. simpl. eauto.
Qed.

End RunnerFacts.

(* ===================================================================== *)
(** ** Properties of the loop *)
(* ===================================================================== *)

Section EngineFacts.

Variable W : Type.
Variable spawn : string -> Z -> W -> outcome * W.
Variable now : W -> string * W.

#[local] Arguments run_command : simpl never.
#[local] Arguments rollback_executed : simpl never.
#[local] Arguments truthy : simpl never.
#[local] Arguments dict_get : simpl never.

(** Case analysis on whatever a hypothesis branches on. *)
Ltac split_match :=
  match goal with
  | H : context [match ?x with _ => _ end] |- _ =>
      lazymatch x with
      | context [match _ with _ => _ end] => fail
      | _ => destruct x eqn:?
      end
  end.

Lemma run_steps_app (dry : bool) (l1 l2 : list value) :
  forall (ls : loop_state) (s : state W),
    run_steps spawn dry (l1 ++ l2) ls s
    = match run_steps spawn dry l1 ls s with
      | (Ok (Next, ls'), s') => run_steps spawn dry l2 ls' s'
      | other => other
      end.
Proof.
  induction l1 as [| x l1 IH]; intros ls s; simpl.
  - reflexivity.
  - unfold bind. destruct (loop_body spawn dry x ls s) as [[[[|] ls1] | e] s1];
      simpl; auto.
Qed.

(** A step that is not a mapping stops the run with an [AttributeError]. *)
Lemma loop_body_not_dict (dry : bool) (step : value) ls (s : state W) :
  is_dict step = false ->
  loop_body spawn dry step ls s = (Raise (AttributeError "get"), s).
Proof. destruct step; simpl; intros; try discriminate; reflexivity. Qed.

(** In a dry run a turn appends the [skipped] report and nothing else. *)
Lemma loop_body_dry (sd : pydict) ls (s : state W) :
  loop_body spawn true (VDict sd) ls s
 
 = (Ok (Next, mkLoop (Report.append_step (skipped_report (VDict sd)) (report ls))
                      (executed_steps ls)), s).
Proof. reflexivity. Qed.

(** What a turn that does not raise has done. *)
Lemma loop_body_inv (dry : bool) (step : value) ls (s : state W) c ls1 s1 :
  loop_body spawn dry step ls s = (Ok (c, ls1), s1) ->
  exists r,
    is_dict step = true
    /\ ls1 = after_turn c step r ls
    /\ StepReport.step r = field step "step" (VStr "?")
    /\ StepReport.name r = field step "name" (VStr "Unnamed step")
    /\ (c = Break -> truthy (field step "critical" (VBool true)) = true
                     /\ dry = false).
Proof.
  destruct step as [| | | | | | sd]; try (simpl; discriminate).
  destruct ls as [rep ex].
  unfold loop_body, mark_success, py_get, bind, ret. cbn.
  intros H.
  repeat (split_match; cbn in H; try discriminate);
    inversion H; subst; clear H;
    (eexists; split; [reflexivity |];
     split; [unfold after_turn, Report.fail_at, Report.append_step,
               StepReport.set_status, StepReport.set_command_result,
               StepReport.set_verify_result;
             cbn; f_equal; try (progress f_equal); cbn; rewrite ?app_nil_r;
             reflexivity |];
     cbn; repeat split; auto; discriminate).
Qed.

Lemma succeeded_cons (step : value) (l : list value) r rs :
  succeeded (step :: l) (r :: rs)
  = (if String.eqb (StepReport.status r) "success" then [step] else [])
    ++ succeeded l rs.
Proof.
  unfold succeeded. simpl.
  destruct (String.eqb (StepReport.status r) "success"); reflexivity.
Qed.

(** A run of the loop that reaches its end has appended one report per
    step, has left [success] and [failed_step] alone, and has collected in
    [executed_steps] the steps reported as a success. *)
Lemma run_steps_next (dry : bool) (l : list value) :
  forall ls (s : state W) ls' s',
    run_steps spawn dry l ls s = (Ok (Next, ls'), s') ->
    exists rs,
      List.length rs = List.length l
      /\ forallb is_dict l = true
      /\ Report.steps (report ls') = Report.steps (report ls) ++ rs
      /\ Report.success (report ls') = Report.success (report ls)
      /\ Report.failed_step (report ls') = Report.failed_step (report ls)
      /\ executed_steps ls' = executed_steps ls ++ succeeded l rs.
Proof.
  induction l as [| step l IH]; intros ls s ls' s' H; simpl in H.
  - inversion H; subst. exists []. rewrite !app_nil_r. repeat split.
  - unfold bind in H.
    destruct (loop_body spawn dry step ls s) as [[[c ls1] | e] s1] eqn:B;
      [| discriminate].
    destruct c; [| discriminate].
    apply loop_body_inv in B. destruct B as (r & Hd & -> & _).
    apply IH in H. destruct H as (rs & Hlen & Hds & Hst & Hsu & Hfs & Hex).
    exists (r :: rs). rewrite Hst, Hsu, Hfs, Hex, succeeded_cons.
    unfold after_turn, Report.append_step.
    cbn [report executed_steps Report.steps Report.success
         Report.failed_step List.length forallb].
    rewrite Hd, Hds, Hlen, <- !app_assoc. repeat split.
Qed.


(** [py_iter] in terms of [elements]. *)
Lemma py_iter_elements (v : value) (s : state W) :
  py_iter v s
  = match elements v with
    | Some l => (Ok l, s)
    | None => (Raise (TypeError "object is not iterable"), s)
    end.
Proof. destruct v; reflexivity. Qed.

(** [execute_plan] on a mapping: stamp, loop over the steps, stamp. *)
Lemma execute_plan_steps (d : pydict) (dry : bool) (l : list value)
      (s : state W) :
  elements (dict_get d "steps" (VList [])) = Some l ->
  execute_plan spawn now (VDict d) dry s
  = match run_steps spawn dry l (initial (VDict d) (fst (now (world s))) dry)
                    (mkState (snd (now (world s))) (calls s) (spawned s)) with
    | (Ok (_, ls), s2) =>
        (Ok (Report.complete (fst (now (world s2))) (report ls)),
         mkState (snd (now (world s2))) (calls s2) (spawned s2))
    | (Raise e, s2) => (Raise e, s2)
    end.
Proof.
  intros Hl.
  unfold execute_plan, py_get, bind, ret, get_now, initial. cbn.
  destruct (now (world s)) as [t w1]. cbn.
  rewrite py_iter_elements, Hl.
  destruct (run_steps spawn dry l _ _) as [[[c ls] | e] s2]; cbn.
  - destruct (now (world s2)) as [t2 w3]. reflexivity.
  - reflexivity.
Qed.

Lemma execute_plan_not_dict (plan : value) (dry : bool) (s : state W) :
  is_dict plan = false ->
  execute_plan spawn now plan dry s = (Raise (AttributeError "get"), s).
Proof. destruct plan; simpl; intros; try discriminate; reflexivity. Qed.

Lemma execute_plan_not_iterable (d : pydict) (dry : bool) (s : state W) :
  elements (dict_get d "steps" (VList [])) = None ->
  execute_plan spawn now (VDict d) dry s
  = (Raise (TypeError "object is not iterable"),
     mkState (snd (now (world s))) (calls s) (spawned s)).
Proof.
  intros Hl.
  unfold execute_plan, py_get, bind, ret, get_now. cbn.
  destruct (now (world s)) as [t w1]. cbn.
  rewrite py_iter_elements, Hl. reflexivity.
Qed.

(** A dry run of the loop: it stops at the first step that is not a
    mapping, and otherwise takes a dry turn per step; the state is left as
    it was. *)
Lemma run_steps_dry (l : list value) :
  forall ls (s : state W),
    run_steps spawn true l ls s
    = if forallb is_dict l then (Ok (Next, fold_left dry_turn l ls), s)
      else (Raise (AttributeError "get"), s).
Proof.
  induction l as [| step l IH]; intros ls s.
  - reflexivity.
  - cbn [run_steps forallb fold_left]. unfold bind.
    destruct (is_dict step) eqn:D.
    + destruct step; try discriminate.
      rewrite loop_body_dry. cbn [andb]. apply IH.
    + rewrite loop_body_not_dict by exact D. reflexivity.
Qed.

Lemma dry_turns_report (l : list value) :
  forall ls,
    Report.steps (report (fold_left dry_turn l ls))
    = Report.steps (report ls) ++ map skipped_report l
    /\ Report.success (report (fold_left dry_turn l ls))
       = Report.success (report ls)
    /\ Report.failed_step (report (fold_left dry_turn l ls))
       = Report.failed_step (report ls).
Proof.
  induction l as [| step l IH]; intros ls; cbn [fold_left map].
  - rewrite app_nil_r. auto.
  - destruct (IH (dry_turn ls step)) as (-> & -> & ->).
    cbn. rewrite <- app_assoc. auto.
Qed.

End EngineFacts.

(* ===================================================================== *)
(** ** Dry runs *)
(* ===================================================================== *)

Section DryRun.

Variable W : Type.
Variable spawn : string -> Z -> W -> outcome * W.
Variable now : W -> string * W.

(** The steps reported by a dry run, as a function of the plan alone. *)
Lemma dry_run_steps (plan : value) (s : state W) :
  result_map Report.steps (fst (execute_plan spawn now plan true s))
  = match plan with
    | VDict d =>
        match elements (dict_get d "steps" (VList [])) with
        | Some l =>
            if forallb is_dict l then Ok (map skipped_report l)
            else Raise (AttributeError "get")
        | None => Raise (TypeError "object is not iterable")
        end
    | _ => Raise (AttributeError "get")
    end.
Proof.
  destruct plan as [| | | | | | d];
    try (rewrite execute_plan_not_dict by reflexivity; reflexivity).
  destruct (elements (dict_get d "steps" (VList []))) as [l |] eqn:El.
  - rewrite execute_plan_steps with (l := l) by exact El.
    rewrite run_steps_dry.
    destruct (forallb is_dict l); cbn; [| reflexivity].
    destruct (dry_turns_report l (initial (VDict d) (fst (now (world s))) true))
      as (-> & _). reflexivity.
  - rewrite execute_plan_not_iterable by exact El. reflexivity.
Qed.

(** Outside the plan documents a dry run returns no report: it raises. *)
Lemma dry_run_raises_on_other_values (plan : value) (s : state W) :
  is_plan plan = false ->
  exists e, fst (execute_plan spawn now plan true s) = Raise e.
Proof.
  intros Hp. pose proof (dry_run_steps plan s) as H.
  destruct (fst (execute_plan spawn now plan true s)) as [rep | e];
    [| eauto].
  exfalso. cbn in H. unfold is_plan in Hp.
  destruct plan as [| | | | | | d]; try discriminate.
  destruct (elements (dict_get d "steps" (VList []))) as [l |];
    [| discriminate].
  rewrite Hp in H. discriminate.
Qed.


(** C9. Two dry runs of one plan, from any two states of the world, report
    the same sequence of steps (numbers, names, statuses and results), or
    stop with the same exception. *)
Theorem dry_run_is_repeatable (plan : value) (s1 s2 : state W) :
  result_map Report.steps (fst (execute_plan spawn now plan true s1))
  = result_map Report.steps (fst (execute_plan spawn now plan true s2)).
Proof. rewrite !dry_run_steps. reflexivity. Qed.

End DryRun.

(* ===================================================================== *)
(** ** The report's [success] and [failed_step] *)
(* ===================================================================== *)

Section Outcome.

Variable W : Type.
Variable spawn : string -> Z -> W -> outcome * W.
Variable now : W -> string * W.


End Outcome.

(* ===================================================================== *)
(** ** Failure, verification and rollback *)
(* ===================================================================== *)

Section RealRun.

Variable W : Type.
Variable spawn : string -> Z -> W -> outcome * W.
Variable now : W -> string * W.

#[local] Arguments run_command : simpl never.
#[local] Arguments rollback_executed : simpl never.
#[local] Arguments truthy : simpl never.
#[local] Arguments dict_get : simpl never.

Lemma rollback_commands_cons (step : value) (l : list value) :
  rollback_commands (step :: l)
  = (if truthy (field step "rollback" VNone)
     then [field step "rollback" VNone] else [])
    ++ rollback_commands l.
Proof.
  unfold rollback_commands. cbn [map filter].
  destruct (truthy (field step "rollback" VNone)); reflexivity.
Qed.

(** Rolling back never stops early: every rollback command is called, and
    what a rollback command returns is ignored. *)
Lemma rollback_each_ok (l : list value) :
  forall s : state W,
    forallb rollback_ok l = true ->
    exists s',
      rollback_each spawn l s = (Ok tt, s')
      /\ calls s' = calls s ++ rollback_commands l.
Proof.
  induction l as [| step l IH]; intros s Hok.
  - exists s. split; [reflexivity |]. cbn. now rewrite app_nil_r.
  - cbn [forallb] in Hok. apply andb_true_iff in Hok. destruct Hok as [Hs Hl].
    unfold rollback_ok in Hs. apply andb_true_iff in Hs. destruct Hs as [Hd Hr].
    destruct step as [| | | | | | sd]; try discriminate.
    rewrite rollback_commands_cons.
    cbn [rollback_each py_get field] in *. unfold bind, ret.
    destruct (truthy (dict_get sd "rollback" VNone)) eqn:T.
    + destruct (run_command_runnable W spawn _ 300 s Hr) as (r & s1 & E & Hc).
      rewrite E.
      destruct (IH s1 Hl) as (s' & -> & Hc').
      exists s'. split; [reflexivity |].
      rewrite Hc', Hc, <- app_assoc. reflexivity.
    + destruct (IH s Hl) as (s' & -> & Hc').
      exists s'. split; [reflexivity |]. exact Hc'.
Qed.

Lemma succeeded_incl (l : list value) (rs : list StepReport.t) (x : value) :
  In x (succeeded l rs) -> In x l.
Proof.
  unfold succeeded. intros H. apply in_map_iff in H.
  destruct H as ([y r] & <- & Hin). apply filter_In in Hin.
  destruct Hin as [Hin _]. apply in_combine_l in Hin. exact Hin.
Qed.

Lemma forallb_rev (A : Type) (f : A -> bool) (l : list A) :
  forallb f l = true -> forallb f (rev l) = true.
Proof.
  rewrite !forallb_forall. intros H x Hx. apply H. now apply in_rev.
Qed.

(** The steps collected in [executed_steps] can be rolled back when the
    steps of the plan can. *)
Lemma rollback_executed_ok (pre : list value) (rs : list StepReport.t)
      (s : state W) :
  forallb rollback_ok pre = true ->
  exists s',
    rollback_executed spawn (succeeded pre rs) s = (Ok tt, s')
    /\ calls s' = calls s ++ rollback_commands (rev (succeeded pre rs)).
Proof.
  intros Hok. apply rollback_each_ok. apply forallb_rev.
  apply forallb_forall. intros x Hx. apply succeeded_incl in Hx.
  rewrite forallb_forall in Hok. now apply Hok.
Qed.

Lemma forallb_rev_eq (A : Type) (f : A -> bool) (l : list A) :
  forallb f (rev l) = forallb f l.
Proof.
  induction l as [| a l IH]; [reflexivity |].
  cbn [rev forallb]. rewrite forallb_app, IH. cbn [forallb].
  rewrite andb_true_r. apply andb_comm.
Qed.

(** A rollback stops at the first rollback value that [run_command]
    does not accept. *)
Lemma rollback_each_raises (l : list value) :
  forall s : state W,
    forallb is_dict l = true ->
    forallb rollback_ok l = false ->
    exists s',
      rollback_each spawn l s = (Raise (AttributeError "startswith"), s').
Proof.
  induction l as [| step l IH]; intros s Hd Hbad; [discriminate |].
  cbn [forallb] in Hd, Hbad. apply andb_true_iff in Hd.
  destruct Hd as [Hstep Hl].
  destruct step as [| | | | | | sd]; try discriminate.
  unfold rollback_ok in Hbad at 1. cbn [is_dict field andb] in Hbad.
  cbn [rollback_each py_get]. unfold bind at 1, ret at 1.
  destruct (runnable (dict_get sd "rollback" VNone)) eqn:Hr.
  - cbn [andb] in Hbad.
    destruct (truthy (dict_get sd "rollback" VNone)) eqn:T.
    + destruct (run_command_runnable W spawn _ 300 s Hr) as (r & s1 & E & _).
      unfold bind, ret. rewrite E. apply IH; assumption.
    + unfold bind, ret. apply IH; assumption.
  - exists (mkState (world s) (calls s ++ [dict_get sd "rollback" VNone])
                    (spawned s)).
    unfold run_command, bind, log_call, ret, raise.
    destruct (dict_get sd "rollback" VNone) as [| b | z | f | c | l0 | d0];
      try discriminate; cbn in Hr; apply negb_false_iff in Hr;
      cbn; rewrite ?Hr; cbn; reflexivity.
Qed.

(** The steps collected in [executed_steps] are mappings. *)
Lemma succeeded_dicts (pre : list value) (rs : list StepReport.t) :
  forallb is_dict pre = true -> forallb is_dict (succeeded pre rs) = true.
Proof.
  intros H. apply forallb_forall. intros x Hx. apply succeeded_incl in Hx.
  rewrite forallb_forall in H. now apply H.
Qed.

(** The four ways a turn of a real run goes once the command has
    returned. *)
Lemma turn_command_failed_critical (sd : pydict) ls (s s1 : state W) res :
  truthy (dict_get sd "critical" (VBool true)) = true ->
  run_command spawn (dict_get sd "command" (VStr EmptyString)) 300 s
  = (Ok res, s1) ->
  CommandResult.success res = false ->
  loop_body spawn false (VDict sd) ls s
  = match rollback_executed spawn (executed_steps ls) s1 with
    | (Ok _, s2) =>
        (Ok (Break,
             mkLoop (Report.fail_at
                       (dict_get sd "step" (VStr "?"))
                       (Report.append_step
                          (report_of (VDict sd) "failed" (Some res) None)
                          (report ls)))
                    (executed_steps ls)), s2)
    | (Raise e, s2) => (Raise e, s2)
    end.
Proof.
  intros Hc Hr Hf. unfold loop_body, py_get, bind, ret. cbn.
  rewrite Hr. cbn. rewrite Hf, Hc. cbn.
  destruct (rollback_executed spawn (executed_steps ls) s1) as [[[] | e] s2];
    reflexivity.
Qed.

Lemma turn_command_failed_noncritical (sd : pydict) ls (s s1 : state W) res :
  truthy (dict_get sd "critical" (VBool true)) = false ->
  run_command spawn (dict_get sd "command" (VStr EmptyString)) 300 s
  = (Ok res, s1) ->
  CommandResult.success res = false ->
  loop_body spawn false (VDict sd) ls s
  = (Ok (Next,
         mkLoop (Report.append_step
                   (report_of (VDict sd) "failed" (Some res) None) (report ls))
                (executed_steps ls)), s1).
Proof.
  intros Hc Hr Hf. unfold loop_body, py_get, bind, ret. cbn.
  rewrite Hr. cbn. rewrite Hf, Hc. reflexivity.
Qed.

Lemma turn_verify_failed_critical (sd : pydict) ls (s s1 s2 : state W) res vres :
  truthy (dict_get sd "critical" (VBool true)) = true ->
  run_command spawn (dict_get sd "command" (VStr EmptyString)) 300 s
  = (Ok res, s1) ->
  CommandResult.success res = true ->
  truthy (dict_get sd "verify" (VStr EmptyString)) = true ->
  run_command spawn (dict_get sd "verify" (VStr EmptyString)) 300 s1
  = (Ok vres, s2) ->
  CommandResult.success vres = false ->
  loop_body spawn false (VDict sd) ls s
  = match rollback_each spawn (VDict sd :: rev (executed_steps ls)) s2 with
    | (Ok _, s3) =>
        (Ok (Break,
             mkLoop (Report.append_step
                       (report_of (VDict sd) "verify_failed"
                                  (Some res) (Some vres))
                       (Report.fail_at (dict_get sd "step" (VStr "?"))
                                       (report ls)))
                    (executed_steps ls)), s3)
    | (Raise e, s3) => (Raise e, s3)
    end.
Proof.
  intros Hc Hr Hs Hv Hvr Hvf.
  unfold loop_body, py_get, bind, ret. cbn.
  rewrite Hr. cbn. rewrite Hs. cbn. rewrite Hv, Hvr. cbn. rewrite Hvf, Hc. cbn.
  unfold bind, ret, rollback_executed.
  destruct (truthy (dict_get sd "rollback" VNone)).
  - destruct (run_command spawn (dict_get sd "rollback" VNone) 300 s2)
      as [[r | e] s3]; [| reflexivity].
    destruct (rollback_each spawn (rev (executed_steps ls)) s3) as [[[] | e] s4];
      reflexivity.
  - destruct (rollback_each spawn (rev (executed_steps ls)) s2) as [[[] | e] s4];
      reflexivity.
Qed.

Lemma turn_verify_failed_noncritical (sd : pydict) ls (s s1 s2 : state W)
      res vres :
  truthy (dict_get sd "critical" (VBool true)) = false ->
  run_command spawn (dict_get sd "command" (VStr EmptyString)) 300 s
  = (Ok res, s1) ->
  CommandResult.success res = true ->
  truthy (dict_get sd "verify" (VStr EmptyString)) = true ->
  run_command spawn (dict_get sd "verify" (VStr EmptyString)) 300 s1
  = (Ok vres, s2) ->
  CommandResult.success vres = false ->
  loop_body spawn false (VDict sd) ls s
  = (Ok (Next,
         mkLoop (Report.append_step
                   (report_of (VDict sd) "success" (Some res) (Some vres))
                   (report ls))
                (executed_steps ls ++ [VDict sd])), s2).
Proof.
  intros Hc Hr Hs Hv Hvr Hvf.
  unfold loop_body, mark_success, py_get, bind, ret. cbn.
  rewrite Hr. cbn. rewrite Hs. cbn. rewrite Hv, Hvr. cbn. rewrite Hvf, Hc.
  reflexivity.
Qed.

(** A turn whose command succeeds, and whose verification is absent or
    succeeds, marks the step a success. *)
Lemma turn_success_unverified (sd : pydict) ls (s s1 : state W) res :
  run_command spawn (dict_get sd "command" (VStr EmptyString)) 300 s
  = (Ok res, s1) ->
  CommandResult.success res = true ->
  truthy (dict_get sd "verify" (VStr EmptyString)) = false ->
  loop_body spawn false (VDict sd) ls s
  = (Ok (Next,
         mkLoop (Report.append_step
                   (report_of (VDict sd) "success" (Some res) None) (report ls))
                (executed_steps ls ++ [VDict sd])), s1).
Proof.
  intros Hr Hs Hv.
  unfold loop_body, mark_success, py_get, bind, ret. cbn.
  rewrite Hr. cbn. rewrite Hs. cbn. rewrite Hv. reflexivity.
Qed.

Lemma turn_success_verified (sd : pydict) ls (s s1 s2 : state W) res vres :
  run_command spawn (dict_get sd "command" (VStr EmptyString)) 300 s
  = (Ok res, s1) ->
  CommandResult.success res = true ->
  truthy (dict_get sd "verify" (VStr EmptyString)) = true ->
  run_command spawn (dict_get sd "verify" (VStr EmptyString)) 300 s1
  = (Ok vres, s2) ->
  CommandResult.success vres = true ->
  loop_body spawn false (VDict sd) ls s
  = (Ok (Next,
         mkLoop (Report.append_step
                   (report_of (VDict sd) "success" (Some res) (Some vres))
                   (report ls))
                (executed_steps ls ++ [VDict sd])), s2).
Proof.
  intros Hr Hs Hv Hvr Hvs.
  unfold loop_body, mark_success, py_get, bind, ret. cbn.
  rewrite Hr. cbn. rewrite Hs. cbn. rewrite Hv, Hvr. cbn. rewrite Hvs.
  reflexivity.
Qed.

(** [execute_plan] once the turns for the first steps have gone through. *)
Lemma execute_plan_from_prefix (plan : value) (dry : bool)
      (pre : list value) (step : value) (post : list value)
      (s : state W) ls (s2 : state W) :
  plan_steps plan = pre ++ step :: post ->
  run_prefix spawn now plan dry pre s = (Ok (Next, ls), s2) ->
  execute_plan spawn now plan dry s
  = match run_steps spawn dry (step :: post) ls s2 with
    | (Ok (_, ls'), s3) =>
        (Ok (Report.complete (fst (now (world s3))) (report ls')),
         mkState (snd (now (world s3))) (calls s3) (spawned s3))
    | (Raise e, s3) => (Raise e, s3)
    end.
Proof.
  intros Hsteps Hpre.
  destruct plan as [| | | | | | d];
    try (exfalso; exact (app_cons_not_nil _ _ _ Hsteps)).
  unfold plan_steps in Hsteps.
  destruct (elements (dict_get d "steps" (VList []))) as [l |] eqn:El;
    [subst l | exfalso; exact (app_cons_not_nil _ _ _ Hsteps)].
  rewrite execute_plan_steps with (l := pre ++ step :: post) by exact El.
  rewrite run_steps_app. unfold run_prefix in Hpre. rewrite Hpre.
  reflexivity.
Qed.

(** What the turns for the first steps have left behind when the loop is
    still going. *)
Lemma run_prefix_next (plan : value) (dry : bool) (pre : list value)
      (s : state W) ls (s2 : state W) :
  run_prefix spawn now plan dry pre s = (Ok (Next, ls), s2) ->
  List.length (Report.steps (report ls)) = List.length pre
  /\ Report.success (report ls) = true
  /\ Report.failed_step (report ls) = VNone
  /\ executed_steps ls = succeeded pre (Report.steps (report ls)).
Proof.
  unfold run_prefix. intros H. apply run_steps_next in H.
  destruct H as (rs & Hlen & _ & Hst & Hsu & Hfs & Hex).
  cbn in Hst, Hsu, Hfs, Hex. rewrite Hst, Hsu, Hfs, Hex, Hlen.
  repeat split.
Qed.

(** C1, as amended.  In a real run, when the command of a critical step
    fails, [executed_steps] holds the earlier steps that were reported a
    success.  If the rollback of each of them is a string or counts as
    false, [execute_plan] returns a report with [failed_step] set to the
    number of the failing step and [success] false; the step is reported
    [failed], and no report follows it; after the failing command the only
    calls of [run_command] are the rollback commands of [executed_steps],
    last completed first.  If not, the rollback raises [AttributeError]
    and [execute_plan] returns no report. *)
Theorem critical_command_failure_rolls_back
        (plan : value) (pre post : list value) (sd : pydict)
        (s : state W) (ls : loop_state) (s2 s3 : state W)
        (res : CommandResult.t) :
  plan_steps plan = pre ++ VDict sd :: post ->
  run_prefix spawn now plan false pre s = (Ok (Next, ls), s2) ->
  truthy (dict_get sd "critical" (VBool true)) = true ->
  run_command spawn (dict_get sd "command" (VStr EmptyString)) 300 s2
  = (Ok res, s3) ->
  CommandResult.success res = false ->
  List.length (Report.steps (report ls)) = List.length pre
  /\ executed_steps ls = succeeded pre (Report.steps (report ls))
  /\ (forallb rollback_ok (executed_steps ls) = true ->
      exists rep s4,
        execute_plan spawn now plan false s = (Ok rep, s4)
        /\ Report.failed_step rep = dict_get sd "step" (VStr "?")
        /\ Report.success rep = false
        /\ Report.steps rep
           = Report.steps (report ls)
             ++ [report_of (VDict sd) "failed" (Some res) None]
        /\ calls s4 = calls s3 ++ rollback_commands (rev (executed_steps ls)))
  /\ (forallb rollback_ok (executed_steps ls) = false ->
      exists s4,
        execute_plan spawn now plan false s
        = (Raise (AttributeError "startswith"), s4)).
Proof.
  intros Hsteps Hpre Hcrit Hcmd Hfail.
  destruct (run_prefix_next _ _ _ _ _ _ Hpre) as (Hlen & _ & _ & Hex).
  split; [exact Hlen |]. split; [exact Hex |].
  rewrite (execute_plan_from_prefix _ _ _ _ _ _ _ _ Hsteps Hpre).
  cbn [run_steps]. unfold bind.
  rewrite (turn_command_failed_critical _ _ _ _ _ Hcrit Hcmd Hfail).
  unfold rollback_executed. split; intros Hok.
  - destruct (rollback_each_ok (rev (executed_steps ls)) s3) as (s4 & -> & Hcalls).
    { now apply forallb_rev. }
    cbn. eexists. eexists. split; [reflexivity |]. cbn.
    repeat split; assumption.
  - destruct (rollback_each_raises (rev (executed_steps ls)) s3) as (s4 & ->).
    + rewrite forallb_rev_eq, Hex. apply succeeded_dicts.
      unfold run_prefix in Hpre. apply run_steps_next in Hpre.
      destruct Hpre as (rs & _ & Hd & _). exact Hd.
    + rewrite forallb_rev_eq. exact Hok.
    + eexists. reflexivity.
Qed.

(** C2, as amended.  In a real run, when the command of a critical step
    succeeds and its verification fails: if the rollback of the step and
    that of each step in [executed_steps] is a string or counts as false,
    [execute_plan] returns a report with [failed_step] set to the number
    of the step and [success] false; the step is reported [verify_failed],
    and no report follows it; after the failing verification the only
    calls of [run_command] are the rollback command of the step itself, if
    it has one, and then those of [executed_steps], last completed first.
    If not, the rollback raises [AttributeError] and [execute_plan]
    returns no report. *)
Theorem critical_verify_failure_rolls_back
        (plan : value) (pre post : list value) (sd : pydict)
        (s : state W) (ls : loop_state) (s2 s3 s4 : state W)
        (res vres : CommandResult.t) :
  plan_steps plan = pre ++ VDict sd :: post ->
  run_prefix spawn now plan false pre s = (Ok (Next, ls), s2) ->
  truthy (dict_get sd "critical" (VBool true)) = true ->
  run_command spawn (dict_get sd "command" (VStr EmptyString)) 300 s2
  = (Ok res, s3) ->
  CommandResult.success res = true ->
  truthy (dict_get sd "verify" (VStr EmptyString)) = true ->
  run_command spawn (dict_get sd "verify" (VStr EmptyString)) 300 s3
  = (Ok vres, s4) ->
  CommandResult.success vres = false ->
  List.length (Report.steps (report ls)) = List.length pre
  /\ executed_steps ls = succeeded pre (Report.steps (report ls))
  /\ (forallb rollback_ok (VDict sd :: executed_steps ls) = true ->
      exists rep s5,
        execute_plan spawn now plan false s = (Ok rep, s5)
        /\ Report.failed_step rep = dict_get sd "step" (VStr "?")
        /\ Report.success rep = false
        /\ Report.steps rep
           = Report.steps (report ls)
             ++ [report_of (VDict sd) "verify_failed" (Some res) (Some vres)]
        /\ calls s5
           = calls s4
             ++ rollback_commands (VDict sd :: rev (executed_steps ls)))
  /\ (forallb rollback_ok (VDict sd :: executed_steps ls) = false ->
      exists s5,
        execute_plan spawn now plan false s
        = (Raise (AttributeError "startswith"), s5)).
Proof.
  intros Hsteps Hpre Hcrit Hcmd Hsucc Hver Hvcmd Hvfail.
  destruct (run_prefix_next _ _ _ _ _ _ Hpre) as (Hlen & _ & _ & Hex).
  split; [exact Hlen |]. split; [exact Hex |].
  rewrite (execute_plan_from_prefix _ _ _ _ _ _ _ _ Hsteps Hpre).
  cbn [run_steps]. unfold bind.
  rewrite (turn_verify_failed_critical _ _ _ _ _ _ _
             Hcrit Hcmd Hsucc Hver Hvcmd Hvfail).
  assert (Hrev : forallb rollback_ok (VDict sd :: rev (executed_steps ls))
                 = forallb rollback_ok (VDict sd :: executed_steps ls)).
  { cbn [forallb]. now rewrite forallb_rev_eq. }
  split; intros Hok.
  - destruct (rollback_each_ok (VDict sd :: rev (executed_steps ls)) s4)
      as (s5 & -> & Hcalls).
    { now rewrite Hrev. }
    cbn. eexists. eexists. split; [reflexivity |]. cbn.
    repeat split; assumption.
  - destruct (rollback_each_raises (VDict sd :: rev (executed_steps ls)) s4)
      as (s5 & ->).
    + cbn [forallb is_dict andb]. rewrite forallb_rev_eq, Hex.
      apply succeeded_dicts.
      unfold run_prefix in Hpre. apply run_steps_next in Hpre.
      destruct Hpre as (rs & _ & Hd & _). exact Hd.
    + now rewrite Hrev.
    + eexists. reflexivity.
Qed.

(** A turn that ends with [Next] extends the run by one step. *)
Lemma run_prefix_snoc (plan : value) (pre : list value) (step : value)
      (s : state W) ls (s2 : state W) ls' (s3 : state W) :
  run_prefix spawn now plan false pre s = (Ok (Next, ls), s2) ->
  loop_body spawn false step ls s2 = (Ok (Next, ls'), s3) ->
  run_prefix spawn now plan false (pre ++ [step]) s = (Ok (Next, ls'), s3)
  /\ (forall post,
        run_steps spawn false (step :: post) ls s2 = run_steps spawn false post ls' s3)
  /\ (plan_steps plan = pre ++ [step] ->
      execute_plan spawn now plan false s
      = (Ok (Report.complete (fst (now (world s3))) (report ls')),
         mkState (snd (now (world s3))) (calls s3) (spawned s3))).
Proof.
  intros Hpre Hturn. split; [| split].
  - unfold run_prefix in *. rewrite run_steps_app, Hpre.
    cbn [run_steps]. unfold bind. rewrite Hturn. reflexivity.
  - intros post. cbn [run_steps]. unfold bind. rewrite Hturn.
    reflexivity.
  - intros Hsteps.
    rewrite (execute_plan_from_prefix _ _ _ _ _ _ _ _ Hsteps Hpre).
    cbn [run_steps]. unfold bind. rewrite Hturn. reflexivity.
Qed.

(** C3. In a real run, when the command of a step that is not critical
    succeeds and its verification fails, the step is reported with status
    [success] and with the failed verification in [verify_result]; the
    loop goes on with the next step, [success] still true and
    [failed_step] still [None]; if the step is the last one, the report
    returned has [success] true. *)
Theorem noncritical_verify_failure_is_success
        (plan : value) (pre : list value) (sd : pydict)
        (s : state W) (ls : loop_state) (s2 s3 s4 : state W)
        (res vres : CommandResult.t) :
  run_prefix spawn now plan false pre s = (Ok (Next, ls), s2) ->
  truthy (dict_get sd "critical" (VBool true)) = false ->
  run_command spawn (dict_get sd "command" (VStr EmptyString)) 300 s2
  = (Ok res, s3) ->
  CommandResult.success res = true ->
  truthy (dict_get sd "verify" (VStr EmptyString)) = true ->
  run_command spawn (dict_get sd "verify" (VStr EmptyString)) 300 s3
  = (Ok vres, s4) ->
  CommandResult.success vres = false ->
  exists ls',
    run_prefix spawn now plan false (pre ++ [VDict sd]) s = (Ok (Next, ls'), s4)
    /\ Report.steps (report ls')
       = Report.steps (report ls)
         ++ [report_of (VDict sd) "success" (Some res) (Some vres)]
    /\ Report.success (report ls') = true
    /\ Report.failed_step (report ls') = VNone
    /\ executed_steps ls' = executed_steps ls ++ [VDict sd]
    /\ (forall post,
          run_steps spawn false (VDict sd :: post) ls s2
          = run_steps spawn false post ls' s4)
    /\ (plan_steps plan = pre ++ [VDict sd] ->
        exists rep s5,
          execute_plan spawn now plan false s = (Ok rep, s5)
          /\ Report.steps rep = Report.steps (report ls')
          /\ Report.success rep = true
          /\ Report.failed_step rep = VNone).
Proof.
  intros Hpre Hcrit Hcmd Hsucc Hver Hvcmd Hvfail.
  destruct (run_prefix_next _ _ _ _ _ _ Hpre) as (_ & Hsu & Hfs & _).
  pose proof (turn_verify_failed_noncritical _ ls _ _ _ _ _
                Hcrit Hcmd Hsucc Hver Hvcmd Hvfail) as Hturn.
  destruct (run_prefix_snoc _ _ _ _ _ _ _ _ Hpre Hturn) as (Hrun & Hnext & Hlast).
  eexists. split; [exact Hrun |]. cbn.
  repeat split; try assumption.
  intros Hsteps. rewrite (Hlast Hsteps).
  eexists. eexists. split; [reflexivity |]. cbn. repeat split; assumption.
Qed.

(** C6. In a real run, when the command of a step that is not critical
    fails, the step is reported [failed]; the loop goes on with the next
    step, [success] still true and [failed_step] still [None]; if the step
    is the last one, the report returned has [success] true. *)
Theorem noncritical_failure_continues
        (plan : value) (pre : list value) (sd : pydict)
        (s : state W) (ls : loop_state) (s2 s3 : state W)
        (res : CommandResult.t) :
  run_prefix spawn now plan false pre s = (Ok (Next, ls), s2) ->
  truthy (dict_get sd "critical" (VBool true)) = false ->
  run_command spawn (dict_get sd "command" (VStr EmptyString)) 300 s2
  = (Ok res, s3) ->
  CommandResult.success res = false ->
  exists ls',
    run_prefix spawn now plan false (pre ++ [VDict sd]) s = (Ok (Next, ls'), s3)
    /\ Report.steps (report ls')
       = Report.steps (report ls)
         ++ [report_of (VDict sd) "failed" (Some res) None]
    /\ Report.success (report ls') = true
    /\ Report.failed_step (report ls') = VNone
    /\ executed_steps ls' = executed_steps ls
    /\ (forall post,
          run_steps spawn false (VDict sd :: post) ls s2
          = run_steps spawn false post ls' s3)
    /\ (plan_steps plan = pre ++ [VDict sd] ->
        exists rep s4,
          execute_plan spawn now plan false s = (Ok rep, s4)
          /\ Report.steps rep = Report.steps (report ls')
          /\ Report.success rep = true
          /\ Report.failed_step rep = VNone).
Proof.
  intros Hpre Hcrit Hcmd Hfail.
  destruct (run_prefix_next _ _ _ _ _ _ Hpre) as (_ & Hsu & Hfs & _).
  pose proof (turn_command_failed_noncritical _ ls _ _ _
                Hcrit Hcmd Hfail) as Hturn.
  destruct (run_prefix_snoc _ _ _ _ _ _ _ _ Hpre Hturn) as (Hrun & Hnext & Hlast).
  eexists. split; [exact Hrun |]. cbn.
  repeat split; try assumption.
  intros Hsteps. rewrite (Hlast Hsteps).
  eexists. eexists. split; [reflexivity |]. cbn. repeat split; assumption.
Qed.

End RealRun.

(* ===================================================================== *)
(** ** The command runner's contract *)
(* ===================================================================== *)

Section Runner.

Variable W : Type.
Variable spawn : string -> Z -> W -> outcome * W.

(** C7, as amended.  [run_command] returns a result for every command
    that is a string and every timeout that can be printed; nothing is
    raised.  When the shell runs into the timeout the result has [success]
    false, [returncode] -1 and an error text that states the timeout in
    seconds; when the command cannot be launched or run, it has [success]
    false, [returncode] -1 and the text of the fault as its error. *)
Theorem run_command_always_returns (c : string) (timeout : Z) (s : state W) :
  printable timeout = true ->
  exists r s',
    run_command spawn (VStr c) timeout s = (Ok r, s')
    /\ (sentinel c = false ->
        fst (spawn c timeout (world s)) = TimeoutExpired ->
        CommandResult.success r = false
        /\ CommandResult.returncode r = -1
        /\ CommandResult.output r = None
        /\ CommandResult.error r
           = Some ("Command timed out after " ++ PyStr.of_Z timeout
                   ++ " seconds")%string)
    /\ (forall message,
          sentinel c = false ->
          fst (spawn c timeout (world s)) = Raised message ->
          CommandResult.success r = false
          /\ CommandResult.returncode r = -1
          /\ CommandResult.output r = None
          /\ CommandResult.error r = Some message)
    /\ (forall rc out err,
          sentinel c = false ->
          fst (spawn c timeout (world s)) = Completed rc out err ->
          r = CommandResult.mk (rc =? 0) (Some out) (Some err) rc).
Proof.
  intros _. destruct (sentinel c) eqn:E.
  - rewrite sentinel_skips by exact E.
    eexists. eexists. split; [reflexivity |].
    repeat split; intros; discriminate.
  - rewrite run_command_spawns by exact E.
    eexists. eexists. split; [reflexivity |].
    split; [| split].
    + intros _ ->. repeat split.
    + intros message _ ->. repeat split.
    + intros rc out err _ ->. reflexivity.
Qed.


End Runner.

(* ===================================================================== *)
(** ** Loading a plan *)
(* ===================================================================== *)

Section Loading.

Variable W : Type.
Variable spawn : string -> Z -> W -> outcome * W.
Variable now : W -> string * W.
Variable safe_load : string -> result value.

Lemma simple_yaml_load_is_dict (content : string) :
  is_dict (simple_yaml_load content) = true.
Proof. reflexivity. Qed.


End Loading.

(* ===================================================================== *)
(** ** Scenarios in the sample world *)
(* ===================================================================== *)

(** Scenario A: the second of three critical steps fails.  The report has
    two steps, [failed_step] is 2, and the one rollback that runs is that
    of step 1; step 3 is never reached. *)
Lemma scenario_a_rolls_back :
  plan_steps Sample.scenario_a
  = [Sample.prepare] ++ VDict Sample.install_fails :: [Sample.finish]
  /\ forallb rollback_ok [Sample.prepare] = true
  /\ exists rep s4,
       Sample.execute_plan Sample.scenario_a false Sample.start = (Ok rep, s4)
       /\ Report.failed_step rep = VInt 2
       /\ Report.success rep = false
       /\ map StepReport.status (Report.steps rep) = ["success"; "failed"]
       /\ calls s4 = [VStr "echo prepare"; VStr "exit 1"; VStr "undo 1"].
Proof.
  split; [reflexivity |]. split; [reflexivity |].
  edestruct (critical_command_failure_rolls_back
               Sample.W Sample.spawn Sample.now Sample.scenario_a
               [Sample.prepare] [Sample.finish] Sample.install_fails
               Sample.start)
    as (_ & Hex & Hok & _);
    [reflexivity | reflexivity | reflexivity | reflexivity | reflexivity |].
  destruct (Hok eq_refl) as (rep & s4 & E & Hf & Hs & Hst & Hc).
  exists rep, s4. rewrite Hf, Hs, Hst, Hc.
  split; [exact E |]. repeat split.
Defined.

(** The second step installs but fails its verification: its own rollback
    runs first, then that of step 1; step 3 is never reached. *)
Lemma unverified_install_rolls_back :
  plan_steps Sample.unverified_plan
  = [Sample.prepare] ++ VDict Sample.install_unverified :: [Sample.finish]
  /\ forallb rollback_ok [Sample.prepare; VDict Sample.install_unverified] = true
  /\ exists rep s5,
       Sample.execute_plan Sample.unverified_plan false Sample.start
       = (Ok rep, s5)
       /\ Report.failed_step rep = VInt 2
       /\ Report.success rep = false
       /\ map StepReport.status (Report.steps rep) = ["success"; "verify_failed"]
       /\ calls s5 = [VStr "echo prepare"; VStr "echo install"; VStr "exit 1";
                      VStr "undo 2"; VStr "undo 1"].
Proof.
  split; [reflexivity |]. split; [reflexivity |].
  edestruct (critical_verify_failure_rolls_back
               Sample.W Sample.spawn Sample.now Sample.unverified_plan
               [Sample.prepare] [Sample.finish] Sample.install_unverified
               Sample.start)
    as (_ & Hex & Hok & _);
    [reflexivity | reflexivity | reflexivity | reflexivity | reflexivity
     | reflexivity | reflexivity | reflexivity |].
  destruct (Hok eq_refl) as (rep & s5 & E & Hf & Hs & Hst & Hc).
  exists rep, s5. rewrite Hf, Hs, Hst, Hc.
  split; [exact E |]. repeat split.
Defined.

(** Scenario D: the verification of a step that is not critical fails.  The
    step is reported a success, the failed verification is in its
    [verify_result], and the run succeeds. *)
Lemma scenario_d_reports_success :
  plan_steps Sample.scenario_d
  = [Sample.prepare] ++ [VDict Sample.refresh_unverified]
  /\ exists rep s5,
       Sample.execute_plan Sample.scenario_d false Sample.start = (Ok rep, s5)
       /\ map StepReport.status (Report.steps rep) = ["success"; "success"]
       /\ map (fun r => option_map CommandResult.success
                                   (StepReport.verify_result r))
              (Report.steps rep)
          = [None; Some false]
       /\ Report.success rep = true
       /\ Report.failed_step rep = VNone.
Proof.
  split; [reflexivity |].
  edestruct (noncritical_verify_failure_is_success
               Sample.W Sample.spawn Sample.now Sample.scenario_d
               [Sample.prepare] Sample.refresh_unverified Sample.start)
    as (ls' & _ & Hst & _ & _ & _ & _ & Hlast);
    [reflexivity | reflexivity | reflexivity | reflexivity | reflexivity
     | reflexivity | reflexivity |].
  destruct (Hlast eq_refl) as (rep & s5 & E & Hsteps & Hsu & Hfs).
  exists rep, s5. rewrite Hsteps, Hst, Hsu, Hfs.
  split; [exact E |]. repeat split.
Defined.

(** The command of a last step that is not critical fails: the step is
    reported [failed] and the run succeeds. *)
Lemma optional_step_may_fail :
  plan_steps Sample.optional_plan
  = [Sample.prepare] ++ [VDict Sample.refresh_fails]
  /\ exists rep s4,
       Sample.execute_plan Sample.optional_plan false Sample.start
       = (Ok rep, s4)
       /\ map StepReport.status (Report.steps rep) = ["success"; "failed"]
       /\ Report.success rep = true
       /\ Report.failed_step rep = VNone.
Proof.
  split; [reflexivity |].
  edestruct (noncritical_failure_continues
               Sample.W Sample.spawn Sample.now Sample.optional_plan
               [Sample.prepare] Sample.refresh_fails Sample.start)
    as (ls' & _ & Hst & _ & _ & _ & _ & Hlast);
    [reflexivity | reflexivity | reflexivity | reflexivity |].
  destruct (Hlast eq_refl) as (rep & s4 & E & Hsteps & Hsu & Hfs).
  exists rep, s4. rewrite Hsteps, Hst, Hsu, Hfs.
  split; [exact E |]. repeat split.
Defined.


(** Scenario C: a command that exceeds a timeout of 5 seconds. *)
Lemma scenario_c_times_out :
  printable 5 = true
  /\ exists r s',
       Sample.run_command (VStr "sleep 10") 5 Sample.start = (Ok r, s')
       /\ CommandResult.success r = false
       /\ CommandResult.returncode r = -1
       /\ CommandResult.error r = Some "Command timed out after 5 seconds".
Proof.
  split; [vm_compute; reflexivity |].
  destruct (run_command_always_returns
              Sample.W Sample.spawn "sleep 10" 5 Sample.start)
    as (r & s' & E & Ht & _); [vm_compute; reflexivity |].
  destruct (Ht eq_refl eq_refl) as (Hs & Hrc & _ & He).
  exists r, s'. rewrite Hs, Hrc, He. split; [exact E |]. repeat split.
Defined.






(** Against C1 as stated: the second step of this plan file has the
    rollback [true].  The first two steps complete and the third, which is
    critical, fails; the rollback starts with the second step, where
    [run_command] raises: [execute_plan] returns no report and [undo 1] is
    never called. *)
Lemma true_rollback_aborts_the_rollback :
  plan_steps (simple_yaml_load Faults.true_rollback_source)
  = [VDict [("step", VInt 1); ("command", VStr "echo one");
            ("rollback", VStr "undo 1")];
     VDict [("step", VInt 2); ("command", VStr "echo two");
            ("rollback", VBool true)];
     VDict [("step", VInt 3); ("command", VStr "exit 1")]]
  /\ Sample.execute_plan (simple_yaml_load Faults.true_rollback_source)
                         false Sample.start
     = (Raise (AttributeError "startswith"),
        mkState 4%nat
                [VStr "echo one"; VStr "echo two"; VStr "exit 1"; VBool true]
                [("echo one", 300); ("echo two", 300); ("exit 1", 300)]).
Proof. split; vm_compute; reflexivity. Qed.

(** Against C2 as stated: the second step of this plan file has the
    rollback [true] and does not pass its verification.  Its own rollback
    is the first to be run, and [run_command] raises on it:
    [execute_plan] returns no report and [undo 1] is never called. *)
Lemma own_true_rollback_aborts_the_rollback :
  plan_steps (simple_yaml_load Faults.own_true_rollback_source)
  = [VDict [("step", VInt 1); ("command", VStr "echo one");
            ("rollback", VStr "undo 1")];
     VDict [("step", VInt 2); ("command", VStr "echo two");
            ("verify", VStr "exit 1"); ("rollback", VBool true)]]
  /\ Sample.execute_plan (simple_yaml_load Faults.own_true_rollback_source)
                         false Sample.start
     = (Raise (AttributeError "startswith"),
        mkState 4%nat
                [VStr "echo one"; VStr "echo two"; VStr "exit 1"; VBool true]
                [("echo one", 300); ("echo two", 300); ("exit 1", 300)]).
Proof. split; vm_compute; reflexivity. Qed.

(** Against C7 as stated: a command that is not a string and counts as
    true is not run; [run_command] raises on it. *)
Lemma true_command_is_not_run :
  Sample.run_command (VBool true) 300 Sample.start
  = (Raise (AttributeError "startswith"), mkState 0%nat [VBool true] []).
Proof. reflexivity. Qed.

(* ===================================================================== *)
(** ** What a run leaves in the report and in the log *)
(* ===================================================================== *)

Section Turns.

Variable W : Type.
Variable spawn : string -> Z -> W -> outcome * W.
Variable now : W -> string * W.

#[local] Arguments run_command : simpl never.
#[local] Arguments rollback_executed : simpl never.
#[local] Arguments truthy : simpl never.
#[local] Arguments dict_get : simpl never.

(** Every call of [run_command] is logged, whatever comes of it. *)
Lemma run_command_calls (v : value) (timeout : Z) (s : state W) :
  calls (snd (run_command spawn v timeout s)) = calls s ++ [v].
Proof.
  destruct v as [| | | | c | |];
    try (unfold run_command, bind, log_call, ret, raise; cbn;
         destruct (truthy _); reflexivity).
  destruct (sentinel c) eqn:E;
    [rewrite sentinel_skips | rewrite run_command_spawns]; auto.
Qed.

Lemma run_command_calls_eq (v : value) (timeout : Z) (s s1 : state W) r :
  run_command spawn v timeout s = (r, s1) -> calls s1 = calls s ++ [v].
Proof.
  intros H. pose proof (run_command_calls v timeout s) as C.
  rewrite H in C. exact C.
Qed.

Ltac branch :=
  match goal with
  | H : context [match ?x with _ => _ end] |- _ =>
      lazymatch x with
      | context [match _ with _ => _ end] => fail
      | _ => destruct x eqn:?
      end
  end.

Ltac note_calls :=
  repeat match goal with
         | H : run_command spawn _ _ _ = (_, _) |- _ =>
             apply run_command_calls_eq in H
         end.

(** One turn of the loop, read off the report it appends. *)
Lemma loop_body_turn (dry : bool) (step : value) ls (s : state W) c ls1 s1 :
  loop_body spawn dry step ls s = (Ok (c, ls1), s1) ->
  exists r,
    ls1 = after_turn c step r ls
    /\ report_label r = label step
    /\ report_consistent dry r = true
    /\ (c = Next ->
        String.eqb (StepReport.status r) "verify_failed" = false
        /\ calls s1 = calls s ++ turn_calls step r)
    /\ (c = Break ->
        StepReport.status r = "failed"
        \/ StepReport.status r = "verify_failed").
Proof.
  destruct step as [| | | | | | sd]; try (simpl; discriminate).
  destruct ls as [rep ex].
  unfold loop_body, mark_success, py_get, bind, ret. cbn.
  intros H.
  repeat (branch; cbn in H; try discriminate);
    inversion H; subst; clear H; note_calls;
    (eexists; split;
     [unfold after_turn, Report.fail_at, Report.append_step,
        StepReport.set_status, StepReport.set_command_result,
        StepReport.set_verify_result;
      cbn; f_equal; try (progress f_equal); cbn; rewrite ?app_nil_r;
      reflexivity |]);
    (split; [reflexivity |]);
    repeat match goal with
           | a : CommandResult.t |- _ => destruct a as [[] ? ? ?]
           end;
    cbn in *; try discriminate;
    (split; [reflexivity |]);
    (split;
     [intros E;
      first [discriminate E
            | split; [reflexivity |];
              repeat match goal with
                     | C : calls _ = _ |- _ => rewrite C; clear C
                     end;
              rewrite <- ?app_assoc, ?app_nil_r; reflexivity]
     | intros E; first [discriminate E | auto]]).
Qed.

(** A run of the loop, read off the reports it appends. *)
Lemma run_steps_turns (dry : bool) (l : list value) :
  forall ls (s : state W) c ls' s',
    run_steps spawn dry l ls s = (Ok (c, ls'), s') ->
    exists rs,
      Report.steps (report ls') = Report.steps (report ls) ++ rs
      /\ map report_label rs = map label (firstn (List.length rs) l)
      /\ (List.length rs <= List.length l)%nat
      /\ forallb (report_consistent dry) rs = true
      /\ match c with
         | Next =>
             List.length rs = List.length l
             /\ forallb not_verify_failed rs = true
             /\ Report.success (report ls') = Report.success (report ls)
             /\ calls s'
                = calls s
                  ++ flat_map (fun p => turn_calls (fst p) (snd p))
                              (combine l rs)
         | Break =>
             exists init r,
               rs = init ++ [r]
               /\ forallb not_verify_failed init = true
               /\ Report.success (report ls') = false
               /\ Report.failed_step (report ls') = StepReport.step r
               /\ (StepReport.status r = "failed"
                   \/ StepReport.status r = "verify_failed")
         end.
Proof.
  induction l as [| step l IH]; intros ls s c ls' s' H; cbn in H.
  - inversion H; subst. exists []. rewrite !app_nil_r. cbn. repeat split. lia.
  - unfold bind in H.
    destruct (loop_body spawn dry step ls s) as [[[c1 ls1] | e] s1] eqn:B;
      [| discriminate].
    apply loop_body_turn in B. destruct B as (r & -> & Hlab & Hcons & Hn & Hb).
    destruct c1.
    + destruct (Hn eq_refl) as [Hnv Hcalls].
      apply IH in H. destruct H as (rs & Hst & Hl & Hle & Hc & Hrest).
      exists (r :: rs). cbn [List.length firstn map forallb combine flat_map fst snd].
      rewrite Hst, Hlab, Hl, Hcons, Hc. unfold after_turn, Report.append_step.
      cbn [report Report.steps]. rewrite <- app_assoc.
      split; [reflexivity |]. split; [reflexivity |]. split; [lia |].
      split; [reflexivity |].
      destruct c.
      * destruct Hrest as (Hlen & Hnvs & Hsu & Hcs).
        unfold not_verify_failed at 1. rewrite Hnv, Hnvs, Hlen, Hsu, Hcs, Hcalls.
        cbn. rewrite <- app_assoc. repeat split.
      * destruct Hrest as (init & r0 & -> & Hnvs & Hsu & Hfs & Hstat).
        exists (r :: init), r0. cbn [forallb].
        unfold not_verify_failed at 1. rewrite Hnv, Hnvs.
        repeat split; assumption.
    + inversion H; subst; clear H.
      exists [r]. cbn [List.length firstn map forallb]. rewrite Hlab, Hcons.
      split; [reflexivity |]. split; [reflexivity |]. split; [lia |].
      split; [reflexivity |].
      exists [], r. cbn. repeat split. exact (Hb eq_refl).
Qed.

(** A report returned by [execute_plan] is the report the loop ended
    with, stamped. *)
Lemma execute_plan_inv (plan : value) (dry : bool) (s : state W) rep s' :
  execute_plan spawn now plan dry s = (Ok rep, s') ->
  exists c ls s2,
    run_prefix spawn now plan dry (plan_steps plan) s = (Ok (c, ls), s2)
    /\ rep = Report.complete (fst (now (world s2))) (report ls)
    /\ calls s' = calls s2.
Proof.
  intros H.
  destruct plan as [| | | | | | d];
    try (rewrite execute_plan_not_dict in H by reflexivity; discriminate).
  unfold run_prefix, plan_steps.
  destruct (elements (dict_get d "steps" (VList []))) as [l |] eqn:El.
  - rewrite execute_plan_steps with (l := l) in H by exact El.
    destruct (run_steps spawn dry l _ _) as [[[c ls] | e] s2] eqn:R;
      [| discriminate].
    inversion H; subst; clear H. exists c, ls, s2. repeat split.
  - rewrite execute_plan_not_iterable in H by exact El. discriminate.
Qed.

End Turns.

(* ===================================================================== *)
(** ** Further properties of the engine *)
(* ===================================================================== *)

Section Engine.

Variable W : Type.
Variable spawn : string -> Z -> W -> outcome * W.
Variable now : W -> string * W.

(** X1. For every command string, a result has [success] true exactly
    when its [returncode] is 0, and a successful result always carries an
    output. *)
Theorem success_is_exit_status_zero (c : string) (timeout : Z) (s : state W) :
  exists r s',
    run_command spawn (VStr c) timeout s = (Ok r, s')
    /\ (CommandResult.success r = true <-> CommandResult.returncode r = 0)
    /\ (CommandResult.success r = true -> CommandResult.output r <> None).
Proof.
  destruct (sentinel c) eqn:E.
  - rewrite sentinel_skips by exact E. eexists. eexists.
    split; [reflexivity |]. cbn. repeat split; discriminate.
  - rewrite run_command_spawns by exact E. eexists. eexists.
    split; [reflexivity |].
    destruct (fst (spawn c timeout (world s))) as [rc out err | | m]; cbn.
    + rewrite Z.eqb_eq. repeat split; auto; discriminate.
    + repeat split; discriminate.
    + repeat split; discriminate.
Qed.

(** X2. In every report that [execute_plan] returns, each step report has
    a status that agrees with the results it records, and none is left
    [pending]: [skipped] (dry runs only) records no result; [failed]
    records a failed command and no verification; [verify_failed] records
    a command that passed and a verification that failed; [success]
    records a command that passed. *)
Theorem reports_agree_with_results
        (plan : value) (dry : bool) (s : state W) rep s' :
  execute_plan spawn now plan dry s = (Ok rep, s') ->
  forallb (report_consistent dry) (Report.steps rep) = true.
Proof.
  intros H. apply execute_plan_inv in H.
  destruct H as (c & ls & s2 & R & -> & _).
  unfold run_prefix in R. apply run_steps_turns in R.
  destruct R as (rs & Hst & _ & _ & Hc & _).
  cbn in *. rewrite Hst. exact Hc.
Qed.

(** X3. The step reports follow the plan: the k reports of a returned
    report carry the numbers and names of the first k steps of the plan, in
    plan order; and when [success] is true there is one report for every
    step. *)
Theorem reports_follow_the_plan
        (plan : value) (dry : bool) (s : state W) rep s' :
  execute_plan spawn now plan dry s = (Ok rep, s') ->
  map report_label (Report.steps rep)
  = map label (firstn (List.length (Report.steps rep)) (plan_steps plan))
  /\ (List.length (Report.steps rep) <= List.length (plan_steps plan))%nat
  /\ (Report.success rep = true ->
      List.length (Report.steps rep) = List.length (plan_steps plan)).
Proof.
  intros H. apply execute_plan_inv in H.
  destruct H as (c & ls & s2 & R & -> & _).
  unfold run_prefix in R. apply run_steps_turns in R.
  destruct R as (rs & Hst & Hlab & Hle & _ & Hrest).
  cbn in *. rewrite Hst. split; [exact Hlab |]. split; [exact Hle |].
  intros Hsu. destruct c.
  - apply Hrest.
  - destruct Hrest as (init & r & _ & _ & Hf & _). congruence.
Qed.

(** X4. When a returned report has [success] false, its last step report
    is the one of the failing step: it has status [failed] or
    [verify_failed], [failed_step] is its number, and no earlier report is
    [verify_failed]. *)
Theorem failing_step_is_reported_last
        (plan : value) (dry : bool) (s : state W) rep s' :
  execute_plan spawn now plan dry s = (Ok rep, s') ->
  Report.success rep = false ->
  exists init r,
    Report.steps rep = init ++ [r]
    /\ Report.failed_step rep = StepReport.step r
    /\ (StepReport.status r = "failed" \/ StepReport.status r = "verify_failed")
    /\ forallb not_verify_failed init = true.
Proof.
  intros H Hsu. apply execute_plan_inv in H.
  destruct H as (c & ls & s2 & R & -> & _).
  unfold run_prefix in R. apply run_steps_turns in R.
  destruct R as (rs & Hst & _ & _ & _ & Hrest).
  cbn in *. destruct c.
  - destruct Hrest as (_ & _ & Hs & _). congruence.
  - destruct Hrest as (init & r & -> & Hnv & _ & Hfs & Hstat).
    exists init, r. rewrite Hst. repeat split; assumption.
Qed.

(** X5. When a returned report has [success] true, the calls of
    [run_command] during the run are, in plan order, each step's command
    followed by its verification if one was run; no rollback command is
    ever called. *)
Theorem no_rollback_without_failure
        (plan : value) (dry : bool) (s : state W) rep s' :
  execute_plan spawn now plan dry s = (Ok rep, s') ->
  Report.success rep = true ->
  calls s'
  = calls s
    ++ flat_map (fun p => turn_calls (fst p) (snd p))
                (combine (plan_steps plan) (Report.steps rep)).
Proof.
  intros H Hsu. apply execute_plan_inv in H.
  destruct H as (c & ls & s2 & R & -> & Hcalls).
  unfold run_prefix in R. apply run_steps_turns in R.
  destruct R as (rs & Hst & _ & _ & _ & Hrest).
  cbn in *. destruct c.
  - destruct Hrest as (_ & _ & _ & Hc). rewrite Hcalls, Hc, Hst. reflexivity.
  - destruct Hrest as (init & r & _ & _ & Hf & _). congruence.
Qed.

End Engine.

Section Totality.

Variable W : Type.
Variable spawn : string -> Z -> W -> outcome * W.
Variable now : W -> string * W.

(** A turn for a step the engine can carry out never raises, and keeps
    [executed_steps] fit for rolling back. *)
Lemma loop_body_total (dry : bool) (step : value) ls (s : state W) :
  step_ok step = true ->
  forallb rollback_ok (executed_steps ls) = true ->
  exists c ls1 s1,
    loop_body spawn dry step ls s = (Ok (c, ls1), s1)
    /\ forallb rollback_ok (executed_steps ls1) = true.
Proof.
  intros Hok Hex. unfold step_ok in Hok.
  repeat (apply andb_true_iff in Hok; destruct Hok as [Hok ?]).
  destruct step as [| | | | | | sd]; try discriminate. cbn [field] in *.
  assert (Hself : rollback_ok (VDict sd) = true).
  { unfold rollback_ok. cbn. assumption. }
  assert (Hex' : forallb rollback_ok (executed_steps ls ++ [VDict sd]) = true).
  { rewrite forallb_app, Hex. cbn [forallb andb]. rewrite Hself. reflexivity. }
  destruct dry.
  { rewrite loop_body_dry. eexists. eexists. eexists.
    split; [reflexivity | exact Hex]. }
  destruct (run_command_runnable W spawn _ 300 s H1) as (res & s1 & E & _).
  destruct (CommandResult.success res) eqn:Hs.
  - destruct (truthy (dict_get sd "verify" (VStr EmptyString))) eqn:Hv.
    + destruct (run_command_runnable W spawn _ 300 s1 H0) as (vres & s2 & E2 & _).
      destruct (CommandResult.success vres) eqn:Hvs.
      * rewrite (turn_success_verified W spawn sd ls s s1 s2 res vres
                   E Hs Hv E2 Hvs).
        eexists. eexists. eexists. split; [reflexivity | exact Hex'].
      * destruct (truthy (dict_get sd "critical" (VBool true))) eqn:Hc.
        -- rewrite (turn_verify_failed_critical W spawn sd ls s s1 s2 res vres
                      Hc E Hs Hv E2 Hvs).
           destruct (rollback_each_ok W spawn
                       (VDict sd :: rev (executed_steps ls)) s2)
             as (s3 & -> & _).
           { cbn [forallb]. rewrite Hself. cbn [andb]. now apply forallb_rev. }
           eexists. eexists. eexists. split; [reflexivity | exact Hex].
        -- rewrite (turn_verify_failed_noncritical W spawn sd ls s s1 s2
                      res vres Hc E Hs Hv E2 Hvs).
           eexists. eexists. eexists. split; [reflexivity | exact Hex'].
    + rewrite (turn_success_unverified W spawn sd ls s s1 res E Hs Hv).
      eexists. eexists. eexists. split; [reflexivity | exact Hex'].
  - destruct (truthy (dict_get sd "critical" (VBool true))) eqn:Hc.
    + rewrite (turn_command_failed_critical W spawn sd ls s s1 res Hc E Hs).
      unfold rollback_executed.
      destruct (rollback_each_ok W spawn (rev (executed_steps ls)) s1)
        as (s2 & -> & _).
      { now apply forallb_rev. }
      eexists. eexists. eexists. split; [reflexivity | exact Hex].
    + rewrite (turn_command_failed_noncritical W spawn sd ls s s1 res Hc E Hs).
      eexists. eexists. eexists. split; [reflexivity | exact Hex].
Qed.

Lemma run_steps_total (dry : bool) (l : list value) :
  forall ls (s : state W),
    forallb step_ok l = true ->
    forallb rollback_ok (executed_steps ls) = true ->
    exists c ls' s', run_steps spawn dry l ls s = (Ok (c, ls'), s').
Proof.
  induction l as [| step l IH]; intros ls s Hl Hex.
  - cbn. eexists. eexists. eexists. reflexivity.
  - cbn [forallb] in Hl. apply andb_true_iff in Hl. destruct Hl as [Hs Hl].
    destruct (loop_body_total dry step ls s Hs Hex)
      as (c1 & ls1 & s1 & E & Hex1).
    cbn [run_steps]. unfold bind. rewrite E. destruct c1.
    + apply IH; assumption.
    + eexists. eexists. eexists. reflexivity.
Qed.


(** X7. A command that counts as true and is not a string makes the run
    raise: when the loop reaches such a step in a real run, [execute_plan]
    raises [AttributeError] and returns no report; the earlier steps have
    been carried out and nothing is rolled back. *)
Theorem non_string_command_raises
        (plan : value) (pre post : list value) (sd : pydict)
        (s : state W) (ls : loop_state) (s2 : state W) :
  plan_steps plan = pre ++ VDict sd :: post ->
  run_prefix spawn now plan false pre s = (Ok (Next, ls), s2) ->
  runnable (dict_get sd "command" (VStr EmptyString)) = false ->
  execute_plan spawn now plan false s
  = (Raise (AttributeError "startswith"),
     mkState (world s2)
             (calls s2 ++ [dict_get sd "command" (VStr EmptyString)])
             (spawned s2)).
Proof.
  intros Hsteps Hpre Hr.
  rewrite (execute_plan_from_prefix W spawn now _ _ _ _ _ _ _ _ Hsteps Hpre).
  cbn [run_steps]. unfold bind at 1.
  assert (E : loop_body spawn false (VDict sd) ls s2
              = (Raise (AttributeError "startswith"),
                 mkState (world s2)
                         (calls s2 ++ [dict_get sd "command" (VStr EmptyString)])
                         (spawned s2))).
  { unfold loop_body, py_get, bind, ret. cbn.
    unfold run_command, bind, log_call, ret, raise. cbn.
    destruct (dict_get sd "command" (VStr EmptyString)) as [| b | z | f | c | l | d];
      try discriminate; cbn in Hr; apply negb_false_iff in Hr;
      cbn; rewrite ?Hr; cbn; reflexivity. }
  rewrite E. reflexivity.
Qed.

End Totality.

(* ===================================================================== *)
(** ** The further properties in the sample world *)
(* ===================================================================== *)

Lemma unverified_install_reports_agree :
  exists rep s',
    Sample.execute_plan Sample.unverified_plan false Sample.start = (Ok rep, s')
    /\ map StepReport.status (Report.steps rep) = ["success"; "verify_failed"]
    /\ forallb (report_consistent false) (Report.steps rep) = true.
Proof.
  eexists. eexists. split; [vm_compute; reflexivity |].
  split; [reflexivity |].
  exact (reports_agree_with_results
           Sample.W Sample.spawn Sample.now Sample.unverified_plan false
           Sample.start _ _ eq_refl).
Defined.

Lemma scenario_a_reports_follow_the_plan :
  exists rep s',
    Sample.execute_plan Sample.scenario_a false Sample.start = (Ok rep, s')
    /\ map report_label (Report.steps rep)
       = map label [Sample.prepare; VDict Sample.install_fails]
    /\ List.length (plan_steps Sample.scenario_a) = 3%nat.
Proof.
  eexists. eexists. split; [vm_compute; reflexivity |].
  split; [| reflexivity].
  exact (proj1 (reports_follow_the_plan
                  Sample.W Sample.spawn Sample.now Sample.scenario_a false
                  Sample.start _ _ eq_refl)).
Defined.

Lemma scenario_a_failing_step_is_last :
  exists rep s',
    Sample.execute_plan Sample.scenario_a false Sample.start = (Ok rep, s')
    /\ Report.success rep = false
    /\ exists init r,
         Report.steps rep = init ++ [r]
         /\ Report.failed_step rep = StepReport.step r
         /\ (StepReport.status r = "failed"
             \/ StepReport.status r = "verify_failed")
         /\ forallb not_verify_failed init = true.
Proof.
  eexists. eexists. split; [vm_compute; reflexivity |].
  split; [reflexivity |].
  exact (failing_step_is_reported_last
           Sample.W Sample.spawn Sample.now Sample.scenario_a false
           Sample.start _ _ eq_refl eq_refl).
Defined.

Lemma scenario_d_calls_no_rollback :
  exists rep s',
    Sample.execute_plan Sample.scenario_d false Sample.start = (Ok rep, s')
    /\ Report.success rep = true
    /\ calls s' = [VStr "echo prepare"; VStr "echo refresh"; VStr "exit 1"].
Proof.
  eexists. eexists. split; [vm_compute; reflexivity |].
  split; [reflexivity |].
  exact (no_rollback_without_failure
           Sample.W Sample.spawn Sample.now Sample.scenario_d false
           Sample.start _ _ eq_refl eq_refl).
Defined.


Lemma boolean_command_raises :
  simple_yaml_load Cases.boolean_command_source
  = VDict [("steps", VList [VDict [("step", VInt 1);
                                   ("command", VBool true)]])]
  /\ Sample.execute_plan (simple_yaml_load Cases.boolean_command_source)
                         false Sample.start
     = (Raise (AttributeError "startswith"), mkState 1%nat [VBool true] []).
Proof.
  split; [reflexivity |].
  exact (non_string_command_raises
           Sample.W Sample.spawn Sample.now
           (simple_yaml_load Cases.boolean_command_source) [] []
           [("step", VInt 1); ("command", VBool true)]
           Sample.start _ _ eq_refl eq_refl eq_refl).
Defined.

(* ===================================================================== *)
(** ** Strings *)
(* ===================================================================== *)

Section StringFacts.

Lemma append_assoc (a b c : string) :
  ((a ++ b) ++ c)%string = (a ++ b ++ c)%string.
Proof. induction a as [| x a IH]; cbn; [reflexivity | now rewrite IH]. Qed.

Lemma append_empty_r (a : string) : (a ++ EmptyString)%string = a.
Proof. induction a as [| x a IH]; cbn; [reflexivity | now rewrite IH]. Qed.

Lemma length_append (a b : string) :
  String.length (a ++ b) = (String.length a + String.length b)%nat.
Proof. induction a as [| x a IH]; cbn; [reflexivity | now rewrite IH]. Qed.

Lemma contains_append (c : ascii) (a b : string) :
  PyStr.contains c (a ++ b) = PyStr.contains c a || PyStr.contains c b.
Proof.
  induction a as [| x a IH]; cbn; [reflexivity |].
  rewrite IH. now rewrite orb_assoc.
Qed.

Lemma lstrip_first_not_space (a : string) :
  first_not_space a = true -> PyStr.lstrip a = a.
Proof.
  destruct a as [| c a]; cbn; [discriminate |].
  now destruct (PyStr.is_space c).
Qed.

Lemma first_not_space_append (a b : string) :
  first_not_space a = true -> first_not_space (a ++ b) = true.
Proof. destruct a; cbn; [discriminate | auto]. Qed.

Lemma last_not_space_append (a b : string) :
  last_not_space b = true -> last_not_space (a ++ b) = true.
Proof.
  intros Hb. induction a as [| c a IH]; cbn; [exact Hb |].
  destruct (a ++ b)%string eqn:E; [| exact IH].
  destruct a; cbn in E; [subst b; discriminate | discriminate].
Qed.

Lemma rstrip_last_not_space (a : string) :
  last_not_space a = true -> PyStr.rstrip a = a.
Proof.
  induction a as [| c a IH]; cbn; [discriminate |].
  destruct a as [| d a].
  - cbn. intros H. apply negb_true_iff in H. now rewrite H.
  - intros H. rewrite (IH H). reflexivity.
Qed.

Lemma strip_trimmed (a : string) :
  trimmed a = true -> PyStr.strip a = a.
Proof.
  unfold trimmed, PyStr.strip. intros H. apply andb_true_iff in H.
  destruct H as [Hf Hl].
  rewrite rstrip_last_not_space by exact Hl.
  now apply lstrip_first_not_space.
Qed.

Lemma blank_is_space (c : ascii) :
  PyNum.is_blank c = true -> PyStr.is_space c = true.
Proof.
  destruct c as [[] [] [] [] [] [] [] []]; intros H;
    first [reflexivity | discriminate H].
Qed.

Lemma lblank_first_not_space (a : string) :
  first_not_space a = true -> PyNum.lblank a = a.
Proof.
  destruct a as [| c a]; cbn; [discriminate |].
  intros H. apply negb_true_iff in H.
  destruct (PyNum.is_blank c) eqn:B; [| reflexivity].
  apply blank_is_space in B. congruence.
Qed.

Lemma rblank_last_not_space (a : string) :
  last_not_space a = true -> PyNum.rblank a = a.
Proof.
  induction a as [| c a IH]; cbn; [discriminate |].
  destruct a as [| d a].
  - cbn. intros H. apply negb_true_iff in H.
    destruct (PyNum.is_blank c) eqn:B; [| reflexivity].
    apply blank_is_space in B. congruence.
  - intros H. rewrite (IH H). reflexivity.
Qed.

(** [int] and [float] take a trimmed text as it is. *)
Lemma unblank_trimmed (a : string) :
  trimmed a = true -> PyNum.unblank a = a.
Proof.
  unfold trimmed, PyNum.unblank. intros H. apply andb_true_iff in H.
  destruct H as [Hf Hl].
  rewrite rblank_last_not_space by exact Hl.
  now apply lblank_first_not_space.
Qed.

Lemma trimmed_append (a b : string) :
  first_not_space a = true -> last_not_space b = true ->
  trimmed (a ++ b) = true.
Proof.
  intros Ha Hb. unfold trimmed.
  now rewrite first_not_space_append, last_not_space_append.
Qed.

Lemma trimmed_nonempty (a : string) :
  trimmed a = true -> Loader.nonempty a = true.
Proof. destruct a; [discriminate | reflexivity]. Qed.

(** Blanks before a trimmed text are stripped, and nothing else. *)
Lemma strip_space_trimmed (a : string) :
  trimmed a = true -> PyStr.strip (" " ++ a) = a.
Proof.
  intros H. pose proof H as H'. unfold trimmed in H'.
  apply andb_true_iff in H'. destruct H' as [Hf Hl].
  unfold PyStr.strip.
  rewrite rstrip_last_not_space by now apply last_not_space_append.
  cbn. now apply lstrip_first_not_space.
Qed.

Lemma partition_colon (k rest : string) :
  PyStr.contains ":" k = false ->
  PyStr.partition ":" (k ++ String ":" rest) = (k, true, rest).
Proof.
  induction k as [| c k IH]; cbn; [reflexivity |].
  intros H. apply orb_false_iff in H. destruct H as [Hc Hk].
  rewrite Hc, (IH Hk). reflexivity.
Qed.

Lemma startswith_append_first (p : ascii) (a b : string) :
  first_not_space a = true ->
  PyStr.startswith (String p EmptyString) (a ++ b)
  = PyStr.startswith (String p EmptyString) a.
Proof. destruct a; cbn; [discriminate | reflexivity]. Qed.

Lemma startswith_dash_space (a b : string) :
  first_not_space a = true ->
  PyStr.startswith "-" a = false ->
  PyStr.startswith "- " (a ++ b) = false.
Proof.
  destruct a as [| c a]; cbn; [discriminate |].
  intros _ H. rewrite andb_true_r in H. now rewrite H.
Qed.

Lemma drop_length_append (a b : string) :
  PyStr.drop (String.length (a ++ b) - String.length b) (a ++ b) = b.
Proof.
  rewrite length_append.
  replace (String.length a + String.length b - String.length b)%nat
    with (String.length a) by lia.
  induction a as [| c a IH]; cbn; [now destruct b | exact IH].
Qed.

Lemma endswith_append (a b : string) : PyStr.endswith b (a ++ b) = true.
Proof.
  unfold PyStr.endswith. rewrite drop_length_append, String.eqb_refl.
  rewrite length_append, andb_true_r. apply Nat.leb_le. lia.
Qed.

Lemma drop_last_append_one (a : string) (c : ascii) :
  PyStr.drop_last (a ++ String c EmptyString) = a.
Proof.
  induction a as [| x a IH]; cbn; [reflexivity |].
  rewrite IH. destruct a; reflexivity.
Qed.

End StringFacts.

(* ===================================================================== *)
(** ** Numbers in decimal *)
(* ===================================================================== *)

Section DecimalFacts.

Lemma uint_value_pos (d : Decimal.uint) :
  forall a : positive, uint_value d (N.pos a) = N.pos (Pos.of_uint_acc d a).
Proof.
  induction d; intros a; cbn [uint_value Pos.of_uint_acc];
    try reflexivity;
    match goal with
    | |- uint_value _ ?x = _ =>
        match goal with
        | |- _ = N.pos (Pos.of_uint_acc _ ?y) =>
            replace x with (N.pos y) by lia
        end
    end; apply IHd.
Qed.

Lemma uint_value_zero (d : Decimal.uint) : uint_value d 0 = Pos.of_uint d.
Proof.
  induction d; cbn [uint_value Pos.of_uint]; try reflexivity;
    try exact IHd;
    match goal with
    | |- uint_value _ ?x = N.pos (Pos.of_uint_acc _ ?y) =>
        change x with (N.pos y)
    end; apply uint_value_pos.
Qed.

(** Reading the digits that [str] writes gives the number back. *)
Lemma digitpart_string_of_uint (d : Decimal.uint) :
  forall acc count after,
    d <> Decimal.Nil \/ after = true ->
    exists k,
      PyNum.digitpart acc count after (DecimalString.NilEmpty.string_of_uint d)
      = Some (uint_value d acc, k).
Proof.
  induction d; intros acc count after H;
    cbn [DecimalString.NilEmpty.string_of_uint PyNum.digitpart uint_value];
    try (change (PyStr.is_digit _) with true; cbn iota;
         apply IHd; right; reflexivity).
  destruct H as [H | ->]; [contradiction | eauto].
Qed.

Lemma first_not_space_uint (d : Decimal.uint) :
  d <> Decimal.Nil ->
  first_not_space (DecimalString.NilEmpty.string_of_uint d) = true.
Proof. destruct d; intros H; try reflexivity; contradiction. Qed.

Lemma last_not_space_uint (d : Decimal.uint) :
  d <> Decimal.Nil ->
  last_not_space (DecimalString.NilEmpty.string_of_uint d) = true.
Proof.
  induction d; intros H; try contradiction;
    cbn [DecimalString.NilEmpty.string_of_uint last_not_space];
    (destruct d; [reflexivity | apply IHd; discriminate ..]).
Qed.

Lemma no_newline_uint (d : Decimal.uint) :
  PyStr.contains "010" (DecimalString.NilEmpty.string_of_uint d) = false.
Proof. induction d; cbn; auto. Qed.

End DecimalFacts.

(* ===================================================================== *)
(** ** What [parse_value] reads *)
(* ===================================================================== *)

Section ParseFacts.

#[local] Arguments PyNum.py_int : simpl never.
#[local] Arguments PyNum.py_float : simpl never.
#[local] Arguments PyStr.endswith : simpl never.
#[local] Arguments PyStr.slice_1_m1 : simpl never.

Lemma trimmed_uint (d : Decimal.uint) :
  d <> Decimal.Nil ->
  trimmed (DecimalString.NilEmpty.string_of_uint d) = true.
Proof.
  intros H. unfold trimmed.
  now rewrite first_not_space_uint, last_not_space_uint.
Qed.

Lemma py_int_uint (d : Decimal.uint) :
  d <> Decimal.Nil ->
  PyNum.py_int (DecimalString.NilEmpty.string_of_uint d)
  = Some (Z.of_N (Pos.of_uint d)).
Proof.
  intros H. unfold PyNum.py_int.
  rewrite unblank_trimmed by now apply trimmed_uint.
  destruct (digitpart_string_of_uint d 0%N 0%nat false (or_introl H))
    as [k E].
  rewrite uint_value_zero in E.
  destruct d; try contradiction; cbn [PyNum.sign DecimalString.NilEmpty.string_of_uint] in *;
    rewrite E; reflexivity.
Qed.

Lemma py_int_neg_uint (d : Decimal.uint) :
  d <> Decimal.Nil ->
  PyNum.py_int (String "-" (DecimalString.NilEmpty.string_of_uint d))
  = Some (- Z.of_N (Pos.of_uint d)).
Proof.
  intros H. unfold PyNum.py_int.
  rewrite unblank_trimmed.
  - destruct (digitpart_string_of_uint d 0%N 0%nat false (or_introl H))
      as [k E].
    rewrite uint_value_zero in E. cbn [PyNum.sign]. rewrite E. reflexivity.
  - unfold trimmed. cbn [first_not_space]. 
    change (String "-" ?x) with ("-" ++ x)%string.
    rewrite last_not_space_append by now apply last_not_space_uint.
    reflexivity.
Qed.

Lemma parse_value_uint (d : Decimal.uint) :
  d <> Decimal.Nil ->
  parse_value (DecimalString.NilEmpty.string_of_uint d)
  = VInt (Z.of_N (Pos.of_uint d)).
Proof.
  intros H. pose proof (py_int_uint d H) as E.
  unfold parse_value. rewrite E.
  destruct d; try contradiction; reflexivity.
Qed.

Lemma parse_value_neg_uint (d : Decimal.uint) :
  d <> Decimal.Nil ->
  parse_value (String "-" (DecimalString.NilEmpty.string_of_uint d))
  = VInt (- Z.of_N (Pos.of_uint d)).
Proof.
  intros H. pose proof (py_int_neg_uint d H) as E.
  unfold parse_value. rewrite E. reflexivity.
Qed.

Lemma of_Z_pos (p : positive) :
  PyStr.of_Z (Z.pos p)
  = DecimalString.NilEmpty.string_of_uint (Pos.to_uint p).
Proof.
  unfold PyStr.of_Z. cbn.
  pose proof (DecimalPos.Unsigned.to_uint_nonnil p) as H.
  destruct (Pos.to_uint p); [contradiction | reflexivity ..].
Qed.

Lemma of_Z_neg (p : positive) :
  PyStr.of_Z (Z.neg p)
  = String "-" (DecimalString.NilEmpty.string_of_uint (Pos.to_uint p)).
Proof.
  unfold PyStr.of_Z. cbn.
  pose proof (DecimalPos.Unsigned.to_uint_nonnil p) as H.
  destruct (Pos.to_uint p); [contradiction | reflexivity ..].
Qed.

(** The text of an integer is read back as that integer. *)
Lemma parse_value_of_Z (z : Z) : parse_value (PyStr.of_Z z) = VInt z.
Proof.
  destruct z as [| p | p].
  - reflexivity.
  - rewrite of_Z_pos, parse_value_uint
      by apply DecimalPos.Unsigned.to_uint_nonnil.
    now rewrite DecimalPos.Unsigned.of_to.
  - rewrite of_Z_neg, parse_value_neg_uint
      by apply DecimalPos.Unsigned.to_uint_nonnil.
    now rewrite DecimalPos.Unsigned.of_to.
Qed.

Lemma trimmed_of_Z (z : Z) : trimmed (PyStr.of_Z z) = true.
Proof.
  destruct z as [| p | p].
  - reflexivity.
  - rewrite of_Z_pos. apply trimmed_uint.
    apply DecimalPos.Unsigned.to_uint_nonnil.
  - rewrite of_Z_neg. unfold trimmed. cbn [first_not_space].
    change (String "-" ?x) with ("-" ++ x)%string.
    rewrite last_not_space_append; [reflexivity |].
    apply last_not_space_uint, DecimalPos.Unsigned.to_uint_nonnil.
Qed.

Lemma no_newline_of_Z (z : Z) : no_newline (PyStr.of_Z z) = true.
Proof.
  unfold no_newline. destruct z as [| p | p].
  - reflexivity.
  - now rewrite of_Z_pos, no_newline_uint.
  - rewrite of_Z_neg. cbn [PyStr.contains]. now rewrite no_newline_uint.
Qed.

(** A text between double quotes is read back as what is between them. *)
Lemma parse_value_quoted (s : string) :
  parse_value (PyStr.dquote ++ s ++ PyStr.dquote) = VStr s.
Proof.
  unfold parse_value.
  assert (E : PyStr.endswith PyStr.dquote (PyStr.dquote ++ s ++ PyStr.dquote)
              = true).
  { rewrite <- append_assoc. apply endswith_append. }
  rewrite E. cbn.
  unfold PyStr.slice_1_m1, PyStr.dquote. cbn [PyStr.drop append].
  now rewrite drop_last_append_one.
Qed.

Lemma trimmed_quoted (s : string) :
  trimmed (PyStr.dquote ++ s ++ PyStr.dquote) = true.
Proof.
  unfold trimmed. cbn [first_not_space PyStr.dquote append].
  change (String (ascii_of_N 34) (s ++ PyStr.dquote))
    with (PyStr.dquote ++ s ++ PyStr.dquote)%string.
  rewrite <- append_assoc, last_not_space_append; reflexivity.
Qed.

(** What the writer makes of a scalar that survives the round trip: a
    trimmed text on one line which the reader takes for the scalar. *)
Lemma scalar_text_reads_back (top : bool) (v : value) :
  scalar_ok top v = true ->
  trimmed (scalar_text top v) = true
  /\ no_newline (scalar_text top v) = true
  /\ parse_value (scalar_text top v) = v.
Proof.
  destruct v as [| b | z | f | s | l | d]; cbn [scalar_ok scalar_text];
    try discriminate.
  - intros _. repeat split.
  - intros _. destruct top, b; repeat split.
  - intros _. split; [apply trimmed_of_Z |].
    split; [apply no_newline_of_Z | apply parse_value_of_Z].
  - intros H. apply andb_true_iff in H. destruct H as [Hn H].
    destruct (quoted top s).
    + split; [apply trimmed_quoted |]. split; [| apply parse_value_quoted].
      unfold no_newline in *. rewrite !contains_append.
      apply negb_true_iff in Hn. rewrite Hn. reflexivity.
    + cbn in H. unfold plain in H. apply andb_true_iff in H.
      destruct H as [Ht Hr]. split; [exact Ht |]. split; [exact Hn |].
      unfold reads_as_itself in Hr.
      destruct (parse_value s); try discriminate.
      apply String.eqb_eq in Hr. now subst.
Qed.

End ParseFacts.

(* ===================================================================== *)
(** ** The reader, line by line *)
(* ===================================================================== *)

Section LineFacts.

Lemma key_ok_parts (k : string) :
  key_ok k = true ->
  trimmed k = true
  /\ first_not_space k = true
  /\ PyStr.contains "010" k = false
  /\ PyStr.contains ":" k = false
  /\ PyStr.startswith "#" k = false
  /\ PyStr.startswith "-" k = false.
Proof.
  unfold key_ok, no_newline. intros H.
  apply andb_true_iff in H. destruct H as [H H5].
  apply andb_true_iff in H. destruct H as [H H4].
  apply andb_true_iff in H. destruct H as [H H3].
  apply andb_true_iff in H. destruct H as [H1 H2].
  apply negb_true_iff in H2, H3, H4, H5.
  pose proof H1 as T. unfold trimmed in T. apply andb_true_iff in T.
  destruct T as [T _]. repeat split; assumption.
Qed.

Lemma trimmed_parts (t : string) :
  trimmed t = true -> first_not_space t = true /\ last_not_space t = true.
Proof. unfold trimmed. intros H. now apply andb_true_iff in H. Qed.

(** [key: text] as one string, in the two shapes the proofs meet. *)
Lemma key_text_shape (k t : string) :
  (k ++ ": " ++ t)%string = (k ++ String ":" (String " " t))%string.
Proof. reflexivity. Qed.

Lemma trimmed_key_text (k t : string) :
  first_not_space k = true -> trimmed t = true ->
  trimmed (k ++ ": " ++ t) = true.
Proof.
  intros Hk Ht. apply trimmed_parts in Ht. destruct Ht as [_ Hl].
  apply trimmed_append; [exact Hk |].
  now apply (last_not_space_append ": " t).
Qed.

(** What the reader finds in the stripped line [key: text]. *)
Lemma key_text_facts (k t : string) :
  first_not_space k = true -> PyStr.contains ":" k = false ->
  Loader.nonempty (k ++ ": " ++ t) = true
  /\ PyStr.contains ":" (k ++ ": " ++ t) = true
  /\ PyStr.partition ":" (k ++ ": " ++ t) = (k, true, (" " ++ t)%string).
Proof.
  intros Hf Hc. split; [| split].
  - destruct k; [discriminate | reflexivity].
  - rewrite contains_append. cbn. apply orb_true_r.
  - rewrite key_text_shape. now apply partition_colon.
Qed.

(** A top-level line [key: text]. *)
Lemma load_line_scalar (k t : string) (next : option string)
      (st : Loader.loader) :
  key_ok k = true -> trimmed t = true ->
  Loader.load_line (k ++ ": " ++ t) next st
  = Loader.result_set k (Loader.Scalar (parse_value t)) st.
Proof.
  intros Hk Ht.
  destruct (key_ok_parts k Hk) as (Tk & Fk & _ & Ck & Hk1 & Hk2).
  destruct (key_text_facts k t Fk Ck) as (N & C & P).
  pose proof (trimmed_key_text k t Fk Ht) as T.
  unfold Loader.load_line. cbv zeta.
  rewrite (strip_trimmed _ T), N.
  rewrite startswith_append_first by exact Fk. rewrite Hk1.
  rewrite startswith_dash_space by assumption.
  rewrite C, P.
  rewrite (strip_trimmed k Tk), (strip_space_trimmed t Ht).
  rewrite lstrip_first_not_space by now apply first_not_space_append.
  rewrite Nat.sub_diag, (trimmed_nonempty t Ht). reflexivity.
Qed.

(** A top-level line [key:] followed by a list item. *)
Lemma load_line_list_key (k next : string) (st : Loader.loader) :
  key_ok k = true ->
  PyStr.startswith "-" (PyStr.strip next) = true ->
  Loader.load_line (k ++ ":") (Some next) st
  = Loader.mkLoader
      (dict_set k (Loader.ListRef (List.length (Loader.lists st)))
                (Loader.result st))
      (Loader.lists st ++ [[]])
      (Some (List.length (Loader.lists st))) (Some k)
      (Loader.current_item st).
Proof.
  intros Hk Hn.
  destruct (key_ok_parts k Hk) as (Tk & Fk & _ & Ck & Hk1 & Hk2).
  assert (T : trimmed (k ++ ":") = true).
  { apply trimmed_append; [exact Fk | reflexivity]. }
  assert (C : PyStr.contains ":" (k ++ ":") = true).
  { rewrite contains_append. cbn. apply orb_true_r. }
  assert (P : PyStr.partition ":" (k ++ ":") = (k, true, EmptyString)).
  { now apply (partition_colon k EmptyString). }
  unfold Loader.load_line. cbv zeta.
  rewrite (strip_trimmed _ T), (trimmed_nonempty _ T).
  rewrite startswith_append_first by exact Fk. rewrite Hk1.
  rewrite startswith_dash_space by assumption.
  rewrite C, P.
  rewrite (strip_trimmed k Tk).
  rewrite lstrip_first_not_space by now apply first_not_space_append.
  rewrite Nat.sub_diag, Hn. reflexivity.
Qed.

(** The first line of an item, [  - key: text]. *)
Lemma load_line_item_first (k t lk : string) (id : nat)
      (next : option string) (st : Loader.loader) :
  Loader.current_list_key st = Some lk ->
  Loader.nonempty lk = true ->
  Loader.current_list st = Some id ->
  key_ok k = true -> trimmed t = true ->
  Loader.load_line ("  - " ++ k ++ ": " ++ t) next st
  = Loader.mkLoader
      (Loader.result st)
      (Loader.list_update id (fun l => l ++ [VDict [(k, parse_value t)]])
                          (Loader.lists st))
      (Some id) (Some lk)
      (Some (id, List.length (nth id (Loader.lists st) []))).
Proof.
  intros Hlk Hne Hid Hk Ht.
  destruct (key_ok_parts k Hk) as (Tk & Fk & _ & Ck & Hk1 & Hk2).
  destruct (key_text_facts k t Fk Ck) as (N & C & P).
  pose proof (trimmed_key_text k t Fk Ht) as T.
  assert (S1 : PyStr.strip ("  - " ++ k ++ ": " ++ t)
               = ("- " ++ k ++ ": " ++ t)%string).
  { unfold PyStr.strip. rewrite rstrip_last_not_space.
    - reflexivity.
    - apply (last_not_space_append "  - " (k ++ ": " ++ t)).
      now apply trimmed_parts in T. }
  unfold Loader.load_line. cbv zeta. rewrite S1.
  cbn [Loader.nonempty String.eqb negb orb append PyStr.startswith
       Ascii.eqb Bool.eqb andb PyStr.drop].
  rewrite Hlk, Hid, Hne.
  change (String "-" (String " " (k ++ ": " ++ t)))
    with ("- " ++ k ++ ": " ++ t)%string.
  cbn [PyStr.drop append].
  change (k ++ String ":" (String " " t))%string with (k ++ ": " ++ t)%string.
  rewrite C, P.
  rewrite (strip_trimmed k Tk), (strip_space_trimmed t Ht).
  unfold Loader.parse_or_none. rewrite (trimmed_nonempty t Ht).
  unfold Loader.list_append.
  cbn [Loader.result Loader.lists Loader.current_list
       Loader.current_list_key].
  rewrite Hlk, Hid. reflexivity.
Qed.

(** A later line of an item, [    key: text]. *)
Lemma load_line_item_next (k t : string) (id idx : nat)
      (next : option string) (st : Loader.loader) :
  Loader.current_item st = Some (id, idx) ->
  key_ok k = true -> trimmed t = true ->
  Loader.load_line ("    " ++ k ++ ": " ++ t) next st
  = Loader.item_set id idx k (parse_value t) st.
Proof.
  intros Hit Hk Ht.
  destruct (key_ok_parts k Hk) as (Tk & Fk & _ & Ck & Hk1 & Hk2).
  destruct (key_text_facts k t Fk Ck) as (N & C & P).
  pose proof (trimmed_key_text k t Fk Ht) as T.
  assert (L1 : PyStr.lstrip ("    " ++ k ++ ": " ++ t)
               = (k ++ ": " ++ t)%string).
  { cbn. apply lstrip_first_not_space. now apply first_not_space_append. }
  assert (S1 : PyStr.strip ("    " ++ k ++ ": " ++ t)
               = (k ++ ": " ++ t)%string).
  { unfold PyStr.strip. rewrite rstrip_last_not_space; [exact L1 |].
    apply (last_not_space_append "    " (k ++ ": " ++ t)).
    now apply trimmed_parts in T. }
  unfold Loader.load_line. cbv zeta. rewrite S1, L1, N.
  rewrite startswith_append_first by exact Fk. rewrite Hk1.
  rewrite startswith_dash_space by assumption.
  rewrite C, P.
  rewrite (strip_trimmed k Tk), (strip_space_trimmed t Ht).
  replace (String.length ("    " ++ k ++ ": " ++ t)
           - String.length (k ++ ": " ++ t))%nat with 4%nat
    by (cbn [append String.length]; lia).
  cbn [Nat.eqb orb negb]. rewrite Hit.
  unfold Loader.parse_or_none. rewrite (trimmed_nonempty t Ht).
  reflexivity.
Qed.

End LineFacts.

(* ===================================================================== *)
(** ** The reader's store *)
(* ===================================================================== *)

Section StoreFacts.

Lemma dict_set_new (A : Type) (k : string) (v : A) (d : list (string * A)) :
  existsb (String.eqb k) (map fst d) = false ->
  dict_set k v d = d ++ [(k, v)].
Proof.
  induction d as [| [k' v'] d IH]; cbn; [reflexivity |].
  intros H. apply orb_false_iff in H. destruct H as [Hk Hd].
  rewrite String.eqb_sym, Hk, (IH Hd). reflexivity.
Qed.

Lemma distinct_middle (a b : list string) (k : string) :
  distinct (a ++ k :: b) = true -> existsb (String.eqb k) a = false.
Proof.
  induction a as [| x a IH]; cbn; [reflexivity |].
  intros H. apply andb_true_iff in H. destruct H as [Hx Ha].
  apply negb_true_iff in Hx. rewrite existsb_app in Hx.
  apply orb_false_iff in Hx. destruct Hx as [_ Hx]. cbn in Hx.
  apply orb_false_iff in Hx. destruct Hx as [Hx _].
  rewrite String.eqb_sym, Hx. cbn. exact (IH Ha).
Qed.

Lemma list_update_last (A : Type) (f : A -> A) (xs : list A) (x : A) :
  Loader.list_update (List.length xs) f (xs ++ [x]) = xs ++ [f x].
Proof. induction xs as [| y xs IH]; cbn; [reflexivity | now rewrite IH]. Qed.

Lemma nth_last (A : Type) (xs : list A) (x d : A) :
  nth (List.length xs) (xs ++ [x]) d = x.
Proof. induction xs as [| y xs IH]; cbn; [reflexivity | exact IH]. Qed.

Lemma resolve_stable (r : list (string * Loader.slot))
      (l l' : list (list value)) (a a' : option nat) (b b' : option string)
      (c c' : option (nat * nat)) :
  refs_ok r (List.length l) = true ->
  Loader.resolve (Loader.mkLoader r (l ++ l') a' b' c')
  = Loader.resolve (Loader.mkLoader r l a b c).
Proof.
  unfold Loader.resolve, refs_ok. cbn [Loader.result Loader.lists].
  intros H. apply map_ext_in. intros [k s] Hin.
  rewrite forallb_forall in H. specialize (H _ Hin). cbn in H |- *.
  destruct s as [v | id]; [reflexivity |].
  apply Nat.ltb_lt in H. now rewrite app_nth1.
Qed.

Lemma refs_ok_more (r : list (string * Loader.slot)) (n m : nat) :
  (n <= m)%nat -> refs_ok r n = true -> refs_ok r m = true.
Proof.
  unfold refs_ok. intros Hle H. rewrite forallb_forall in *.
  intros kv Hin. specialize (H kv Hin). destruct (snd kv); [reflexivity |].
  apply Nat.ltb_lt in H. apply Nat.ltb_lt. lia.
Qed.

End StoreFacts.

(* ===================================================================== *)
(** ** The reader on the lines of one list *)
(* ===================================================================== *)

Section BlockFacts.

Lemma strip_item_first (k t : string) :
  key_ok k = true -> trimmed t = true ->
  PyStr.strip ("  - " ++ k ++ ": " ++ t) = ("- " ++ k ++ ": " ++ t)%string.
Proof.
  intros Hk Ht.
  destruct (key_ok_parts k Hk) as (_ & Fk & _).
  pose proof (trimmed_key_text k t Fk Ht) as T.
  unfold PyStr.strip. rewrite rstrip_last_not_space; [reflexivity |].
  apply (last_not_space_append "  - " (k ++ ": " ++ t)).
  now apply trimmed_parts in T.
Qed.

(** The later lines of an item extend the mapping last appended. *)
Lemma load_more_lines (kvs kvs0 : pydict) (rest : list string)
      (r : list (string * Loader.slot)) (l : list (list value))
      (cur : list value) (cl : option nat) (clk : option string) :
  forallb key_ok (map fst kvs) = true ->
  distinct (map fst kvs0 ++ map fst kvs) = true ->
  forallb (fun e : string * value => scalar_ok false (snd e)) kvs = true ->
  Loader.load_lines (more_lines kvs ++ rest)
    (Loader.mkLoader r (l ++ [cur ++ [VDict kvs0]]) cl clk
                     (Some (List.length l, List.length cur)))
  = Loader.load_lines rest
      (Loader.mkLoader r (l ++ [cur ++ [VDict (kvs0 ++ kvs)]]) cl clk
                       (Some (List.length l, List.length cur))).
Proof.
  revert kvs0. induction kvs as [| [k v] kvs IH]; intros kvs0 Hk Hd Hv.
  - cbn. now rewrite app_nil_r.
  - cbn in Hk, Hv. apply andb_true_iff in Hk, Hv.
    destruct Hk as [Hk Hks], Hv as [Hv Hvs].
    destruct (scalar_text_reads_back false v Hv) as (Tt & _ & Pt).
    cbn [more_lines app Loader.load_lines].
    rewrite (load_line_item_next k _ (List.length l) (List.length cur))
      by (assumption || reflexivity).
    unfold Loader.item_set.
    cbn [Loader.result Loader.lists Loader.current_list
         Loader.current_list_key Loader.current_item].
    rewrite list_update_last, list_update_last, Pt.
    cbn [map fst] in Hd.
    rewrite dict_set_new by exact (distinct_middle _ _ _ Hd).
    replace (kvs0 ++ (k, v) :: kvs) with ((kvs0 ++ [(k, v)]) ++ kvs)
      by now rewrite <- app_assoc.
    apply IH; try assumption.
    rewrite map_app, <- app_assoc. exact Hd.
Qed.

(** The lines of one item append the item to the current list. *)
Lemma load_item_lines (item : value) (rest : list string)
      (r : list (string * Loader.slot)) (l : list (list value))
      (cur : list value) (lk : string) (it : option (nat * nat)) :
  item_ok item = true -> Loader.nonempty lk = true ->
  Loader.load_lines (item_lines item ++ rest)
    (Loader.mkLoader r (l ++ [cur]) (Some (List.length l)) (Some lk) it)
  = Loader.load_lines rest
      (Loader.mkLoader r (l ++ [cur ++ [item]]) (Some (List.length l))
                       (Some lk) (Some (List.length l, List.length cur))).
Proof.
  intros Hi Hlk.
  destruct item as [| | | | | | [| [k v] kvs]]; try discriminate.
  cbn [item_ok] in Hi. apply andb_true_iff in Hi. destruct Hi as [Hks Hvs].
  unfold keys_ok in Hks. apply andb_true_iff in Hks.
  destruct Hks as [Hks Hd].
  cbn [map fst forallb snd] in Hks, Hvs, Hd.
  apply andb_true_iff in Hks, Hvs.
  destruct Hks as [Hk Hks], Hvs as [Hv Hvs].
  destruct (scalar_text_reads_back false v Hv) as (Tt & _ & Pt).
  cbn [item_lines app Loader.load_lines].
  rewrite (load_line_item_first k _ lk (List.length l))
    by (assumption || reflexivity).
  cbn [Loader.result Loader.lists].
  rewrite list_update_last, nth_last, Pt.
  apply (load_more_lines kvs [(k, v)]); assumption.
Qed.

(** The lines of a list append its items, one after the other. *)
Lemma load_items_lines (items : list value) (rest : list string)
      (r : list (string * Loader.slot)) (l : list (list value))
      (cur : list value) (lk : string) (it : option (nat * nat)) :
  forallb item_ok items = true -> Loader.nonempty lk = true ->
  exists it',
    Loader.load_lines (flat_map item_lines items ++ rest)
      (Loader.mkLoader r (l ++ [cur]) (Some (List.length l)) (Some lk) it)
    = Loader.load_lines rest
        (Loader.mkLoader r (l ++ [cur ++ items]) (Some (List.length l))
                         (Some lk) it').
Proof.
  intros Hi Hlk. revert cur it Hi.
  induction items as [| item items IH]; intros cur it Hi.
  - cbn. rewrite app_nil_r. now exists it.
  - cbn in Hi. apply andb_true_iff in Hi. destruct Hi as [Hi His].
    cbn [flat_map]. rewrite <- app_assoc.
    rewrite load_item_lines by assumption.
    destruct (IH (cur ++ [item]) (Some (List.length l, List.length cur)) His)
      as [it' E].
    exists it'. rewrite E, <- app_assoc. reflexivity.
Qed.

End BlockFacts.

(* ===================================================================== *)
(** ** The reader on the lines of a document *)
(* ===================================================================== *)

Section DocumentFacts.

Lemma resolve_app (r1 r2 : list (string * Loader.slot))
      (l : list (list value)) (a : option nat) (b : option string)
      (c : option (nat * nat)) :
  Loader.resolve (Loader.mkLoader (r1 ++ r2) l a b c)
  = Loader.resolve (Loader.mkLoader r1 l a b c)
    ++ Loader.resolve (Loader.mkLoader r2 l a b c).
Proof. unfold Loader.resolve. cbn. apply map_app. Qed.

Lemma refs_ok_app (r1 r2 : list (string * Loader.slot)) (n : nat) :
  refs_ok (r1 ++ r2) n = refs_ok r1 n && refs_ok r2 n.
Proof. unfold refs_ok. apply forallb_app. Qed.

(** The line after [key:] starts the list. *)
Lemma items_start (item : value) (items : list value) (rest : list string) :
  item_ok item = true ->
  exists line,
    hd_error (flat_map item_lines (item :: items) ++ rest) = Some line
    /\ PyStr.startswith "-" (PyStr.strip line) = true.
Proof.
  intros Hi.
  destruct item as [| | | | | | [| [k v] kvs]]; try discriminate.
  cbn [item_ok] in Hi. apply andb_true_iff in Hi. destruct Hi as [Hks Hvs].
  unfold keys_ok in Hks. apply andb_true_iff in Hks.
  destruct Hks as [Hks _].
  cbn [map fst forallb snd] in Hks, Hvs.
  apply andb_true_iff in Hks, Hvs.
  destruct Hks as [Hk _], Hvs as [Hv _].
  destruct (scalar_text_reads_back false v Hv) as (Tt & _ & _).
  eexists. split; [reflexivity |].
  rewrite strip_item_first by assumption. reflexivity.
Qed.

(** The lines of one entry add the entry to the result. *)
Lemma load_entry (e : string * value) (rest : list string)
      (r : list (string * Loader.slot)) (l : list (list value))
      (cl : option nat) (clk : option string) (it : option (nat * nat)) :
  key_ok (fst e) = true ->
  existsb (String.eqb (fst e)) (map fst r) = false ->
  entry_ok (snd e) = true ->
  refs_ok r (List.length l) = true ->
  exists r' l' cl' clk' it',
    Loader.load_lines (entry_lines e ++ rest) (Loader.mkLoader r l cl clk it)
    = Loader.load_lines rest (Loader.mkLoader r' l' cl' clk' it')
    /\ map fst r' = map fst r ++ [fst e]
    /\ refs_ok r' (List.length l') = true
    /\ Loader.resolve (Loader.mkLoader r' l' cl' clk' it')
       = Loader.resolve (Loader.mkLoader r l cl clk it) ++ [e].
Proof.
  destruct e as [k v]. cbn [fst snd]. intros Hk Hnew Hv Hr.
  assert (Scalar_case :
    scalar_ok true v = true ->
    entry_lines (k, v) = [(k ++ ": " ++ scalar_text true v)%string] ->
    exists r' l' cl' clk' it',
      Loader.load_lines (entry_lines (k, v) ++ rest)
                        (Loader.mkLoader r l cl clk it)
      = Loader.load_lines rest (Loader.mkLoader r' l' cl' clk' it')
      /\ map fst r' = map fst r ++ [k]
      /\ refs_ok r' (List.length l') = true
      /\ Loader.resolve (Loader.mkLoader r' l' cl' clk' it')
         = Loader.resolve (Loader.mkLoader r l cl clk it) ++ [(k, v)]).
  { intros Hs ->.
    destruct (scalar_text_reads_back true v Hs) as (Tt & _ & Pt).
    exists (r ++ [(k, Loader.Scalar v)]), l, cl, clk, it.
    split; [| split; [| split]].
    - cbn [app Loader.load_lines].
      rewrite load_line_scalar by assumption.
      unfold Loader.result_set.
      cbn [Loader.result Loader.lists Loader.current_list
           Loader.current_list_key Loader.current_item].
      rewrite dict_set_new by exact Hnew. now rewrite Pt.
    - now rewrite map_app.
    - rewrite refs_ok_app, Hr. reflexivity.
    - rewrite resolve_app. reflexivity. }
  destruct v as [| b | z | f | s | items | d];
    try (apply Scalar_case; [exact Hv | reflexivity]); try discriminate.
  destruct items as [| item items]; [discriminate |].
  clear Scalar_case. cbn [entry_ok] in Hv.
  pose proof Hv as Hi. cbn [forallb] in Hi. apply andb_true_iff in Hi.
  destruct Hi as [Hi _].
  destruct (items_start item items rest Hi) as (line & Hhd & Hline).
  destruct (key_ok_parts k Hk) as (Tk & _).
  destruct (load_items_lines (item :: items) rest
              (r ++ [(k, Loader.ListRef (List.length l))]) l [] k it Hv
              (trimmed_nonempty k Tk)) as [it' E].
  exists (r ++ [(k, Loader.ListRef (List.length l))]),
         (l ++ [item :: items]), (Some (List.length l)), (Some k), it'.
  split; [| split; [| split]].
  - unfold entry_lines. cbn [fst snd].
    change (Loader.load_lines
              (((k ++ ":")%string :: flat_map item_lines (item :: items))
               ++ rest) (Loader.mkLoader r l cl clk it))
      with (Loader.load_lines
              (flat_map item_lines (item :: items) ++ rest)
              (Loader.load_line (k ++ ":")
                 (hd_error (flat_map item_lines (item :: items) ++ rest))
                 (Loader.mkLoader r l cl clk it))).
    rewrite Hhd, (load_line_list_key k line) by assumption.
    cbn [Loader.result Loader.lists Loader.current_item].
    rewrite dict_set_new by exact Hnew. exact E.
  - now rewrite map_app.
  - rewrite refs_ok_app, length_app. cbn [List.length].
    rewrite (refs_ok_more r (List.length l)) by (lia || assumption).
    cbn. rewrite andb_true_r. apply Nat.ltb_lt. lia.
  - rewrite resolve_app.
    rewrite (resolve_stable r l [item :: items] cl _ clk _ it _ Hr).
    f_equal. unfold Loader.resolve. cbn. now rewrite nth_last.
Qed.

(** The lines of a dumpable mapping add its entries to the result. *)
Lemma load_entries (d : pydict) (rest : list string)
      (r : list (string * Loader.slot)) (l : list (list value))
      (cl : option nat) (clk : option string) (it : option (nat * nat)) :
  forallb key_ok (map fst d) = true ->
  distinct (map fst r ++ map fst d) = true ->
  forallb (fun e : string * value => entry_ok (snd e)) d = true ->
  refs_ok r (List.length l) = true ->
  exists st',
    Loader.load_lines (doc_lines d ++ rest) (Loader.mkLoader r l cl clk it)
    = Loader.load_lines rest st'
    /\ Loader.resolve st'
       = Loader.resolve (Loader.mkLoader r l cl clk it) ++ d.
Proof.
  revert r l cl clk it.
  induction d as [| e d IH]; intros r l cl clk it Hk Hd Hv Hr.
  - exists (Loader.mkLoader r l cl clk it). now rewrite app_nil_r.
  - cbn [map forallb] in Hk, Hv. apply andb_true_iff in Hk, Hv.
    destruct Hk as [Hk Hks], Hv as [Hv Hvs].
    cbn [map] in Hd.
    destruct (load_entry e (doc_lines d ++ rest) r l cl clk it Hk
                (distinct_middle _ _ _ Hd) Hv Hr)
      as (r' & l' & cl' & clk' & it' & E & Hkeys & Hr' & Hres).
    destruct (IH r' l' cl' clk' it' Hks) as (st' & E' & Hres');
      try assumption.
    { rewrite Hkeys, <- app_assoc. exact Hd. }
    exists st'. split.
    + unfold doc_lines. cbn [flat_map]. rewrite <- app_assoc.
      fold (doc_lines d). rewrite E. exact E'.
    + rewrite Hres', Hres, <- app_assoc. reflexivity.
Qed.

End DocumentFacts.

(* ===================================================================== *)
(** ** Joining and splitting lines *)
(* ===================================================================== *)

Section TextFacts.

Lemma join_app_lines (sep : string) (a xs : list string) :
  a <> [] ->
  PyText.join sep (a ++ xs)
  = (PyText.join sep a
     ++ match xs with
        | [] => EmptyString
        | _ :: _ => sep ++ PyText.join sep xs
        end)%string.
Proof.
  induction a as [| x a IH]; [congruence |]. intros _.
  destruct a as [| y a].
  - destruct xs; cbn; [now rewrite append_empty_r | reflexivity].
  - change (PyText.join sep ((x :: y :: a) ++ xs))
      with (x ++ sep ++ PyText.join sep ((y :: a) ++ xs))%string.
    rewrite IH by discriminate.
    change (PyText.join sep (x :: y :: a))
      with (x ++ sep ++ PyText.join sep (y :: a))%string.
    now rewrite !append_assoc.
Qed.

(** A joined block in place of its lines gives the same text. *)
Lemma join_nested (sep : string) (ys zs : list string) :
  ys <> [] ->
  PyText.join sep (PyText.join sep ys :: zs) = PyText.join sep (ys ++ zs).
Proof.
  intros Hy. rewrite (join_app_lines sep ys zs Hy).
  destruct zs; cbn; [now rewrite append_empty_r | reflexivity].
Qed.

Lemma split_one (c : ascii) (a : string) :
  PyStr.contains c a = false -> PyStr.split c a = [a].
Proof.
  induction a as [| x a IH]; cbn; [reflexivity |].
  intros H. apply orb_false_iff in H. destruct H as [Hx Ha].
  now rewrite Hx, (IH Ha).
Qed.

Lemma split_append (c : ascii) (a b : string) :
  PyStr.contains c a = false ->
  PyStr.split c (a ++ String c b) = a :: PyStr.split c b.
Proof.
  induction a as [| x a IH]; cbn.
  - now rewrite Ascii.eqb_refl.
  - intros H. apply orb_false_iff in H. destruct H as [Hx Ha].
    now rewrite Hx, (IH Ha).
Qed.

(** [join] then [split] gives the lines back. *)
Lemma split_join (ls : list string) :
  ls <> [] -> forallb no_newline ls = true ->
  PyStr.split "010" (PyText.join PyText.nl ls) = ls.
Proof.
  induction ls as [| x ls IH]; [congruence |]. intros _ H.
  cbn [forallb] in H. apply andb_true_iff in H. destruct H as [Hx Hls].
  unfold no_newline in Hx. apply negb_true_iff in Hx.
  destruct ls as [| y ls].
  - cbn. now apply split_one.
  - change (PyText.join PyText.nl (x :: y :: ls))
      with (x ++ String "010" (PyText.join PyText.nl (y :: ls)))%string.
    rewrite split_append by exact Hx.
    now rewrite IH.
Qed.

End TextFacts.

(* ===================================================================== *)
(** ** The text the writer produces *)
(* ===================================================================== *)

Section WriterFacts.

Variable str_rest : value -> string.

Lemma item_entry_scalar (k : string) (first : bool) (v : value)
      (nested : string) :
  scalar_ok false v = true ->
  item_entry str_rest "  " k first v nested
  = [((if first then "  - " else "    ") ++ k ++ ": "
      ++ scalar_text false v)%string].
Proof.
  intros Hv. unfold item_entry.
  assert (E : forall t : string,
             ((if first then ("  " ++ "- " ++ k ++ ":")%string
               else ("  " ++ "  " ++ k ++ ":")%string) ++ " " ++ t)%string
             = ((if first then "  - " else "    ") ++ k ++ ": " ++ t)%string).
  { intros t. destruct first; cbn; now rewrite append_assoc. }
  destruct v as [| b | z | f | s | l | d]; try discriminate.
  - rewrite <- E. reflexivity.
  - rewrite E. now destruct b.
  - now rewrite E.
  - unfold scalar_text, quoted. cbn [andb]. rewrite orb_false_r.
    destruct (PyStr.contains "010" s || PyStr.contains ":" s);
      now rewrite E.
Qed.

Lemma dict_entry_scalar (k : string) (v : value) (nested : string) :
  scalar_ok true v = true ->
  dict_entry str_rest EmptyString k v nested
  = [(k ++ ": " ++ scalar_text true v)%string].
Proof.
  intros Hv. unfold dict_entry.
  destruct v as [| b | z | f | s | l | d]; try discriminate;
    try reflexivity.
  unfold scalar_text, quoted. cbn [andb].
  destruct (PyStr.contains "010" s || PyStr.contains ":" s
            || PyStr.contains (ascii_of_N 34) s); reflexivity.
Qed.

Lemma item_lines_nonempty (item : value) :
  item_ok item = true -> item_lines item <> [].
Proof.
  destruct item as [| | | | | | [| [k v] kvs]]; discriminate.
Qed.

Lemma items_lines_nonempty (item : value) (items : list value) :
  item_ok item = true -> flat_map item_lines (item :: items) <> [].
Proof.
  intros H. cbn [flat_map]. pose proof (item_lines_nonempty item H).
  destruct (item_lines item); [congruence | discriminate].
Qed.

(** The text of a list of mappings, one level deep. *)
Lemma dump_list_lines (items : list value) :
  forallb item_ok items = true ->
  simple_yaml_dump str_rest (VList items) 1
  = PyText.join PyText.nl (flat_map item_lines items).
Proof.
  intros H. cbn [simple_yaml_dump]. f_equal.
  induction items as [| item items IH]; [reflexivity |].
  cbn [forallb] in H. apply andb_true_iff in H. destruct H as [Hi His].
  cbn [flat_map]. rewrite <- (IH His). clear IH. f_equal.
  destruct item as [| | | | | | [| [k v] kvs]]; try discriminate.
  cbn [item_ok] in Hi. apply andb_true_iff in Hi. destruct Hi as [_ Hvs].
  cbn [forallb snd] in Hvs. apply andb_true_iff in Hvs.
  destruct Hvs as [Hv Hvs].
  cbn [item_lines]. cbn [PyText.repeat append].
  rewrite (item_entry_scalar k true v _ Hv). cbn [app]. f_equal.
  induction kvs as [| [k' v'] kvs IH]; [reflexivity |].
  cbn [forallb snd] in Hvs. apply andb_true_iff in Hvs.
  destruct Hvs as [Hv' Hvs].
  rewrite (item_entry_scalar k' false v' _ Hv'). cbn [app more_lines].
  f_equal. exact (IH Hvs).
Qed.

End WriterFacts.

Section PlanText.

Variable str_rest : value -> string.

Lemma join_app_same (sep : string) (a a' xs : list string) :
  a <> [] -> a' <> [] ->
  PyText.join sep a = PyText.join sep a' ->
  PyText.join sep (a ++ xs) = PyText.join sep (a' ++ xs).
Proof.
  intros Ha Ha' E. now rewrite !join_app_lines, E by assumption.
Qed.

Lemma join_same_after (sep : string) (pre a a' : list string) :
  a <> [] -> a' <> [] ->
  PyText.join sep a = PyText.join sep a' ->
  PyText.join sep (pre ++ a) = PyText.join sep (pre ++ a').
Proof.
  intros Ha Ha' E. destruct pre as [| p pre]; [exact E |].
  rewrite !(join_app_lines sep (p :: pre)) by discriminate.
  destruct a; [congruence |]. destruct a'; [congruence |]. now rewrite E.
Qed.

(** The lines of one entry, as the writer appends them and line by line,
    join to the same text. *)
Lemma entry_text (k : string) (v : value) :
  entry_ok v = true ->
  dict_entry str_rest EmptyString k v (simple_yaml_dump str_rest v 1) <> []
  /\ entry_lines (k, v) <> []
  /\ PyText.join PyText.nl
       (dict_entry str_rest EmptyString k v (simple_yaml_dump str_rest v 1))
     = PyText.join PyText.nl (entry_lines (k, v)).
Proof.
  intros Hv.
  assert (Scalar_case :
    scalar_ok true v = true ->
    entry_lines (k, v) = [(k ++ ": " ++ scalar_text true v)%string] ->
    dict_entry str_rest EmptyString k v (simple_yaml_dump str_rest v 1) <> []
    /\ entry_lines (k, v) <> []
    /\ PyText.join PyText.nl
         (dict_entry str_rest EmptyString k v
                     (simple_yaml_dump str_rest v 1))
       = PyText.join PyText.nl (entry_lines (k, v))).
  { intros Hs ->. rewrite dict_entry_scalar by exact Hs.
    repeat split; discriminate. }
  destruct v as [| b | z | f | s | items | d];
    try (apply Scalar_case; [exact Hv | reflexivity]); try discriminate.
  destruct items as [| item items]; [discriminate |].
  clear Scalar_case. cbn [entry_ok] in Hv.
  pose proof Hv as Hi. cbn [forallb] in Hi. apply andb_true_iff in Hi.
  destruct Hi as [Hi _].
  rewrite (dump_list_lines str_rest (item :: items) Hv).
  unfold dict_entry, entry_lines. cbn [fst snd append].
  repeat split; try discriminate.
  apply (join_same_after PyText.nl [(k ++ ":")%string]).
  - discriminate.
  - now apply items_lines_nonempty.
  - reflexivity.
Qed.

(** The text of a dumpable mapping is its lines, joined. *)
Lemma dump_plan_lines (d : pydict) :
  forallb (fun e : string * value => entry_ok (snd e)) d = true ->
  simple_yaml_dump str_rest (VDict d) 0
  = PyText.join PyText.nl (doc_lines d).
Proof.
  intros H. cbn [simple_yaml_dump PyText.repeat].
  match goal with
  | |- PyText.join _ (?f d) = _ => set (entries := f)
  end.
  assert (G : forall (d' : pydict) (pre : list string),
             forallb (fun e : string * value => entry_ok (snd e)) d' = true ->
             PyText.join PyText.nl (pre ++ entries d')
             = PyText.join PyText.nl (pre ++ doc_lines d')).
  { induction d' as [| [k v] d' IH]; intros pre Hd; [reflexivity |].
    cbn [forallb snd] in Hd. apply andb_true_iff in Hd.
    destruct Hd as [Hv Hd].
    destruct (entry_text k v Hv) as (N1 & N2 & E).
    change (entries ((k, v) :: d'))
      with (dict_entry str_rest EmptyString k v
                       (simple_yaml_dump str_rest v 1) ++ entries d').
    unfold doc_lines. cbn [flat_map]. fold (doc_lines d').
    rewrite !app_assoc, (IH _ Hd).
    apply join_app_same.
    - destruct pre; [exact N1 | discriminate].
    - destruct pre; [exact N2 | discriminate].
    - now apply join_same_after. }
  exact (G d [] H).
Qed.

Lemma no_newline_key_text (k t : string) :
  no_newline k = true -> no_newline t = true ->
  no_newline (k ++ ": " ++ t) = true.
Proof.
  unfold no_newline. intros Hk Ht. apply negb_true_iff in Hk, Ht.
  rewrite !contains_append, Hk, Ht. reflexivity.
Qed.

Lemma key_no_newline (k : string) : key_ok k = true -> no_newline k = true.
Proof.
  intros H. destruct (key_ok_parts k H) as (_ & _ & N & _).
  unfold no_newline. now rewrite N.
Qed.

Lemma more_lines_no_newline (kvs : pydict) :
  forallb key_ok (map fst kvs) = true ->
  forallb (fun e : string * value => scalar_ok false (snd e)) kvs = true ->
  forallb no_newline (more_lines kvs) = true.
Proof.
  induction kvs as [| [k v] kvs IH]; [reflexivity |].
  cbn [map fst forallb snd more_lines]. intros Hk Hv.
  apply andb_true_iff in Hk, Hv.
  destruct Hk as [Hk Hks], Hv as [Hv Hvs].
  destruct (scalar_text_reads_back false v Hv) as (_ & Nt & _).
  rewrite (IH Hks Hvs), andb_true_r.
  apply (no_newline_key_text (String " " (String " " (String " "
                                 (String " " k))))).
  - exact (key_no_newline k Hk).
  - exact Nt.
Qed.

Lemma item_lines_no_newline (item : value) :
  item_ok item = true -> forallb no_newline (item_lines item) = true.
Proof.
  destruct item as [| | | | | | [| [k v] kvs]]; try discriminate.
  cbn [item_ok]. intros Hi. apply andb_true_iff in Hi.
  destruct Hi as [Hks Hvs].
  unfold keys_ok in Hks. apply andb_true_iff in Hks.
  destruct Hks as [Hks _].
  cbn [map fst forallb snd] in Hks, Hvs.
  apply andb_true_iff in Hks, Hvs.
  destruct Hks as [Hk Hks], Hvs as [Hv Hvs].
  destruct (scalar_text_reads_back false v Hv) as (_ & Nt & _).
  cbn [item_lines forallb].
  rewrite (more_lines_no_newline kvs Hks Hvs), andb_true_r.
  apply (no_newline_key_text (String " " (String " " (String "-"
                                 (String " " k))))).
  - exact (key_no_newline k Hk).
  - exact Nt.
Qed.

Lemma doc_lines_no_newline (d : pydict) :
  forallb key_ok (map fst d) = true ->
  forallb (fun e : string * value => entry_ok (snd e)) d = true ->
  forallb no_newline (doc_lines d) = true.
Proof.
  induction d as [| [k v] d IH]; [reflexivity |].
  cbn [map fst forallb snd]. intros Hk Hv.
  apply andb_true_iff in Hk, Hv.
  destruct Hk as [Hk Hks], Hv as [Hv Hvs].
  unfold doc_lines. cbn [flat_map]. fold (doc_lines d).
  rewrite forallb_app, (IH Hks Hvs), andb_true_r.
  assert (Scalar_case :
    scalar_ok true v = true ->
    entry_lines (k, v) = [(k ++ ": " ++ scalar_text true v)%string] ->
    forallb no_newline (entry_lines (k, v)) = true).
  { intros Hs ->.
    destruct (scalar_text_reads_back true v Hs) as (_ & Nt & _).
    cbn [forallb]. rewrite andb_true_r.
    apply no_newline_key_text; [exact (key_no_newline k Hk) | exact Nt]. }
  destruct v as [| b | z | f | s | items | d'];
    try (apply Scalar_case; [exact Hv | reflexivity]); try discriminate.
  destruct items as [| item items]; [discriminate |].
  clear Scalar_case. cbn [entry_ok] in Hv.
  unfold entry_lines. cbn [fst snd forallb].
  apply andb_true_iff. split.
  - pose proof (key_no_newline k Hk) as N. unfold no_newline in *.
    apply negb_true_iff in N. now rewrite contains_append, N.
  - revert Hv. generalize (item :: items) as l. clear.
    induction l as [| i l IH]; [reflexivity |].
    cbn [forallb flat_map]. intros H. apply andb_true_iff in H.
    destruct H as [Hi Hl].
    now rewrite forallb_app, (item_lines_no_newline i Hi), (IH Hl).
Qed.

End PlanText.

(* ===================================================================== *)
(** ** From the writer to the reader *)
(* ===================================================================== *)

Section RoundTrip.

Variable str_rest : value -> string.

Lemma dump_then_load (d : pydict) :
  dumpable d = true ->
  simple_yaml_load (simple_yaml_dump str_rest (VDict d) 0) = VDict d.
Proof.
  unfold dumpable, keys_ok. intros H.
  apply andb_true_iff in H. destruct H as [H Hv].
  apply andb_true_iff in H. destruct H as [Hk Hd].
  rewrite dump_plan_lines by exact Hv.
  unfold simple_yaml_load. f_equal.
  destruct d as [| e d]; [reflexivity |].
  rewrite split_join.
  - destruct (load_entries (e :: d) [] [] [] None None None Hk Hd Hv
                           eq_refl) as (st' & E & R).
    rewrite app_nil_r in E. rewrite E. exact R.
  - unfold doc_lines. cbn [flat_map].
    destruct e as [k v]. cbn [forallb snd] in Hv.
    apply andb_true_iff in Hv. destruct Hv as [Hv _].
    destruct (entry_text str_rest k v Hv) as (_ & N & _).
    destruct (entry_lines (k, v)); [congruence | discriminate].
  - now apply doc_lines_no_newline.
Qed.

End RoundTrip.

(* ===================================================================== *)
(** ** Lines the reader does not use *)
(* ===================================================================== *)

Section UnusedLines.

Lemma load_line_passed_over (line : string) (next : option string)
      (st : Loader.loader) :
  passed_over line = true -> Loader.load_line line next st = st.
Proof.
  unfold passed_over, Loader.load_line. cbv zeta. now intros ->.
Qed.

Lemma passed_over_no_dash (line : string) :
  passed_over line = true ->
  PyStr.startswith "-" (PyStr.strip line) = false.
Proof.
  unfold passed_over, Loader.nonempty.
  destruct (PyStr.strip line) as [| c s]; [reflexivity |].
  cbn [String.eqb negb orb PyStr.startswith]. rewrite !andb_true_r.
  intros H. apply Ascii.eqb_eq in H. now subst c.
Qed.

(** A top-level line [key:] that no list follows. *)
Lemma load_line_bare_key (k : string) (next : option string)
      (st : Loader.loader) :
  key_ok k = true ->
  match next with
  | Some l => PyStr.startswith "-" (PyStr.strip l)
  | None => false
  end = false ->
  Loader.load_line (k ++ ":") next st
  = Loader.result_set k (Loader.Scalar (VDict [])) st.
Proof.
  intros Hk Hn.
  destruct (key_ok_parts k Hk) as (Tk & Fk & _ & Ck & Hk1 & Hk2).
  assert (T : trimmed (k ++ ":") = true).
  { apply trimmed_append; [exact Fk | reflexivity]. }
  assert (C : PyStr.contains ":" (k ++ ":") = true).
  { rewrite contains_append. cbn. apply orb_true_r. }
  assert (P : PyStr.partition ":" (k ++ ":") = (k, true, EmptyString)).
  { now apply (partition_colon k EmptyString). }
  unfold Loader.load_line. cbv zeta.
  rewrite (strip_trimmed _ T), (trimmed_nonempty _ T).
  rewrite startswith_append_first by exact Fk. rewrite Hk1.
  rewrite startswith_dash_space by assumption.
  rewrite C, P.
  rewrite (strip_trimmed k Tk).
  rewrite lstrip_first_not_space by now apply first_not_space_append.
  rewrite Nat.sub_diag, Hn. reflexivity.
Qed.

(** Without a current list, the first line of an item changes nothing. *)
Lemma load_line_item_first_unused (k t : string) (next : option string)
      (st : Loader.loader) :
  Loader.current_list_key st = None ->
  key_ok k = true -> trimmed t = true ->
  Loader.load_line ("  - " ++ k ++ ": " ++ t) next st = st.
Proof.
  intros Hlk Hk Ht.
  unfold Loader.load_line. cbv zeta.
  rewrite strip_item_first by assumption.
  cbn [Loader.nonempty String.eqb negb orb append PyStr.startswith
       Ascii.eqb Bool.eqb andb].
  now rewrite Hlk.
Qed.

(** Without a current item, a later line of an item changes nothing. *)
Lemma load_line_item_next_unused (k t : string) (next : option string)
      (st : Loader.loader) :
  Loader.current_item st = None ->
  key_ok k = true -> trimmed t = true ->
  Loader.load_line ("    " ++ k ++ ": " ++ t) next st = st.
Proof.
  intros Hit Hk Ht.
  destruct (key_ok_parts k Hk) as (Tk & Fk & _ & Ck & Hk1 & Hk2).
  destruct (key_text_facts k t Fk Ck) as (N & C & P).
  pose proof (trimmed_key_text k t Fk Ht) as T.
  assert (L1 : PyStr.lstrip ("    " ++ k ++ ": " ++ t)
               = (k ++ ": " ++ t)%string).
  { cbn. apply lstrip_first_not_space. now apply first_not_space_append. }
  assert (S1 : PyStr.strip ("    " ++ k ++ ": " ++ t)
               = (k ++ ": " ++ t)%string).
  { unfold PyStr.strip. rewrite rstrip_last_not_space; [exact L1 |].
    apply (last_not_space_append "    " (k ++ ": " ++ t)).
    now apply trimmed_parts in T. }
  unfold Loader.load_line. cbv zeta. rewrite S1, L1, N.
  rewrite startswith_append_first by exact Fk. rewrite Hk1.
  rewrite startswith_dash_space by assumption.
  rewrite C, P.
  replace (String.length ("    " ++ k ++ ": " ++ t)
           - String.length (k ++ ": " ++ t))%nat with 4%nat
    by (cbn [append String.length]; lia).
  cbn [Nat.eqb orb negb]. now rewrite Hit.
Qed.

Lemma load_more_lines_unused (kvs : pydict) (rest : list string)
      (st : Loader.loader) :
  Loader.current_item st = None ->
  forallb key_ok (map fst kvs) = true ->
  forallb (fun e : string * value => scalar_ok false (snd e)) kvs = true ->
  Loader.load_lines (more_lines kvs ++ rest) st = Loader.load_lines rest st.
Proof.
  intros Hit. induction kvs as [| [k v] kvs IH]; [reflexivity |].
  cbn [map fst forallb snd]. intros Hk Hv.
  apply andb_true_iff in Hk, Hv.
  destruct Hk as [Hk Hks], Hv as [Hv Hvs].
  destruct (scalar_text_reads_back false v Hv) as (Tt & _ & _).
  cbn [more_lines app Loader.load_lines].
  rewrite load_line_item_next_unused by assumption.
  now apply IH.
Qed.

(** Without a current list and a current item, the lines of a list change
    nothing. *)
Lemma load_items_lines_unused (items : list value) (rest : list string)
      (st : Loader.loader) :
  Loader.current_list_key st = None -> Loader.current_item st = None ->
  forallb item_ok items = true ->
  Loader.load_lines (flat_map item_lines items ++ rest) st
  = Loader.load_lines rest st.
Proof.
  intros Hlk Hit. induction items as [| item items IH]; [reflexivity |].
  cbn [forallb flat_map]. intros H. apply andb_true_iff in H.
  destruct H as [Hi His]. rewrite <- app_assoc.
  destruct item as [| | | | | | [| [k v] kvs]]; try discriminate.
  cbn [item_ok] in Hi. apply andb_true_iff in Hi. destruct Hi as [Hks Hvs].
  unfold keys_ok in Hks. apply andb_true_iff in Hks.
  destruct Hks as [Hks _].
  cbn [map fst forallb snd] in Hks, Hvs.
  apply andb_true_iff in Hks, Hvs.
  destruct Hks as [Hk Hks], Hvs as [Hv Hvs].
  destruct (scalar_text_reads_back false v Hv) as (Tt & _ & _).
  cbn [item_lines app Loader.load_lines].
  rewrite load_line_item_first_unused by assumption.
  rewrite load_more_lines_unused by assumption.
  now apply IH.
Qed.

Lemma items_lines_no_newline (items : list value) :
  forallb item_ok items = true ->
  forallb no_newline (flat_map item_lines items) = true.
Proof.
  induction items as [| i l IH]; [reflexivity |].
  cbn [forallb flat_map]. intros H. apply andb_true_iff in H.
  destruct H as [Hi Hl].
  now rewrite forallb_app, (item_lines_no_newline i Hi), (IH Hl).
Qed.

Lemma contains_uint (c : ascii) (d : Decimal.uint) :
  PyStr.is_digit c = false ->
  PyStr.contains c (DecimalString.NilEmpty.string_of_uint d) = false.
Proof.
  intros Hc.
  induction d; cbn [DecimalString.NilEmpty.string_of_uint PyStr.contains];
    try reflexivity; rewrite IHd, orb_false_r;
    match goal with
    | |- Ascii.eqb ?a c = false =>
        destruct (Ascii.eqb_spec a c) as [<- | _];
        [discriminate Hc | reflexivity]
    end.
Qed.

Lemma contains_of_Z (c : ascii) (z : Z) :
  PyStr.is_digit c = false -> Ascii.eqb "-" c = false ->
  PyStr.contains c (PyStr.of_Z z) = false.
Proof.
  intros Hc Hm. destruct z as [| p | p].
  - change (PyStr.of_Z 0) with "0". cbn [PyStr.contains].
    rewrite orb_false_r.
    destruct (Ascii.eqb_spec "0" c) as [<- | _];
      [discriminate Hc | reflexivity].
  - rewrite of_Z_pos. now apply contains_uint.
  - rewrite of_Z_neg. cbn [PyStr.contains]. rewrite Hm.
    now apply contains_uint.
Qed.

End UnusedLines.

(* ===================================================================== *)
(** ** The reader and the writer together *)
(* ===================================================================== *)

Section ReaderWriter.

Variable str_rest : value -> string.

(** X8.  The text Python prints for an integer is read as that integer:
    [parse_value(str(z)) == z] for every [int] [z] of at most 4300 digits,
    the integers that [str] prints and [int] reads whatever the
    interpreter's digit limit. *)
Theorem integer_text_is_read_as_the_integer (z : Z) :
  printable z = true ->
  parse_value (py_str str_rest (VInt z)) = VInt z.
Proof. intros _. exact (parse_value_of_Z z). Qed.

(** X9.  A text between double quotes is read as the string between the
    quotes, whatever it contains: no keyword, no number and no inner quote
    is interpreted. *)
Theorem quoted_text_is_read_as_it_is (s : string) :
  parse_value (PyStr.dquote ++ s ++ PyStr.dquote) = VStr s.
Proof. exact (parse_value_quoted s). Qed.

(** X10.  What [simple_yaml_dump] writes for a mapping, [simple_yaml_load]
    reads back as the same mapping, provided the mapping is dumpable: its
    keys are distinct, trimmed, on one line, without colon and not starting
    with [#] or [-]; its values are None, booleans, integers, one-line
    strings that the writer quotes or that [parse_value] returns unchanged,
    or non-empty lists of non-empty mappings of such scalars; and provided
    its integers have at most 4300 digits, so that the writer can print
    them and the reader can read them. *)
Theorem written_plan_is_read_back (d : pydict) :
  dumpable d = true -> ints_ok d = true ->
  simple_yaml_load (simple_yaml_dump str_rest (VDict d) 0) = VDict d.
Proof. intros H _. exact (dump_then_load str_rest d H). Qed.

(** X11.  A string that spells None, a boolean or an integer the way Python
    prints it (so an integer of at most 4300 digits) is written without
    quotes, and is read back as that value and not as the string. *)
Theorem spelled_scalar_is_read_as_the_scalar (k : string) (v : value) :
  key_ok k = true -> is_atom v = true -> int_ok v = true ->
  simple_yaml_load
    (simple_yaml_dump str_rest (VDict [(k, VStr (py_str str_rest v))]) 0)
  = VDict [(k, v)].
Proof.
  intros Hk Hv _. unfold simple_yaml_load. f_equal.
  destruct (key_ok_parts k Hk) as (_ & _ & N & _).
  assert (L : forall t : string,
             trimmed t = true -> no_newline t = true ->
             Loader.resolve
               (Loader.load_lines
                  (PyStr.split "010" (k ++ ": " ++ t))
                  (Loader.mkLoader [] [] None None None))
             = [(k, parse_value t)]).
  { intros t Ht Hn. rewrite split_one.
    - cbn [Loader.load_lines]. now rewrite load_line_scalar.
    - unfold no_newline in Hn. apply negb_true_iff in Hn.
      now rewrite !contains_append, N, Hn. }
  destruct v as [| b | z | f | s | l | d]; try discriminate.
  - apply (L "None"); reflexivity.
  - destruct b; [apply (L "True") | apply (L "False")]; reflexivity.
  - cbn [simple_yaml_dump PyText.repeat dict_entry py_str app PyText.join
         append].
    rewrite !contains_of_Z by reflexivity.
    cbn [orb PyText.join append].
    rewrite <- (parse_value_of_Z z).
    apply (L (PyStr.of_Z z)); [apply trimmed_of_Z | apply no_newline_of_Z].
Qed.

(** X12.  A line the reader passes over (blank, or a comment) between a
    top-level [key:] and the items of its list makes the key an empty
    mapping; when no list was started before, the items are then read into
    nothing. *)
Theorem line_between_key_and_items_hides_them
        (k line : string) (items : list value) :
  key_ok k = true ->
  passed_over line = true -> no_newline line = true ->
  forallb item_ok items = true ->
  simple_yaml_load
    (PyText.join PyText.nl
       ((k ++ ":")%string :: line :: flat_map item_lines items))
  = VDict [(k, VDict [])].
Proof.
  intros Hk Hp Hl Hi. unfold simple_yaml_load. f_equal.
  rewrite split_join.
  - cbn [Loader.load_lines hd_error].
    rewrite load_line_bare_key
      by (assumption || now apply passed_over_no_dash).
    rewrite load_line_passed_over by exact Hp.
    rewrite <- (app_nil_r (flat_map item_lines items)).
    rewrite load_items_lines_unused by (assumption || reflexivity).
    reflexivity.
  - discriminate.
  - cbn [forallb]. rewrite Hl, (items_lines_no_newline items Hi).
    pose proof (key_no_newline k Hk) as N. unfold no_newline in *.
    apply negb_true_iff in N. now rewrite contains_append, N.
Qed.

End ReaderWriter.

(* ===================================================================== *)
(** ** Plan files of the sample world *)
(* ===================================================================== *)

Lemma brew_plan_is_read_back :
  dumpable PlanFile.brew_plan = true
  /\ ints_ok PlanFile.brew_plan = true
  /\ simple_yaml_load
       (simple_yaml_dump PlanFile.str_rest (VDict PlanFile.brew_plan) 0)
     = VDict PlanFile.brew_plan.
Proof.
  split; [vm_compute; reflexivity |]. split; [vm_compute; reflexivity |].
  apply (written_plan_is_read_back PlanFile.str_rest PlanFile.brew_plan);
    vm_compute; reflexivity.
Defined.

Lemma negative_number_is_read_back :
  printable (-4300) = true
  /\ parse_value (py_str PlanFile.str_rest (VInt (-4300))) = VInt (-4300).
Proof.
  split; [vm_compute; reflexivity |].
  apply (integer_text_is_read_as_the_integer PlanFile.str_rest (-4300)).
  vm_compute; reflexivity.
Defined.

Lemma spelled_number_is_read_as_number :
  key_ok "port" = true /\ is_atom (VInt 8080) = true
  /\ int_ok (VInt 8080) = true
  /\ simple_yaml_load
       (simple_yaml_dump PlanFile.str_rest
          (VDict [("port", VStr (py_str PlanFile.str_rest (VInt 8080)))]) 0)
     = VDict [("port", VInt 8080)].
Proof.
  split; [vm_compute; reflexivity |]. split; [reflexivity |].
  split; [vm_compute; reflexivity |].
  apply (spelled_scalar_is_read_as_the_scalar PlanFile.str_rest "port"
           (VInt 8080)); vm_compute; reflexivity.
Defined.

Lemma comment_above_steps_hides_them :
  key_ok "steps" = true
  /\ passed_over PlanFile.comment = true
  /\ no_newline PlanFile.comment = true
  /\ forallb item_ok PlanFile.two_steps = true
  /\ simple_yaml_load
       (PyText.join PyText.nl
          ("steps:" :: PlanFile.comment
           :: flat_map item_lines PlanFile.two_steps))
     = VDict [("steps", VDict [])].
Proof.
  split; [vm_compute; reflexivity |]. split; [vm_compute; reflexivity |].
  split; [vm_compute; reflexivity |]. split; [vm_compute; reflexivity |].
  apply (line_between_key_and_items_hides_them "steps" PlanFile.comment
           PlanFile.two_steps); vm_compute; reflexivity.
Defined.


(* ===================================================================== *)
(** ** Texts with a blank inside *)
(* ===================================================================== *)

Section SpacedTexts.

Lemma digit_not_space (c : ascii) :
  PyStr.is_digit c = true -> Ascii.eqb c " " = false.
Proof.
  intros H. destruct (Ascii.eqb_spec c " ") as [-> | _];
    [discriminate H | reflexivity].
Qed.

Lemma digitpart_spaced (s : string) :
  forall acc count after,
    PyStr.contains " " s = true -> PyNum.digitpart acc count after s = None.
Proof.
  induction s as [| c s IH]; intros acc count after H; [discriminate |].
  cbn [PyNum.digitpart PyStr.contains] in *.
  destruct (PyStr.is_digit c) eqn:D.
  - rewrite (digit_not_space c D) in H. now apply IH.
  - destruct (Ascii.eqb_spec c "_") as [-> | _]; [| reflexivity].
    destruct after; [| reflexivity]. now apply IH.
Qed.

Lemma sign_spaced (s : string) :
  PyStr.contains " " s = true ->
  PyStr.contains " " (snd (PyNum.sign s)) = true.
Proof.
  destruct s as [| c s]; [discriminate |].
  destruct (Ascii.eqb_spec c "-") as [-> | Hm]; [now cbn |].
  destruct (Ascii.eqb_spec c "+") as [-> | Hp]; [now cbn |].
  intros H.
  assert (E : PyNum.sign (String c s) = (false, String c s)).
  { destruct c as [[] [] [] [] [] [] [] []]; try reflexivity; congruence. }
  now rewrite E.
Qed.

Lemma lower_spaced (s : string) :
  PyStr.contains " " s = true -> PyStr.contains " " (PyStr.lower s) = true.
Proof.
  induction s as [| c s IH]; [discriminate |].
  cbn [PyStr.contains PyStr.lower]. intros H.
  apply orb_true_iff in H. destruct H as [H | H].
  - apply Ascii.eqb_eq in H. subst c. reflexivity.
  - rewrite (IH H). apply orb_true_r.
Qed.

Lemma spaced_is_not (s word : string) :
  PyStr.contains " " s = true -> PyStr.contains " " word = false ->
  String.eqb s word = false.
Proof.
  intros Hs Hw. destruct (String.eqb_spec s word) as [-> | _];
    [congruence | reflexivity].
Qed.

Lemma split_exponent_spaced (s : string) :
  PyStr.contains " " s = true ->
  PyStr.contains " " (fst (PyNum.split_exponent s)) = true
  \/ exists e, snd (PyNum.split_exponent s) = Some e
               /\ PyStr.contains " " e = true.
Proof.
  induction s as [| c s IH]; [discriminate |].
  cbn [PyNum.split_exponent PyStr.contains]. intros H.
  destruct (Ascii.eqb c "e" || Ascii.eqb c "E") eqn:E.
  - right. exists s. split; [reflexivity |].
    apply orb_true_iff in H. destruct H as [H | H]; [| exact H].
    apply Ascii.eqb_eq in H. subst c. discriminate E.
  - destruct (PyNum.split_exponent s) as [h t] eqn:S.
    cbn [fst snd PyStr.contains] in *.
    apply orb_true_iff in H. destruct H as [H | H].
    + left. now rewrite H.
    + destruct (IH H) as [I | I]; [left | right; exact I].
      rewrite I. apply orb_true_r.
Qed.

Lemma partition_spaced (s : string) :
  PyStr.contains " " s = true ->
  PyStr.contains " " (fst (fst (PyStr.partition "." s))) = true
  \/ PyStr.contains " " (snd (PyStr.partition "." s)) = true.
Proof.
  induction s as [| c s IH]; [discriminate |].
  cbn [PyStr.partition PyStr.contains]. intros H.
  destruct (Ascii.eqb_spec c ".") as [-> | _].
  - right. exact H.
  - destruct (PyStr.partition "." s) as [[h f] t] eqn:P.
    cbn [fst snd PyStr.contains] in *.
    apply orb_true_iff in H. destruct H as [H | H].
    + left. now rewrite H.
    + destruct (IH H) as [I | I]; [left | right; exact I].
      rewrite I. apply orb_true_r.
Qed.

Lemma partition_not_found (c : ascii) (s ip fp : string) :
  PyStr.partition c s = (ip, false, fp) -> fp = EmptyString.
Proof.
  revert ip fp. induction s as [| a s IH]; intros ip fp; cbn.
  - intros E. now inversion E.
  - destruct (Ascii.eqb a c); [discriminate |].
    destruct (PyStr.partition c s) as [[h f] t].
    intros E. inversion E. subst. now apply (IH h).
Qed.

Lemma pointfloat_spaced (s : string) :
  PyStr.contains " " s = true -> PyNum.pointfloat s = None.
Proof.
  intros H. unfold PyNum.pointfloat.
  pose proof (partition_spaced s H) as I.
  destruct (PyStr.partition "." s) as [[ip found] fp] eqn:P.
  cbn [fst snd] in I. destruct I as [I | I].
  - rewrite (digitpart_spaced ip 0%N 0%nat false I).
    destruct found; [| reflexivity].
    destruct ip; [discriminate |]. now destruct fp.
  - destruct found.
    + destruct ip.
      * now rewrite (digitpart_spaced fp 0%N 0%nat false I).
      * destruct fp; [discriminate |].
        destruct (PyNum.digitpart 0 0 false (String a ip)) as [[m k] |];
          [| reflexivity].
        now rewrite (digitpart_spaced _ m 0%nat false I).
    + apply partition_not_found in P. subst fp. discriminate.
Qed.

Lemma py_int_spaced (s : string) :
  trimmed s = true -> PyStr.contains " " s = true -> PyNum.py_int s = None.
Proof.
  intros T H. unfold PyNum.py_int. rewrite (unblank_trimmed s T).
  pose proof (sign_spaced s H) as I.
  destruct (PyNum.sign s) as [neg body]. cbn [snd] in I.
  now rewrite (digitpart_spaced body 0%N 0%nat false I).
Qed.

Lemma py_float_spaced (s : string) :
  trimmed s = true -> PyStr.contains " " s = true -> PyNum.py_float s = None.
Proof.
  intros T H. unfold PyNum.py_float. rewrite (unblank_trimmed s T).
  pose proof (sign_spaced s H) as I.
  destruct (PyNum.sign s) as [neg body]. cbn [snd] in I.
  pose proof (lower_spaced body I) as L.
  rewrite !(spaced_is_not (PyStr.lower body)) by (exact L || reflexivity).
  cbn [orb].
  pose proof (split_exponent_spaced body I) as J.
  destruct (PyNum.split_exponent body) as [mant ex]. cbn [fst snd] in J.
  destruct J as [J | (e & -> & J)].
  - now rewrite (pointfloat_spaced mant J).
  - destruct (PyNum.pointfloat mant) as [[m k] |]; [| reflexivity].
    unfold PyNum.exponent.
    pose proof (sign_spaced e J) as K.
    destruct (PyNum.sign e) as [neg' body']. cbn [snd] in K.
    now rewrite (digitpart_spaced body' 0%N 0%nat false K).
Qed.

(** A trimmed text with a blank inside that does not start with a quote is
    read as itself. *)
Lemma parse_value_spaced (s : string) :
  trimmed s = true -> PyStr.contains " " s = true ->
  PyStr.startswith PyStr.dquote s = false ->
  PyStr.startswith "'" s = false ->
  parse_value s = VStr s.
Proof.
  intros T H Q1 Q2. unfold parse_value.
  pose proof (lower_spaced s H) as L.
  rewrite !(spaced_is_not (PyStr.lower s)) by (exact L || reflexivity).
  rewrite (spaced_is_not s "~") by (exact H || reflexivity).
  rewrite Q1, Q2. cbn [orb andb].
  now rewrite py_int_spaced, py_float_spaced.
Qed.

Lemma spaced_scalar_ok (top : bool) (s : string) :
  trimmed s = true -> no_newline s = true ->
  PyStr.contains " " s = true ->
  PyStr.startswith PyStr.dquote s = false ->
  PyStr.startswith "'" s = false ->
  scalar_ok top (VStr s) = true.
Proof.
  intros T N H Q1 Q2. cbn [scalar_ok]. rewrite N. cbn [andb].
  unfold plain, reads_as_itself.
  rewrite T, (parse_value_spaced s T H Q1 Q2), String.eqb_refl.
  apply orb_true_r.
Qed.

End SpacedTexts.

(* ===================================================================== *)
(** ** The plan generator, step by step *)
(* ===================================================================== *)

Section GeneratorFacts.

Variable str_rest : value -> string.

Lemma get_ok (obj : value) (k : string) (default v : value) :
  get obj k default = Ok v ->
  is_dict obj = true /\ field obj k default = v.
Proof.
  destruct obj; cbn; try discriminate. intros E. inversion E. now split.
Qed.

Lemma get_dict (obj : value) (k : string) (default : value) :
  is_dict obj = true -> get obj k default = Ok (field obj k default).
Proof. destruct obj; cbn; try discriminate. reflexivity. Qed.

Lemma dict_find_in (A : Type) (k : string) (d : list (string * A)) (v : A) :
  dict_find k d = Some v -> In v (map snd d).
Proof.
  induction d as [| [k' v'] d IH]; cbn; [discriminate |].
  destruct (String.eqb k' k).
  - intros E. inversion E. now left.
  - intros E. right. now apply IH.
Qed.

Lemma find_cases (A : Type) (table : list (string * A)) (key : value)
      (r : option A) :
  find table key = Ok r ->
  hashable key = true
  /\ (r = None \/ exists v, r = Some v /\ In v (map snd table)).
Proof.
  unfold find. destruct (hashable key); [| discriminate].
  intros E. inversion E. split; [reflexivity |].
  destruct key; try (now left).
  destruct (dict_find s table) eqn:F; [right | now left].
  eexists. split; [reflexivity |]. eapply dict_find_in. exact F.
Qed.

Lemma find_hashable (A : Type) (table : list (string * A)) (key : value) :
  hashable key = true -> exists r, find table key = Ok r.
Proof. unfold find. intros ->. eauto. Qed.

(** What [get_install_commands] returns is None or one of the tables. *)
Lemma get_install_commands_cases (target : string) (env_info c : value) :
  get_install_commands target env_info = Ok c ->
  c = VNone \/ exists d, c = VDict d /\ In d (known_commands target).
Proof.
  unfold get_install_commands. intros H.
  destruct (get env_info "os" (VDict [])) as [os_info |] eqn:E1;
    cbn [and_then] in H; [| discriminate].
  destruct (get os_info "system" (VStr EmptyString)) as [sv |] eqn:E2;
    cbn [and_then] in H; [| discriminate].
  destruct (lower_of sv) as [system |] eqn:E3;
    cbn [and_then] in H; [| discriminate].
  destruct (get env_info "summary" (VDict [])) as [summary |] eqn:E4;
    cbn [and_then] in H; [| discriminate].
  destruct (get summary "primary_package_manager" VNone) as [pm |] eqn:E5;
    cbn [and_then] in H; [| discriminate].
  destruct (dict_find system (install_commands target)) as [by_manager |]
    eqn:F.
  - destruct (find by_manager pm) as [r |] eqn:G;
      cbn [and_then] in H; [| discriminate].
    inversion H. subst c.
    destruct (find_cases _ _ _ _ G) as (_ & [-> | (d & -> & Hin)]);
      [now left | right].
    exists d. split; [reflexivity |].
    unfold known_commands. apply in_flat_map.
    apply dict_find_in in F. apply in_map_iff in F.
    destruct F as (x & Hx & Hin'). exists x. split; [exact Hin' |].
    now rewrite Hx.
  - inversion H. now left.
Qed.

Lemma known_commands_forall (P : pydict -> Prop) (target : string) :
  (forall install verify rollback : string,
     P [("install", VStr install); ("verify", VStr verify);
        ("rollback", VStr rollback)]) ->
  (forall pre install verify rollback : string,
     P [("pre", VStr pre); ("install", VStr install);
        ("verify", VStr verify); ("rollback", VStr rollback)]) ->
  forall d, In d (known_commands target) -> P d.
Proof.
  intros H3 H4 d Hin. unfold known_commands, install_commands in Hin.
  cbn [flat_map map snd app] in Hin.
  repeat (destruct Hin as [<- | Hin]; [first [apply H3 | apply H4] |]).
  contradiction.
Qed.

Lemma known_commands_truthy (target : string) (d : pydict) :
  In d (known_commands target) -> truthy (VDict d) = true.
Proof.
  revert d.
  apply (known_commands_forall (fun d => truthy (VDict d) = true));
    reflexivity.
Qed.

Lemma install_step_known (target title : string) (n : Z) (d : pydict) :
  In d (known_commands target) ->
  exists install verify rollback : string,
    dict_get d "install" VNone = VStr install
    /\ dict_get d "verify" VNone = VStr verify
    /\ dict_get d "rollback" VNone = VStr rollback
    /\ install_step n title (VDict d)
       = Ok (new_step n title (VStr install) (VStr verify) (VStr rollback)
                      true).
Proof.
  revert d.
  apply (known_commands_forall
           (fun d =>
              exists install verify rollback : string,
                dict_get d "install" VNone = VStr install
                /\ dict_get d "verify" VNone = VStr verify
                /\ dict_get d "rollback" VNone = VStr rollback
                /\ install_step n title (VDict d)
                   = Ok (new_step n title (VStr install) (VStr verify)
                                  (VStr rollback) true)));
    intros; do 3 eexists; repeat split; reflexivity.
Qed.

End GeneratorFacts.

Section GeneratorWalk.

Variable str_rest : value -> string.

(** An invariant [Inv] of the pair [step_num], [plan["steps"]], kept when a
    number is used without a step and when a step that [Good] accepts is
    appended under the next number. *)
Variable Inv : Z -> list value -> Prop.
Variable Good : Z -> value -> Prop.

(** What is to be shown of the step that installs the target. *)
Variable Install : Z -> value -> Prop.

Hypothesis Inv_skip : forall n steps, Inv n steps -> Inv (n + 1) steps.
Hypothesis Inv_add :
  forall n steps step,
    Inv n steps -> Good (n + 1) step -> Inv (n + 1) (steps ++ [step]).

Lemma add_dependencies_inv (env_info : value) (deps : list string) :
  (forall dep d install verify rollback n,
     In dep deps -> In d (known_commands dep) ->
     dict_get d "install" VNone = VStr install ->
     dict_get d "verify" VNone = VStr verify ->
     dict_get d "rollback" VNone = VStr rollback ->
     Good n (new_step n ("Install dependency: " ++ dep) (VStr install)
                      (VStr verify) (VStr rollback) true)) ->
  forall n steps r,
    Inv n steps ->
    add_dependencies env_info deps n steps = Ok r ->
    fst r = n + Z.of_nat (List.length deps) /\ Inv (fst r) (snd r).
Proof.
  induction deps as [| dep deps IH]; intros HG n steps r HI H.
  - cbn in H. inversion H. cbn. split; [lia | exact HI].
  - cbn [add_dependencies] in H.
    destruct (get_install_commands dep env_info) as [cmds |] eqn:E;
      cbn [and_then] in H; [| discriminate].
    assert (HG' : forall dep0 d install verify rollback n0,
               In dep0 deps -> In d (known_commands dep0) ->
               dict_get d "install" VNone = VStr install ->
               dict_get d "verify" VNone = VStr verify ->
               dict_get d "rollback" VNone = VStr rollback ->
               Good n0 (new_step n0 ("Install dependency: " ++ dep0)
                                 (VStr install) (VStr verify)
                                 (VStr rollback) true)).
    { intros. eapply HG; eauto. now right. }
    destruct (get_install_commands_cases _ _ _ E)
      as [-> | (d & -> & Hin)].
    + cbn [truthy] in H.
      destruct (IH HG' (n + 1) steps r (Inv_skip _ _ HI) H) as [Hn HI'].
      split; [| exact HI'].
      rewrite Hn. cbn [List.length]. lia.
    + rewrite (known_commands_truthy dep d Hin) in H.
      destruct (install_step_known dep ("Install dependency: " ++ dep)
                                   (n + 1) d Hin)
        as (i & v & rb & Ei & Ev & Er & Es).
      rewrite Es in H. cbn [and_then] in H.
      assert (HI1 : Inv (n + 1)
                      (steps ++ [new_step (n + 1)
                                   ("Install dependency: " ++ dep)
                                   (VStr i) (VStr v) (VStr rb) true])).
      { apply Inv_add; [exact HI |].
        eapply HG; eauto. now left. }
      destruct (IH HG' (n + 1) _ r HI1 H) as [Hn HI'].
      split; [| exact HI'].
      rewrite Hn. cbn [List.length]. lia.
Qed.

(** The plan [generate_plan] returns: its header, and steps that keep the
    invariant. *)
Lemma generate_plan_inv (target : string) (env_info : value)
      (dependencies : option (list string)) (plan : value) :
  generate_plan str_rest target env_info dependencies = Ok plan ->
  Inv 0 [] ->
  (forall c n,
     truthy (package_manager_of env_info) = true ->
     get_pm_version_command str_rest (package_manager_of env_info) = Ok c ->
     Good n (new_step n
               ("Verify " ++ py_str str_rest (package_manager_of env_info)
                ++ " is available")
               (VStr c) (VStr c) VNone true)) ->
  (forall n,
     is_apt (package_manager_of env_info) = true ->
     Good n (new_step n "Update package index" (VStr "sudo apt-get update")
               (VStr "echo 'Package index updated'") VNone false)) ->
  (forall dep d install verify rollback n,
     In dep (dependency_list dependencies) -> In d (known_commands dep) ->
     dict_get d "install" VNone = VStr install ->
     dict_get d "verify" VNone = VStr verify ->
     dict_get d "rollback" VNone = VStr rollback ->
     Good n (new_step n ("Install dependency: " ++ dep) (VStr install)
                      (VStr verify) (VStr rollback) true)) ->
  (forall d install verify rollback n,
     get_install_commands target env_info = Ok (VDict d) ->
     In d (known_commands target) ->
     dict_get d "install" VNone = VStr install ->
     dict_get d "verify" VNone = VStr verify ->
     dict_get d "rollback" VNone = VStr rollback ->
     Install n (new_step n ("Install " ++ target) (VStr install)
                         (VStr verify) (VStr rollback) true)) ->
  (forall n,
     get_install_commands target env_info = Ok VNone ->
     Install n (new_step n ("Install " ++ target)
                  (VStr ("# TODO: Add installation command for " ++ target))
                  (VStr ("# TODO: Add verification command for " ++ target))
                  (VStr ("# TODO: Add rollback command for " ++ target))
                  true)) ->
  exists platform architecture generated_at elevation steps install,
    plan = VDict ([("target", VStr target);
                   ("platform", platform);
                   ("architecture", architecture);
                   ("package_manager", package_manager_of env_info);
                   ("generated_at", generated_at);
                   ("requires_elevation", VBool elevation)]
                  ++ [("steps",
                       VList (steps
                              ++ [install;
                                  new_step
                                    (steps_before (package_manager_of env_info)
                                     + Z.of_nat (List.length
                                                   (dependency_list
                                                      dependencies)) + 2)
                                    ("Verify " ++ target ++ " installation")
                                    (VStr ("which " ++ target
                                           ++ " || command -v " ++ target
                                           ++ " || where " ++ target))
                                    (VStr (target ++ " --version || "
                                           ++ target ++ " -v || "
                                           ++ target ++ " version"))
                                    VNone true]))])
    /\ Inv (steps_before (package_manager_of env_info)
            + Z.of_nat (List.length (dependency_list dependencies)))
           steps
    /\ Install (steps_before (package_manager_of env_info)
                + Z.of_nat (List.length (dependency_list dependencies)) + 1)
               install.
Proof.
  intros H H0 Hmgr Hupd Hdep Hinst Htodo.
  unfold generate_plan in H.
  destruct (get env_info "os" (VDict [])) as [os_info |] eqn:E1;
    cbn [and_then] in H; [| discriminate].
  destruct (get os_info "system" (VStr EmptyString)) as [sv |] eqn:E2;
    cbn [and_then] in H; [| discriminate].
  destruct (lower_of sv) as [system |] eqn:E3;
    cbn [and_then] in H; [| discriminate].
  destruct (get env_info "summary" (VDict [])) as [summary |] eqn:E4;
    cbn [and_then] in H; [| discriminate].
  destruct (get summary "primary_package_manager" VNone) as [pm |] eqn:E5;
    cbn [and_then] in H; [| discriminate].
  assert (Epm : package_manager_of env_info = pm).
  { unfold package_manager_of.
    apply get_ok in E4. destruct E4 as [_ ->].
    apply get_ok in E5. now destruct E5 as [_ ->]. }
  rewrite Epm in *.
  destruct (get summary "has_sudo" (VBool false)) as [has_sudo |] eqn:E6;
    cbn [and_then] in H; [| discriminate].
  destruct (get summary "platform" (VStr system)) as [platform |] eqn:E7;
    cbn [and_then] in H; [| discriminate].
  destruct (get summary "architecture" (VStr "unknown"))
    as [architecture |] eqn:E8;
    cbn [and_then] in H; [| discriminate].
  destruct (get env_info "timestamp" (VStr "unknown"))
    as [generated_at |] eqn:E9;
    cbn [and_then] in H; [| discriminate].
  match type of H with
  | and_then ?m _ = _ => destruct m as [elevation |] eqn:E10
  end; cbn [and_then] in H; [| discriminate].
  (* the package manager *)
  match type of H with
  | and_then ?m _ = _ => destruct m as [[n1 steps1] |] eqn:S1
  end; cbn [and_then] in H; [| discriminate].
  assert (I1 : n1 = (if truthy pm then 1 else 0) /\ Inv n1 steps1).
  { destruct (truthy pm) eqn:T.
    - destruct (get_pm_version_command str_rest pm) as [c |] eqn:C;
        cbn [and_then] in S1; [| discriminate].
      inversion S1. split; [reflexivity |].
      apply (Inv_add 0 []); [exact H0 |]. now apply Hmgr.
    - inversion S1. now split. }
  destruct I1 as [N1 I1]. clear S1.
  (* the package index *)
  match type of H with
  | (let '(_, _) := ?p in _) = _ => destruct p as [n2 steps2] eqn:S2
  end.
  assert (I2 : n2 = steps_before pm /\ Inv n2 steps2).
  { unfold steps_before. destruct (is_apt pm) eqn:A.
    - inversion S2. split; [lia |].
      apply Inv_add; [exact I1 |]. now apply Hupd.
    - inversion S2. subst. split; [lia | exact I1]. }
  destruct I2 as [N2 I2]. clear S2 I1 N1.
  (* the dependencies *)
  match type of H with
  | and_then ?m _ = _ => destruct m as [[n3 steps3] |] eqn:S3
  end; cbn [and_then] in H; [| discriminate].
  assert (I3 : n3 = n2 + Z.of_nat (List.length (dependency_list dependencies))
               /\ Inv n3 steps3).
  { destruct dependencies as [deps |]; cbn [dependency_list] in *.
    - exact (add_dependencies_inv env_info deps Hdep
               n2 steps2 (n3, steps3) I2 S3).
    - inversion S3. subst. cbn. split; [lia | exact I2]. }
  destruct I3 as [N3 I3]. clear S3 I2.
  (* the target *)
  destruct (get_install_commands target env_info) as [cmds |] eqn:E11;
    cbn [and_then] in H; [| discriminate].
  match type of H with
  | and_then ?m _ = _ => destruct m as [step |] eqn:S4
  end; cbn [and_then] in H; [| discriminate].
  assert (G4 : Install (n3 + 1) step).
  { destruct (get_install_commands_cases _ _ _ E11)
      as [-> | (d & -> & Hin)].
    - cbn [truthy] in S4. inversion S4. now apply Htodo.
    - rewrite (known_commands_truthy target d Hin) in S4.
      destruct (install_step_known target ("Install " ++ target)
                                   (n3 + 1) d Hin)
        as (i & v & rb & Ei & Ev & Er & Es).
      rewrite Es in S4. inversion S4. eapply Hinst; eauto. }
  inversion H. subst plan n3 n2.
  exists platform, architecture, generated_at, elevation, steps3, step.
  split; [| split; [exact I3 | exact G4]].
  rewrite <- app_assoc. cbn [app].
  replace (steps_before pm
           + Z.of_nat (List.length (dependency_list dependencies)) + 1 + 1)
    with (steps_before pm
          + Z.of_nat (List.length (dependency_list dependencies)) + 2)
    by lia.
  reflexivity.
Qed.

End GeneratorWalk.

(* ===================================================================== *)
(** ** The plans the generator returns *)
(* ===================================================================== *)

Section GeneratorTotal.

Variable str_rest : value -> string.

Lemma env_shape_parts (env_info : value) :
  env_shape env_info = true ->
  is_dict env_info = true
  /\ is_dict (field env_info "os" (VDict [])) = true
  /\ (exists system, system_of env_info = VStr system)
  /\ is_dict (field env_info "summary" (VDict [])) = true
  /\ hashable (package_manager_of env_info) = true
  /\ is_dict (field env_info "permissions" (VDict [])) = true.
Proof.
  unfold env_shape. intros H.
  repeat (apply andb_true_iff in H; destruct H as [H ?]).
  repeat split; try assumption.
  destruct (system_of env_info); try discriminate. eauto.
Qed.

Lemma get_install_commands_total (target : string) (env_info : value) :
  env_shape env_info = true ->
  exists c, get_install_commands target env_info = Ok c.
Proof.
  intros H.
  destruct (env_shape_parts _ H) as (He & Hos & (system & Hsys) & Hsum & Hpm & _).
  unfold get_install_commands.
  rewrite (get_dict env_info "os") by exact He. cbn [and_then].
  rewrite (get_dict (field env_info "os" (VDict [])) "system") by exact Hos.
  cbn [and_then]. unfold system_of in Hsys. rewrite Hsys.
  cbn [lower_of and_then].
  rewrite (get_dict env_info "summary") by exact He. cbn [and_then].
  rewrite (get_dict (field env_info "summary" (VDict []))
                    "primary_package_manager") by exact Hsum.
  cbn [and_then]. fold (package_manager_of env_info).
  destruct (dict_find (PyStr.lower system) (install_commands target))
    as [by_manager |]; [| eauto].
  destruct (find_hashable _ by_manager _ Hpm) as [r ->]. cbn [and_then].
  eauto.
Qed.

Lemma add_dependencies_total (env_info : value) (deps : list string) :
  env_shape env_info = true ->
  forall n steps, exists r, add_dependencies env_info deps n steps = Ok r.
Proof.
  intros H. induction deps as [| dep deps IH]; intros n steps.
  - cbn. eauto.
  - cbn [add_dependencies].
    destruct (get_install_commands_total dep env_info H) as [cmds E].
    rewrite E. cbn [and_then].
    destruct (get_install_commands_cases _ _ _ E) as [-> | (d & -> & Hin)].
    + cbn [truthy]. apply IH.
    + rewrite (known_commands_truthy dep d Hin).
      destruct (install_step_known dep ("Install dependency: " ++ dep)
                                   (n + 1) d Hin)
        as (i & v & rb & _ & _ & _ & ->).
      cbn [and_then]. apply IH.
Qed.

(** On an [env_info] of the expected shape the generator returns a plan. *)
Lemma generate_plan_total (target : string) (env_info : value)
      (dependencies : option (list string)) :
  env_shape env_info = true ->
  exists plan,
    generate_plan str_rest target env_info dependencies = Ok plan.
Proof.
  intros H.
  destruct (env_shape_parts _ H)
    as (He & Hos & (system & Hsys) & Hsum & Hpm & Hperm).
  unfold generate_plan.
  rewrite (get_dict env_info "os") by exact He. cbn [and_then].
  rewrite (get_dict (field env_info "os" (VDict [])) "system") by exact Hos.
  cbn [and_then]. unfold system_of in Hsys. rewrite Hsys.
  cbn [lower_of and_then].
  rewrite (get_dict env_info "summary") by exact He. cbn [and_then].
  rewrite !(get_dict (field env_info "summary" (VDict []))) by exact Hsum.
  cbn [and_then]. fold (package_manager_of env_info).
  rewrite (get_dict env_info "timestamp") by exact He. cbn [and_then].
  assert (E10 : exists b,
             (if negb (String.eqb (PyStr.lower system) "darwin")
              then and_then (get env_info "permissions" (VDict []))
                     (fun permissions =>
                        and_then (get permissions "is_root" (VBool false))
                          (fun is_root => Ok (negb (truthy is_root))))
              else Ok false) = Ok b).
  { destruct (negb (String.eqb (PyStr.lower system) "darwin")); [| eauto].
    rewrite (get_dict env_info "permissions") by exact He. cbn [and_then].
    rewrite (get_dict (field env_info "permissions" (VDict [])) "is_root")
      by exact Hperm.
    cbn [and_then]. eauto. }
  destruct E10 as [b ->]. cbn [and_then].
  assert (E11 : exists r,
             (if truthy (package_manager_of env_info)
              then and_then
                     (get_pm_version_command str_rest
                        (package_manager_of env_info))
                     (fun command =>
                        Ok (0 + 1,
                            [] ++ [new_step (0 + 1)
                                     ("Verify "
                                      ++ py_str str_rest
                                           (package_manager_of env_info)
                                      ++ " is available")
                                     (VStr command) (VStr command) VNone
                                     true]))
              else Ok (0, [])) = Ok r).
  { destruct (truthy (package_manager_of env_info)); [| eauto].
    unfold get_pm_version_command.
    destruct (find_hashable _
                [("brew", "brew --version"); ("apt", "apt --version");
                 ("apt-get", "apt-get --version");
                 ("dnf", "dnf --version"); ("yum", "yum --version");
                 ("pacman", "pacman --version");
                 ("winget", "winget --version");
                 ("choco", "choco --version");
                 ("scoop", "scoop --version")] _ Hpm) as [r ->].
    cbn [and_then]. eauto. }
  destruct E11 as [[n1 steps1] ->]. cbn [and_then].
  match goal with
  | |- exists _, (let '(_, _) := ?p in _) = _ => destruct p as [n2 steps2]
  end.
  assert (E12 : exists r,
             match dependencies with
             | Some deps => add_dependencies env_info deps n2 steps2
             | None => Ok (n2, steps2)
             end = Ok r).
  { destruct dependencies as [deps |]; [| eauto].
    now apply add_dependencies_total. }
  destruct E12 as [[n3 steps3] ->]. cbn [and_then].
  destruct (get_install_commands_total target env_info H) as [cmds E].
  rewrite E. cbn [and_then].
  destruct (get_install_commands_cases _ _ _ E) as [-> | (d & -> & Hin)].
  - cbn [truthy and_then]. eauto.
  - rewrite (known_commands_truthy target d Hin).
    destruct (install_step_known target ("Install " ++ target)
                                 (n3 + 1) d Hin)
      as (i & v & rb & _ & _ & _ & ->).
    cbn [and_then]. eauto.
Qed.

End GeneratorTotal.

(* ===================================================================== *)
(** ** The texts of a generated plan *)
(* ===================================================================== *)

Ltac first_ok := first [ assumption | reflexivity ].

Ltac last_ok :=
  repeat match goal with
         | |- last_not_space (_ ++ _) = true => apply last_not_space_append
         end;
  first [ assumption | reflexivity ].

Ltac one_line :=
  unfold no_newline; rewrite ?contains_append;
  repeat match goal with
         | H : PyStr.contains "010" ?x = false |- _ => rewrite H; clear H
         end;
  reflexivity.

Ltac has_blank :=
  rewrite ?contains_append;
  repeat first [ reflexivity | apply orb_true_iff; right ].

Ltac no_quote :=
  first [ reflexivity
        | unfold PyStr.dquote;
          rewrite startswith_append_first by assumption; assumption ].

(** A text made of fixed words and names survives the plan file. *)
Ltac spaced :=
  apply spaced_scalar_ok;
  [ apply trimmed_append; [first_ok | last_ok]
  | one_line | has_blank | no_quote | no_quote ].

Section GeneratedTexts.

Variable str_rest : value -> string.

Lemma name_ok_parts (s : string) :
  name_ok s = true ->
  first_not_space s = true
  /\ last_not_space s = true
  /\ PyStr.contains "010" s = false
  /\ PyStr.startswith PyStr.dquote s = false
  /\ PyStr.startswith "'" s = false.
Proof.
  unfold name_ok, no_newline. intros H.
  apply andb_true_iff in H. destruct H as [H H4].
  apply andb_true_iff in H. destruct H as [H H3].
  apply andb_true_iff in H. destruct H as [H1 H2].
  apply trimmed_parts in H1. destruct H1 as [F L].
  apply negb_true_iff in H2, H3, H4. repeat split; assumption.
Qed.

Lemma new_step_item_ok (n : Z) (name : string)
      (command verify rollback : value) (critical : bool) :
  scalar_ok false (VStr name) = true ->
  scalar_ok false command = true ->
  scalar_ok false verify = true ->
  scalar_ok false rollback = true ->
  item_ok (new_step n name command verify rollback critical) = true.
Proof.
  intros H1 H2 H3 H4. unfold new_step. cbn [item_ok].
  apply andb_true_iff. split; [reflexivity |].
  cbn [forallb snd]. now rewrite H1, H2, H3, H4.
Qed.

Lemma known_commands_ok (x : string) (d : pydict) :
  name_ok x = true -> In d (known_commands x) ->
  scalar_ok false (dict_get d "install" VNone) = true
  /\ scalar_ok false (dict_get d "verify" VNone) = true
  /\ scalar_ok false (dict_get d "rollback" VNone) = true.
Proof.
  intros Hx Hin.
  destruct (name_ok_parts x Hx) as (F & L & N & Q1 & Q2).
  unfold known_commands, install_commands in Hin.
  cbn [flat_map map snd app] in Hin.
  repeat (destruct Hin as [<- | Hin];
          [ change (dict_get ?d "install" VNone)
              with (dict_get d "install" VNone);
            repeat split;
            match goal with
            | |- scalar_ok false (dict_get ?d ?k VNone) = true =>
                let v := eval cbv [dict_get dict_find String.eqb Ascii.eqb
                                   Bool.eqb] in (dict_get d k VNone) in
                change (dict_get d k VNone) with v
            end; spaced | ]).
  contradiction.
Qed.

End GeneratedTexts.

Section GeneratedPlans.

Variable str_rest : value -> string.

Lemma manager_command_ok (p c : string) :
  name_ok p = true ->
  get_pm_version_command str_rest (VStr p) = Ok c ->
  scalar_ok false (VStr c) = true.
Proof.
  intros Hp. destruct (name_ok_parts p Hp) as (F & L & N & Q1 & Q2).
  unfold get_pm_version_command, find. cbn [hashable and_then].
  match goal with
  | |- context [dict_find p ?t] => destruct (dict_find p t) as [c' |] eqn:E
  end; intros H; inversion H; subst c.
  - apply dict_find_in in E. cbn [map snd] in E.
    repeat (destruct E as [<- | E]; [reflexivity |]). contradiction.
  - cbn [py_str]. spaced.
Qed.

Lemma scalar_entry_ok (v : value) :
  scalar_ok true v = true -> entry_ok v = true.
Proof. destruct v; try discriminate; intros H; exact H. Qed.

Lemma step_ok_is_dict (l : list value) :
  forallb step_ok l = true -> forallb is_dict l = true.
Proof.
  induction l as [| s l IH]; [reflexivity |].
  cbn [forallb]. intros H. apply andb_true_iff in H. destruct H as [Hs Hl].
  rewrite (IH Hl), andb_true_r. unfold step_ok in Hs.
  repeat (apply andb_true_iff in Hs; destruct Hs as [Hs _]). exact Hs.
Qed.

Lemma increasing_snoc (ns : list Z) (lo m : Z) :
  increasing_from lo ns = true -> lo < m ->
  Forall (fun k => k < m) ns ->
  increasing_from lo (ns ++ [m]) = true.
Proof.
  revert lo. induction ns as [| n ns IH]; intros lo Hi Hlo Hall.
  - cbn. rewrite andb_true_r. now apply Z.ltb_lt.
  - cbn [increasing_from app] in *. apply andb_true_iff in Hi.
    destruct Hi as [H1 H2]. rewrite H1. cbn [andb].
    inversion Hall; subst. now apply IH.
Qed.

Lemma last_snoc (A : Type) (l : list A) (x d : A) : last (l ++ [x]) d = x.
Proof.
  induction l as [| y l IH]; [reflexivity |].
  cbn [app]. destruct (l ++ [x]) eqn:E; [now destruct l |].
  cbn [last]. exact IH.
Qed.

(** A generated plan is one the engine can carry out. *)
Lemma generated_plan_well_formed
      (target : string) (env_info : value)
      (dependencies : option (list string)) (plan : value) :
  generate_plan str_rest target env_info dependencies = Ok plan ->
  well_formed plan = true.
Proof.
  intros E.
  assert (Hadd : forall (n : Z) steps step,
             forallb step_ok steps = true -> step_ok step = true ->
             forallb step_ok (steps ++ [step]) = true).
  { intros n steps step Hs Hg. rewrite forallb_app, Hs. cbn [forallb andb].
    now rewrite Hg. }
  destruct (generate_plan_inv str_rest
              (fun _ steps => forallb step_ok steps = true)
              (fun _ step => step_ok step = true)
              (fun _ step => step_ok step = true)
              (fun _ _ Hs => Hs) Hadd
              target env_info dependencies plan E)
    as (pf & ar & ga & el & steps & install & -> & Hs & Hi);
    try reflexivity.
  assert (Hall : forallb step_ok
                   (steps ++ [install;
                              new_step
                                (steps_before (package_manager_of env_info)
                                 + Z.of_nat (List.length
                                               (dependency_list
                                                  dependencies)) + 2)
                                ("Verify " ++ target ++ " installation")
                                (VStr ("which " ++ target
                                       ++ " || command -v " ++ target
                                       ++ " || where " ++ target))
                                (VStr (target ++ " --version || "
                                       ++ target ++ " -v || "
                                       ++ target ++ " version"))
                                VNone true]) = true).
  { rewrite forallb_app, Hs. cbn [forallb andb]. now rewrite Hi. }
  unfold well_formed, is_plan, plan_steps.
  cbn [app dict_get dict_find String.eqb Ascii.eqb Bool.eqb elements].
  now rewrite (step_ok_is_dict _ Hall), Hall.
Qed.

(** The engine returns a report for every plan it can carry out. *)
Lemma well_formed_plan_runs
      (W : Type) (spawn : string -> Z -> W -> outcome * W)
      (now : W -> string * W) (plan : value) (dry : bool) (s : state W) :
  well_formed plan = true ->
  exists rep s', execute_plan spawn now plan dry s = (Ok rep, s').
Proof.
  unfold well_formed, is_plan, plan_steps. intros H.
  apply andb_true_iff in H. destruct H as [Hp Hsteps].
  destruct plan as [| | | | | | d]; try discriminate.
  destruct (elements (dict_get d "steps" (VList []))) as [l |] eqn:El;
    [| discriminate].
  rewrite (execute_plan_steps W spawn now d dry l s El).
  destruct (run_steps_total W spawn dry l
              (initial (VDict d) (fst (now (world s))) dry)
              (mkState (snd (now (world s))) (calls s) (spawned s))
              Hsteps eq_refl)
    as (c & ls' & s2 & ->).
  eexists. eexists. reflexivity.
Qed.

(** X13.  On an [env_info] of the expected shape [generate_plan] returns a
    plan, whatever the target and the dependencies; the engine can carry
    out every step of that plan, so [execute_plan] returns a report for it
    in every state of the world, in a real run as in a dry run. *)
Theorem generated_plan_can_be_executed
        (W : Type) (spawn : string -> Z -> W -> outcome * W)
        (now : W -> string * W)
        (target : string) (env_info : value)
        (dependencies : option (list string)) (dry : bool) (s : state W) :
  env_shape env_info = true ->
  exists plan,
    generate_plan str_rest target env_info dependencies = Ok plan
    /\ well_formed plan = true
    /\ exists rep s', execute_plan spawn now plan dry s = (Ok rep, s').
Proof.
  intros H.
  destruct (generate_plan_total str_rest target env_info dependencies H)
    as [plan E].
  exists plan. split; [exact E |].
  pose proof (generated_plan_well_formed _ _ _ _ E) as Hw.
  split; [exact Hw |]. now apply well_formed_plan_runs.
Qed.

(** X14.  The steps of a generated plan carry integers that increase
    strictly from 1 or more; the last step, which verifies the target,
    carries the number of steps before the dependencies (one if there is a
    package manager, one more for apt), plus the number of dependencies,
    plus two: a dependency uses a number even when no step is made for
    it. *)
Theorem generated_steps_are_numbered
        (target : string) (env_info : value)
        (dependencies : option (list string)) (plan : value) :
  generate_plan str_rest target env_info dependencies = Ok plan ->
  exists ns,
    step_numbers plan = map VInt ns
    /\ increasing_from 0 ns = true
    /\ last ns 0
       = steps_before (package_manager_of env_info)
         + Z.of_nat (List.length (dependency_list dependencies)) + 2.
Proof.
  intros E.
  assert (B : 0 <= steps_before (package_manager_of env_info)).
  { unfold steps_before.
    destruct (truthy _), (is_apt _); lia. }
  pose (Inv := fun (n : Z) (steps : list value) =>
                 0 <= n
                 /\ exists ns,
                      map (fun s => field s "step" VNone) steps = map VInt ns
                      /\ increasing_from 0 ns = true
                      /\ Forall (fun k => k < n + 1) ns).
  pose (Good := fun (n : Z) (step : value) =>
                  field step "step" VNone = VInt n).
  assert (Hskip : forall n steps, Inv n steps -> Inv (n + 1) steps).
  { intros n steps (Hn & ns & Hm & Hi & Hb). split; [lia |].
    exists ns. repeat split; try assumption.
    eapply Forall_impl; [| exact Hb]. cbn. intros. lia. }
  assert (Hadd : forall n steps step,
             Inv n steps -> Good (n + 1) step ->
             Inv (n + 1) (steps ++ [step])).
  { intros n steps step (Hn & ns & Hm & Hi & Hb) Hg. split; [lia |].
    exists (ns ++ [n + 1]). rewrite !map_app, Hm. cbn [map].
    unfold Good in Hg. rewrite Hg.
    split; [reflexivity |]. split.
    + apply increasing_snoc; [exact Hi | lia | exact Hb].
    + apply Forall_app. split.
      * eapply Forall_impl; [| exact Hb]. cbn. intros. lia.
      * constructor; [lia | constructor]. }
  destruct (generate_plan_inv str_rest Inv Good Good Hskip Hadd
              target env_info dependencies plan E)
    as (pf & ar & ga & el & steps & install & -> & (_ & ns & Hn & Hi & Hb)
        & Hg);
    try reflexivity.
  - split; [lia |]. exists []. repeat split. constructor.
  - set (m := steps_before (package_manager_of env_info)
              + Z.of_nat (List.length (dependency_list dependencies))) in *.
    exists (ns ++ [m + 1; m + 2]).
    unfold step_numbers, plan_steps.
    cbn [app dict_get dict_find String.eqb Ascii.eqb Bool.eqb elements].
    rewrite !map_app, Hn. cbn [map]. unfold Good in Hg. rewrite Hg.
    split; [reflexivity |]. split.
    + change (ns ++ [m + 1; m + 2]) with (ns ++ [m + 1] ++ [m + 2]).
      rewrite app_assoc.
      assert (0 <= m) by (unfold m; lia).
      apply increasing_snoc.
      * apply increasing_snoc; [exact Hi | lia | exact Hb].
      * lia.
      * apply Forall_app. split.
        -- eapply Forall_impl; [| exact Hb]. cbn. intros. lia.
        -- constructor; [lia | constructor].
    + change (ns ++ [m + 1; m + 2]) with (ns ++ [m + 1] ++ [m + 2]).
      rewrite app_assoc. apply last_snoc.
Qed.

(** The conditions under which a generated plan is dumpable. *)
Lemma generated_plan_dumpable
      (target : string) (env_info : value)
      (dependencies : option (list string)) (d : pydict) :
  generate_plan str_rest target env_info dependencies = Ok (VDict d) ->
  name_ok target = true ->
  forallb name_ok (dependency_list dependencies) = true ->
  manager_ok (package_manager_of env_info) = true ->
  forallb (fun e : string * value => scalar_ok true (snd e)) (header d)
  = true ->
  dumpable d = true.
Proof.
  intros E Ht Hd Hm Hh.
  destruct (name_ok_parts target Ht) as (F & L & N & Q1 & Q2).
  assert (Hadd : forall (n : Z) steps step,
             forallb item_ok steps = true -> item_ok step = true ->
             forallb item_ok (steps ++ [step]) = true).
  { intros n steps step Hs Hg. rewrite forallb_app, Hs. cbn [forallb andb].
    now rewrite Hg. }
  destruct (generate_plan_inv str_rest
              (fun _ steps => forallb item_ok steps = true)
              (fun _ step => item_ok step = true)
              (fun _ step => item_ok step = true)
              (fun _ _ Hs => Hs) Hadd
              target env_info dependencies (VDict d) E)
    as (pf & ar & ga & el & steps & install & Ed & Hs & Hi);
    try reflexivity.
  - (* the package manager *)
    intros c n T C.
    destruct (package_manager_of env_info) as [| | | | p | |];
      try discriminate.
    cbn [manager_ok] in Hm.
    destruct (name_ok_parts p Hm) as (Fp & Lp & Np & Q1p & Q2p).
    pose proof (manager_command_ok p c Hm C) as Hc.
    apply new_step_item_ok; try assumption; try reflexivity.
    cbn [py_str]. spaced.
  - (* the dependencies *)
    intros dep k i v rb n Hin Hk Ei Ev Er.
    rewrite forallb_forall in Hd. specialize (Hd dep Hin).
    destruct (known_commands_ok dep k Hd Hk) as (Ki & Kv & Kr).
    rewrite Ei in Ki. rewrite Ev in Kv. rewrite Er in Kr.
    destruct (name_ok_parts dep Hd) as (Fd & Ld & Nd & Q1d & Q2d).
    apply new_step_item_ok; try assumption. spaced.
  - (* the target, with known commands *)
    intros k i v rb n _ Hk Ei Ev Er.
    destruct (known_commands_ok target k Ht Hk) as (Ki & Kv & Kr).
    rewrite Ei in Ki. rewrite Ev in Kv. rewrite Er in Kr.
    apply new_step_item_ok; try assumption. spaced.
  - (* the target, without *)
    intros n _. apply new_step_item_ok; try reflexivity; spaced.
  - pose proof (f_equal (fun v => match v with
                                    | VDict x => header x
                                    | _ => []
                                    end) Ed) as Eh.
    pose proof (f_equal (fun v => match v with
                                    | VDict x => dumpable x
                                    | _ => false
                                    end) Ed) as Eg.
    cbv beta iota in Eh, Eg. rewrite Eh in Hh. rewrite Eg. clear Eh Eg Ed.
    unfold dumpable. apply andb_true_iff. split; [reflexivity |].
    cbn [header filter fst String.eqb Ascii.eqb Bool.eqb negb app forallb
         snd] in Hh.
    repeat (apply andb_true_iff in Hh; destruct Hh as [? Hh]).
    cbn [app forallb snd].
    repeat match goal with
           | K : scalar_ok true ?v = true |- _ =>
               rewrite (scalar_entry_ok v K); clear K
           end.
    cbn [andb]. rewrite andb_true_r.
    assert (Hv : item_ok
                   (new_step
                      (steps_before (package_manager_of env_info)
                       + Z.of_nat (List.length
                                     (dependency_list dependencies)) + 2)
                      ("Verify " ++ target ++ " installation")
                      (VStr ("which " ++ target ++ " || command -v "
                             ++ target ++ " || where " ++ target))
                      (VStr (target ++ " --version || " ++ target
                             ++ " -v || " ++ target ++ " version"))
                      VNone true) = true).
    { apply new_step_item_ok; try reflexivity; spaced. }
    destruct steps as [| s0 steps]; cbn [app entry_ok forallb].
    + now rewrite Hi, Hv.
    + cbn [forallb] in Hs. apply andb_true_iff in Hs.
      destruct Hs as [H0 Hs].
      rewrite H0, forallb_app, Hs. cbn [forallb andb].
      now rewrite Hi, Hv.
Qed.

(** X15.  A generated plan survives the plan file: what
    [simple_yaml_dump] writes for it, [simple_yaml_load] reads back as the
    same plan, provided the target, the dependencies and the package
    manager are names (trimmed, on one line, not starting with a quote; the
    package manager may also be None) and the header values of the plan
    (target, platform, architecture, package manager, time stamp) are
    scalars that survive the round trip. *)
Theorem generated_plan_is_read_back
        (target : string) (env_info : value)
        (dependencies : option (list string)) (d : pydict) :
  generate_plan str_rest target env_info dependencies = Ok (VDict d) ->
  name_ok target = true ->
  forallb name_ok (dependency_list dependencies) = true ->
  manager_ok (package_manager_of env_info) = true ->
  forallb (fun e : string * value => scalar_ok true (snd e)) (header d)
  = true ->
  simple_yaml_load (simple_yaml_dump str_rest (VDict d) 0) = VDict d.
Proof.
  intros E Ht Hd Hm Hh. apply dump_then_load.
  exact (generated_plan_dumpable target env_info dependencies d
           E Ht Hd Hm Hh).
Qed.

(** A text without carriage return is read from a file as it was
    written to it, whatever [os.linesep] is. *)
Lemma read_written (windows : bool) (text : string) :
  TextFile.no_return text = true ->
  TextFile.read (TextFile.written windows text) = text.
Proof.
  unfold TextFile.no_return. induction text as [| c rest IH]; intros H.
  - reflexivity.
  - cbn [PyStr.contains] in H. rewrite negb_orb in H.
    apply andb_true_iff in H. destruct H as [Hc Hrest].
    apply negb_true_iff in Hc. specialize (IH Hrest).
    cbn [TextFile.written].
    destruct (Ascii.eqb c TextFile.lf) eqn:El.
    + apply Ascii.eqb_eq in El. subst c.
      destruct windows; cbn; rewrite IH; reflexivity.
    + cbn [TextFile.read]. rewrite Hc, IH. reflexivity.
Qed.

(** X17.  From one script to the other, when neither has PyYAML and the
    plan goes through a file: the generator writes the text of a generated
    plan (under the conditions of X15) to a file opened in text mode, and
    the executor reads that file in text mode.  When the text is ASCII and
    holds no carriage return, and the integers of the plan are within the
    digit limit, [main] of the executor loads exactly that plan,
    [execute_plan] returns a report for it, and the exit status is 0 when
    the report is a success and 1 when it is not. *)
Theorem generated_plan_file_is_executed
        (W : Type) (spawn : string -> Z -> W -> outcome * W)
        (now : W -> string * W) (safe_load : string -> result value)
        (yaml_dump_lib : value -> string)
        (target : string) (env_info : value)
        (dependencies : option (list string)) (d : pydict)
        (windows dry : bool) (s : state W) :
  generate_plan str_rest target env_info dependencies = Ok (VDict d) ->
  name_ok target = true ->
  forallb name_ok (dependency_list dependencies) = true ->
  manager_ok (package_manager_of env_info) = true ->
  forallb (fun e : string * value => scalar_ok true (snd e)) (header d)
  = true ->
  ints_ok d = true ->
  TextFile.no_return (yaml_dump str_rest false yaml_dump_lib (VDict d))
  = true ->
  TextFile.is_ascii (yaml_dump str_rest false yaml_dump_lib (VDict d))
  = true ->
  yaml_load false safe_load
            (TextFile.read
               (TextFile.written
                  windows (yaml_dump str_rest false yaml_dump_lib (VDict d))))
            s
  = (Ok (VDict d), s)
  /\ exists rep s',
       execute_plan spawn now (VDict d) dry s = (Ok rep, s')
       /\ main spawn now false safe_load
               (Some (TextFile.read
                        (TextFile.written
                           windows
                           (yaml_dump str_rest false yaml_dump_lib (VDict d)))))
               dry s
          = (Ok (if Report.success rep then 0 else 1), s').
Proof.
  intros E Ht Hd Hm Hh _ Hr _.
  pose proof (generated_plan_dumpable target env_info dependencies d
                E Ht Hd Hm Hh) as Hdump.
  destruct (well_formed_plan_runs W spawn now (VDict d) dry s
              (generated_plan_well_formed _ _ _ _ E)) as (rep & s' & R).
  rewrite (read_written windows _ Hr).
  assert (L : yaml_load false safe_load
                        (yaml_dump str_rest false yaml_dump_lib (VDict d)) s
              = (Ok (VDict d), s)).
  { unfold yaml_load, yaml_dump, ret.
    rewrite (dump_then_load str_rest d Hdump). reflexivity. }
  split; [exact L |].
  exists rep, s'. split; [exact R |].
  unfold main, bind, ret. rewrite L, R. reflexivity.
Qed.

End GeneratedPlans.

Section Placeholder.

Variable str_rest : value -> string.
Variable W : Type.
Variable spawn : string -> Z -> W -> outcome * W.

(** X16.  When [get_install_commands] knows no command for the target,
    the generated plan holds, before its last step, an install step whose
    command, verification and rollback are [# TODO] placeholders; in a real
    run the engine passes this step as a success: both results are the
    [Skipped] one, nothing is handed to the shell, and the step joins the
    executed steps. *)
Theorem placeholder_install_step_passes
        (target : string) (env_info : value)
        (dependencies : option (list string)) (plan : value) :
  generate_plan str_rest target env_info dependencies = Ok plan ->
  get_install_commands target env_info = Ok VNone ->
  let command := VStr ("# TODO: Add installation command for " ++ target) in
  let verify := VStr ("# TODO: Add verification command for " ++ target) in
  let todo :=
    new_step (steps_before (package_manager_of env_info)
              + Z.of_nat (List.length (dependency_list dependencies)) + 1)
             ("Install " ++ target) command verify
             (VStr ("# TODO: Add rollback command for " ++ target)) true in
  exists pre last,
    plan_steps plan = pre ++ [todo; last]
    /\ forall (ls : loop_state) (s : state W),
         loop_body spawn false todo ls s
         = (Ok (Next,
                mkLoop (Report.append_step
                          (report_of todo "success" (Some skipped)
                                     (Some skipped))
                          (report ls))
                       (executed_steps ls ++ [todo])),
            mkState (world s) (calls s ++ [command; verify]) (spawned s)).
Proof.
  intros E Hnone command verify todo.
  destruct (generate_plan_inv str_rest
              (fun _ _ => True) (fun _ _ => True)
              (fun n step =>
                 step
                 = new_step n ("Install " ++ target)
                     (VStr ("# TODO: Add installation command for "
                            ++ target))
                     (VStr ("# TODO: Add verification command for "
                            ++ target))
                     (VStr ("# TODO: Add rollback command for " ++ target))
                     true)
              (fun _ _ _ => I) (fun _ _ _ _ _ => I)
              target env_info dependencies plan E)
    as (pf & ar & ga & el & steps & install & -> & _ & ->);
    try exact I; try (intros; exact I).
  - intros d i v rb n Hd. rewrite Hnone in Hd. discriminate.
  - reflexivity.
  - exists steps. eexists. split.
    + unfold plan_steps.
      cbn [app dict_get dict_find String.eqb Ascii.eqb Bool.eqb elements].
      reflexivity.
    + intros ls s. unfold todo, new_step.
      erewrite (turn_success_verified W spawn);
        [ | apply sentinel_skips; reflexivity | reflexivity | reflexivity
          | apply sentinel_skips; reflexivity | reflexivity ].
      cbn [world calls spawned]. rewrite <- app_assoc. reflexivity.
Qed.

End Placeholder.

(* ===================================================================== *)
(** ** Generated plans in the sample world *)
(* ===================================================================== *)

Lemma brew_plan_can_be_executed :
  env_shape Env.brew = true
  /\ exists plan,
       generate_plan PlanFile.str_rest "wget" Env.brew (Some ["openssl"])
       = Ok plan
       /\ well_formed plan = true
       /\ exists rep s',
            execute_plan Sample.spawn Sample.now plan false Sample.start
            = (Ok rep, s').
Proof.
  split; [reflexivity |].
  apply (generated_plan_can_be_executed PlanFile.str_rest Sample.W
           Sample.spawn Sample.now "wget" Env.brew (Some ["openssl"]) false
           Sample.start).
  reflexivity.
Defined.

Lemma bsd_steps_are_numbered :
  exists plan,
    generate_plan PlanFile.str_rest "wget" Env.bsd (Some ["openssl"])
    = Ok plan
    /\ exists ns,
         step_numbers plan = map VInt ns
         /\ increasing_from 0 ns = true
         /\ last ns 0
            = steps_before (package_manager_of Env.bsd)
              + Z.of_nat (List.length (dependency_list (Some ["openssl"])))
              + 2.
Proof.
  eexists. split; [vm_compute; reflexivity |].
  apply (generated_steps_are_numbered PlanFile.str_rest "wget" Env.bsd
           (Some ["openssl"])).
  vm_compute; reflexivity.
Defined.

Lemma generated_brew_plan_is_read_back :
  exists d,
    generate_plan PlanFile.str_rest "wget" Env.brew (Some ["openssl"])
    = Ok (VDict d)
    /\ name_ok "wget" = true
    /\ forallb name_ok (dependency_list (Some ["openssl"])) = true
    /\ manager_ok (package_manager_of Env.brew) = true
    /\ forallb (fun e : string * value => scalar_ok true (snd e)) (header d)
       = true
    /\ simple_yaml_load (simple_yaml_dump PlanFile.str_rest (VDict d) 0)
       = VDict d.
Proof.
  eexists. split; [vm_compute; reflexivity |].
  split; [vm_compute; reflexivity |]. split; [vm_compute; reflexivity |].
  split; [vm_compute; reflexivity |]. split; [vm_compute; reflexivity |].
  apply (generated_plan_is_read_back PlanFile.str_rest "wget" Env.brew
           (Some ["openssl"])); vm_compute; reflexivity.
Defined.

Lemma bsd_placeholder_passes :
  exists plan,
    generate_plan PlanFile.str_rest "wget" Env.bsd None = Ok plan
    /\ get_install_commands "wget" Env.bsd = Ok VNone
    /\ let command := VStr "# TODO: Add installation command for wget" in
       let verify := VStr "# TODO: Add verification command for wget" in
       let todo :=
         new_step 2 "Install wget" command verify
                  (VStr "# TODO: Add rollback command for wget") true in
       exists pre last,
         plan_steps plan = pre ++ [todo; last]
         /\ forall (ls : loop_state) (s : state Sample.W),
              loop_body Sample.spawn false todo ls s
              = (Ok (Next,
                     mkLoop (Report.append_step
                               (report_of todo "success" (Some skipped)
                                          (Some skipped))
                               (report ls))
                            (executed_steps ls ++ [todo])),
                 mkState (world s) (calls s ++ [command; verify])
                         (spawned s)).
Proof.
  eexists. split; [vm_compute; reflexivity |]. split; [reflexivity |].
  apply (placeholder_install_step_passes PlanFile.str_rest Sample.W
           Sample.spawn "wget" Env.bsd None); reflexivity.
Defined.

Lemma generated_brew_plan_file_is_executed :
  exists d,
    generate_plan PlanFile.str_rest "wget" Env.brew (Some ["openssl"])
    = Ok (VDict d)
    /\ name_ok "wget" = true
    /\ forallb name_ok (dependency_list (Some ["openssl"])) = true
    /\ manager_ok (package_manager_of Env.brew) = true
    /\ forallb (fun e : string * value => scalar_ok true (snd e)) (header d)
       = true
    /\ ints_ok d = true
    /\ TextFile.no_return
         (yaml_dump PlanFile.str_rest false PlanFile.str_rest (VDict d))
       = true
    /\ TextFile.is_ascii
         (yaml_dump PlanFile.str_rest false PlanFile.str_rest (VDict d))
       = true
    /\ yaml_load false Sample.safe_load
                 (TextFile.read
                    (TextFile.written
                       true
                       (yaml_dump PlanFile.str_rest false PlanFile.str_rest
                                  (VDict d))))
                 Sample.start
       = (Ok (VDict d), Sample.start)
    /\ exists rep s',
         execute_plan Sample.spawn Sample.now (VDict d) false Sample.start
         = (Ok rep, s')
         /\ main Sample.spawn Sample.now false Sample.safe_load
                 (Some (TextFile.read
                          (TextFile.written
                             true
                             (yaml_dump PlanFile.str_rest false
                                        PlanFile.str_rest (VDict d)))))
                 false Sample.start
            = (Ok (if Report.success rep then 0 else 1), s').
Proof.
  eexists. split; [vm_compute; reflexivity |].
  split; [vm_compute; reflexivity |]. split; [vm_compute; reflexivity |].
  split; [vm_compute; reflexivity |]. split; [vm_compute; reflexivity |].
  split; [vm_compute; reflexivity |]. split; [vm_compute; reflexivity |].
  split; [vm_compute; reflexivity |].
  apply (generated_plan_file_is_executed PlanFile.str_rest Sample.W
           Sample.spawn Sample.now Sample.safe_load PlanFile.str_rest
           "wget" Env.brew (Some ["openssl"]));
    vm_compute; reflexivity.
Defined.

(* ===================================================================== *)
(** ** What reaches the shell *)
(* ===================================================================== *)

Section ShellLog.

Variable W : Type.
Variable spawn : string -> Z -> W -> outcome * W.
Variable now : W -> string * W.

Lemma logs_agree_same (s s' : state W) :
  calls s' = calls s -> spawned s' = spawned s -> logs_agree s s'.
Proof. intros C S. exists []. cbn. now rewrite !app_nil_r. Qed.

Lemma logs_agree_refl (s : state W) : logs_agree s s.
Proof. now apply logs_agree_same. Qed.

Lemma logs_agree_trans (s1 s2 s3 : state W) :
  logs_agree s1 s2 -> logs_agree s2 s3 -> logs_agree s1 s3.
Proof.
  intros (n1 & C1 & S1) (n2 & C2 & S2). exists (n1 ++ n2).
  rewrite C2, C1, S2, S1, flat_map_app, !app_assoc. now split.
Qed.

Lemma keeps_ret (A : Type) (a : A) : keeps_logs (ret (W := W) a).
Proof. intros s. apply logs_agree_refl. Qed.

Lemma keeps_raise (A : Type) (e : exn) :
  keeps_logs (raise (W := W) (A := A) e).
Proof. intros s. apply logs_agree_refl. Qed.

Lemma keeps_bind (A B : Type) (m : M W A) (k : A -> M W B) :
  keeps_logs m -> (forall a, keeps_logs (k a)) -> keeps_logs (bind m k).
Proof.
  intros Hm Hk s. unfold bind. specialize (Hm s).
  destruct (m s) as [[a | e] s1]; cbn [snd] in *.
  - eapply logs_agree_trans; [exact Hm | apply Hk].
  - exact Hm.
Qed.

Lemma keeps_py_get (obj : value) (k : string) (default : value) :
  keeps_logs (py_get (W := W) obj k default).
Proof. destruct obj; first [apply keeps_ret | apply keeps_raise]. Qed.

Lemma keeps_py_iter (v : value) : keeps_logs (py_iter (W := W) v).
Proof. destruct v; first [apply keeps_ret | apply keeps_raise]. Qed.

Lemma keeps_get_now : keeps_logs (get_now now).
Proof.
  intros s. unfold get_now. destruct (now (world s)) as [t w'].
  now apply logs_agree_same.
Qed.

(** One call of [run_command]: one more entry in the log of calls, and in
    the shell's what [shell_of] says. *)
Lemma keeps_run_command (command : value) :
  keeps_logs (run_command spawn command 300).
Proof.
  intros s. exists [command]. cbn [flat_map]. rewrite app_nil_r.
  unfold run_command, bind, log_call, ret, raise, subprocess_run.
  cbn [snd calls spawned world].
  destruct (truthy command) eqn:T; cbn [negb].
  - destruct command as [| b | z | f | c | l | d]; cbn [shell_of];
      try (split; [reflexivity | now rewrite app_nil_r]).
    unfold sentinel.
    replace (String.eqb c EmptyString) with false
      by (symmetry; cbn in T; now apply negb_true_iff in T).
    cbn [orb].
    destruct (PyStr.startswith "#" c); cbn [snd calls spawned world].
    + split; [reflexivity | now rewrite app_nil_r].
    + destruct (spawn c 300 (world s)) as [o w']. now split.
  - split; [reflexivity |]. 
    destruct command as [| b | z | f | c | l | d]; cbn [shell_of];
      try now rewrite app_nil_r.
    unfold sentinel. cbn in T. apply negb_false_iff in T. rewrite T.
    now rewrite app_nil_r.
Qed.

Lemma keeps_rollback_each (steps : list value) :
  keeps_logs (rollback_each spawn steps).
Proof.
  induction steps as [| step steps IH]; cbn [rollback_each].
  - apply keeps_ret.
  - apply keeps_bind; [apply keeps_py_get |]. intros rb.
    apply keeps_bind; [| intros _; exact IH].
    destruct (truthy rb); [| apply keeps_ret].
    apply keeps_bind; [apply keeps_run_command | intros; apply keeps_ret].
Qed.

Ltac keeps :=
  repeat first
    [ apply keeps_ret
    | apply keeps_raise
    | apply keeps_py_get
    | apply keeps_py_iter
    | apply keeps_get_now
    | apply keeps_run_command
    | apply keeps_rollback_each
    | apply keeps_bind; [| intros ?]
    | match goal with
      | |- keeps_logs (if ?b then _ else _) => destruct b
      end ].

Lemma keeps_loop_body (dry : bool) (step : value) (ls : loop_state) :
  keeps_logs (loop_body spawn dry step ls).
Proof. unfold loop_body, mark_success, rollback_executed. keeps. Qed.

Lemma keeps_run_steps (dry : bool) (steps : list value) :
  forall ls, keeps_logs (run_steps spawn dry steps ls).
Proof.
  induction steps as [| step steps IH]; intros ls; cbn [run_steps].
  - apply keeps_ret.
  - apply keeps_bind; [apply keeps_loop_body |].
    intros [[] ls']; [apply IH | apply keeps_ret].
Qed.





(** X18.  Whatever the plan, and whether the run returns a report or
    raises, the shell is given exactly the calls of [run_command] whose
    command is a string that is neither empty nor a comment, in the order
    of the calls and each with a timeout of 300 seconds: nothing else
    reaches the shell, and no such call is left out. *)
Theorem shell_gets_the_commands_called
        (plan : value) (dry : bool) (s : state W) :
  logs_agree s (snd (execute_plan spawn now plan dry s)).
Proof.
  revert s. change (keeps_logs (execute_plan spawn now plan dry)).
  unfold execute_plan.
  repeat first
    [ apply keeps_ret
    | apply keeps_py_get
    | apply keeps_py_iter
    | apply keeps_get_now
    | apply keeps_run_steps
    | apply keeps_bind; [| intros ?] ].
Qed.

End ShellLog.

(* ===================================================================== *)
(** ** Plans that leave fields out *)
(* ===================================================================== *)

Section Unchecked.

Variable W : Type.
Variable spawn : string -> Z -> W -> outcome * W.
Variable now : W -> string * W.
Variable safe_load : string -> result value.


End Unchecked.

(** The plan file [steps: 5] is loaded, and the run raises before any
    step: the steps cannot be looped over. *)
Lemma unlooped_steps_raise :
  simple_yaml_load Faults.unlooped_source = VDict [("steps", VInt 5)]
  /\ Sample.main (Some Faults.unlooped_source) false Sample.start
     = (Raise (TypeError "object is not iterable"), mkState 1%nat [] []).
Proof. split; reflexivity. Qed.

(** A plan file whose first step is a text is loaded, and the run raises
    at that step. *)
Lemma text_step_raises :
  simple_yaml_load Faults.text_step_source
  = VDict [("steps", VList [VStr "echo hi"])]
  /\ Sample.main (Some Faults.text_step_source) false Sample.start
     = (Raise (AttributeError "get"), mkState 1%nat [] []).
Proof. split; reflexivity. Qed.

(* ===================================================================== *)
(** ** Comments and blank lines *)
(* ===================================================================== *)

Section Comments.

(** The reader looks at the next line only to see whether a list starts. *)
Lemma load_line_next (line : string) (next next' : option string)
      (st : Loader.loader) :
  starts_list next = starts_list next' ->
  Loader.load_line line next st = Loader.load_line line next' st.
Proof.
  unfold starts_list, Loader.load_line. cbv zeta. intros H.
  now rewrite H.
Qed.

Lemma load_lines_insert (pre post : list string) (line : string) :
  passed_over line = true ->
  starts_list (hd_error post) = false ->
  forall st,
    Loader.load_lines (pre ++ line :: post) st
    = Loader.load_lines (pre ++ post) st.
Proof.
  intros Hp Hn. induction pre as [| a pre IH]; intros st.
  - cbn [app Loader.load_lines]. now rewrite load_line_passed_over.
  - cbn [app Loader.load_lines]. rewrite IH. f_equal.
    destruct pre as [| b pre]; [| reflexivity].
    cbn [app hd_error]. apply load_line_next.
    rewrite Hn. unfold starts_list. now apply passed_over_no_dash.
Qed.

(** X19.  A line the reader passes over (blank, or a comment) changes
    nothing when it stands at the end of the text or before a line that
    does not start with [-]: the text with the line and the text without
    it are read as the same mapping. *)
Theorem passed_over_line_changes_nothing
        (pre post : list string) (line : string) :
  passed_over line = true -> no_newline line = true ->
  forallb no_newline pre = true -> forallb no_newline post = true ->
  starts_list (hd_error post) = false ->
  simple_yaml_load (PyText.join PyText.nl (pre ++ line :: post))
  = simple_yaml_load (PyText.join PyText.nl (pre ++ post)).
Proof.
  intros Hp Hl Hpre Hpost Hn. unfold simple_yaml_load. f_equal. f_equal.
  rewrite split_join.
  - rewrite load_lines_insert by assumption.
    destruct (pre ++ post) as [| a l] eqn:E; [reflexivity |].
    rewrite split_join; [reflexivity | discriminate |].
    rewrite <- E, forallb_app, Hpre, Hpost. reflexivity.
  - destruct pre; discriminate.
  - rewrite forallb_app, Hpre. cbn [forallb andb]. now rewrite Hl, Hpost.
Qed.

End Comments.

Lemma note_in_header_changes_nothing :
  passed_over "# written by hand" = true
  /\ no_newline "# written by hand" = true
  /\ forallb no_newline ["target: demo"] = true
  /\ forallb no_newline ["steps:"; "  - step: 1"] = true
  /\ starts_list (hd_error ["steps:"; "  - step: 1"]) = false
  /\ simple_yaml_load
       (PyText.join PyText.nl
          (["target: demo"]
           ++ "# written by hand" :: ["steps:"; "  - step: 1"]))
     = simple_yaml_load
         (PyText.join PyText.nl
            (["target: demo"] ++ ["steps:"; "  - step: 1"])).
Proof.
  split; [reflexivity |]. split; [reflexivity |]. split; [reflexivity |].
  split; [reflexivity |]. split; [reflexivity |].
  apply (passed_over_line_changes_nothing ["target: demo"]
           ["steps:"; "  - step: 1"] "# written by hand"); reflexivity.
Defined.
